(** * CARDIAC2: beat detection, SpO2 estimation and alerting

    A shallow embedding of the signal-processing and alerting core of the
    cardiac monitor firmware, and the properties its specification states
    about it.

    Conventions of the embedding.
    - [unsigned long] and [uint32_t] are integers modulo 2^32; [long] is
      the two's complement reading of the same 32 bits; [byte] is an
      integer modulo 256.  The wrap-around is written out ([wrap32],
      [to_long], [to_byte]); arithmetic on [long] wraps as the targets
      compute it (two's complement).
    - [millis()] reads a millisecond counter.  Computation takes no time:
      the counter advances only inside [delay()] and between two calls
      made by the main loop.  A function without [delay()] therefore takes
      the reading [now] as an argument; a function that delays threads the
      counter through its state.
    - [float] fields that are only compared ([VitalSigns], the alert
      thresholds) are rationals.
    - C arrays are lists, read and written by index. *)

From Stdlib Require Import ZArith QArith Bool Lia.
From stdpp Require Import base list.
From Stdlib Require String.

Import String.StringSyntax.
#[local] Delimit Scope string_scope with string.

Local Open Scope Z_scope.

(** ** Machine integers *)

Module Machine.

Definition wrap32 (z : Z) : Z := z mod 2 ^ 32.

(** Conversion of a 32-bit pattern to [long]. *)
Definition to_long (z : Z) : Z :=
  let u := wrap32 z in if u <? 2 ^ 31 then u else u - 2 ^ 32.

Definition to_byte (z : Z) : Z := z mod 256.

(** [a - b] on [unsigned long]: the time elapsed from [b] to [a]. *)
Definition elapsed (a b : Z) : Z := wrap32 (a - b).

(** The value [millis()] returns when the counter stands at [clock]. *)
Definition millis (clock : Z) : Z := wrap32 clock.

End Machine.
Import Machine.

(** ** HeartRateCalculator (heartrate.h, heartRate.cpp) *)

Module HeartRate.

Definition RATE_ARRAY_SIZE : Z := 4.

Record HeartRateCalculator := mkHRC {
  rateArray : list Z;       (* byte rateArray[RATE_ARRAY_SIZE] *)
  rateSpot : Z;             (* byte *)
  lastBeat : Z;             (* long *)
  threshold : Z;            (* long *)
  beatDetected : bool;
  lastBeatTime : Z          (* unsigned long *)
}.

(** The constructor. *)
Definition init : HeartRateCalculator :=
  {| rateArray := replicate (Z.to_nat RATE_ARRAY_SIZE) 0;
     rateSpot := 0;
     lastBeat := 0;
     threshold := 512;
     beatDetected := false;
     lastBeatTime := 0 |}.

(** [rateArray[rateSpot++] = v; rateSpot %= RATE_ARRAY_SIZE]. *)
Definition store_rate (v : Z) (h : HeartRateCalculator) : HeartRateCalculator :=
  {| rateArray := <[Z.to_nat (rateSpot h) := v]> (rateArray h);
     rateSpot := to_byte (Z.rem (to_byte (rateSpot h + 1)) RATE_ARRAY_SIZE);
     lastBeat := lastBeat h;
     threshold := threshold h;
     beatDetected := beatDetected h;
     lastBeatTime := lastBeatTime h |}.

(** [long delta = millis() - lastBeat]. *)
Definition beat_delta (now : Z) (h : HeartRateCalculator) : Z :=
  to_long (millis now - lastBeat h).

(** The guard of the first branch of [checkForBeat]. *)
Definition beat_guard (now sample : Z) (h : HeartRateCalculator) : bool :=
  (threshold h <? sample) && negb (beatDetected h)
    && (300 <? elapsed (millis now) (lastBeatTime h)).

Definition checkForBeat (now sample : Z) (h : HeartRateCalculator)
  : bool * HeartRateCalculator :=
  if beat_guard now sample h then
    let delta := beat_delta now h in
    let h1 := {| rateArray := rateArray h;
                 rateSpot := rateSpot h;
                 lastBeat := to_long (millis now);
                 threshold := threshold h;
                 beatDetected := true;
                 lastBeatTime := millis now |} in
    let h2 := if (300 <? delta) && (delta <? 3000)
              then store_rate (to_byte (Z.quot 60000 delta)) h1
              else h1 in
    (true, h2)
  else
    let latch := if sample <? to_long (threshold h - 100)
                 then false else beatDetected h in
    (false,
     {| rateArray := rateArray h;
        rateSpot := rateSpot h;
        lastBeat := lastBeat h;
        threshold := Z.quot (to_long (threshold h * 31 + sample)) 32;
        beatDetected := latch;
        lastBeatTime := lastBeatTime h |}).

(** The loop of [getBeatsPerMinute]: [(total, validReadings)]. *)
Definition tally (acc : Z * Z) (r : Z) : Z * Z :=
  if r =? 0 then acc else (fst acc + r, snd acc + 1).

Definition getBeatsPerMinute (h : HeartRateCalculator) : Z :=
  let '(total, validReadings) := fold_left tally (rateArray h) (0, 0) in
  if validReadings =? 0 then 0 else Z.quot total validReadings.

Definition reset (h : HeartRateCalculator) : HeartRateCalculator :=
  {| rateArray := replicate (Z.to_nat RATE_ARRAY_SIZE) 0;
     rateSpot := 0;
     lastBeat := 0;
     threshold := threshold h;
     beatDetected := false;
     lastBeatTime := lastBeatTime h |}.

Definition setThreshold (newThreshold : Z) (h : HeartRateCalculator)
  : HeartRateCalculator :=
  {| rateArray := rateArray h;
     rateSpot := rateSpot h;
     lastBeat := lastBeat h;
     threshold := newThreshold;
     beatDetected := beatDetected h;
     lastBeatTime := lastBeatTime h |}.

(** The calls a client can make on the object. *)
Inductive Call :=
| CheckForBeat (now sample : Z)
| GetBeatsPerMinute
| Reset
| SetThreshold (newThreshold : Z).

Definition call (c : Call) (h : HeartRateCalculator) : HeartRateCalculator :=
  match c with
  | CheckForBeat now sample => snd (checkForBeat now sample h)
  | GetBeatsPerMinute => h
  | Reset => reset h
  | SetThreshold t => setThreshold t h
  end.

(** The state after a sequence of calls on a freshly constructed object. *)
Definition run (cs : list Call) : HeartRateCalculator :=
  fold_left (fun h c => call c h) cs init.

(** The mean the specification describes: over the non-zero entries,
    in the integer arithmetic of the return type. *)
Definition nonzero (l : list Z) : list Z := filter (fun r => r ≠ 0) l.

Definition sum (l : list Z) : Z := foldr Z.add 0 l.

Definition mean_of_nonzero (l : list Z) : Z :=
  match nonzero l with
  | [] => 0
  | nz => sum nz / Z.of_nat (length nz)
  end.

(** The readings of [millis()] at which a sequence of calls registers a
    beat, oldest first. *)
Fixpoint beat_times (cs : list Call) (h : HeartRateCalculator) : list Z :=
  match cs with
  | [] => []
  | c :: cs' =>
      let rest := beat_times cs' (call c h) in
      match c with
      | CheckForBeat now sample =>
          if fst (checkForBeat now sample h) then millis now :: rest else rest
      | _ => rest
      end
  end.

(** A sequence of stores into the ring, oldest rate first. *)
Definition store_rates (vs : list Z) (h : HeartRateCalculator) : HeartRateCalculator :=
  fold_left (fun h v => store_rate v h) vs h.

End HeartRate.

(** ** The beat detectors of the sketches *)

(** [checkForBeat] of the ESP32 sketch with the BPM ring (globals
    [rateArray], [rateSpot], [lastBeat], [beatsPerMinute]; function
    statics [lastSample], [threshold], [beatDetected], [lastBeatTime]),
    and its caller [readSensors], which writes [beatsPerMinute] too. *)
Module SketchRing.

Definition RATE_ARRAY_SIZE : Z := 4.

Record State := mkState {
  rateArray : list Z;
  rateSpot : Z;
  lastBeat : Z;
  beatsPerMinute : Z;
  lastSample : Z;
  threshold : Z;
  beatDetected : bool;
  lastBeatTime : Z
}.

Definition init : State :=
  {| rateArray := replicate (Z.to_nat RATE_ARRAY_SIZE) 0;
     rateSpot := 0; lastBeat := 0; beatsPerMinute := 0;
     lastSample := 0; threshold := 512; beatDetected := false;
     lastBeatTime := 0 |}.

Definition beat_guard (now sample : Z) (s : State) : bool :=
  (threshold s <? sample) && negb (beatDetected s)
    && (300 <? elapsed (millis now) (lastBeatTime s)).

Definition checkForBeat (now sample : Z) (s : State) : bool * State :=
  if beat_guard now sample s then
    let delta := to_long (millis now - lastBeat s) in
    if (300 <? delta) && (delta <? 3000) then
      let arr := <[Z.to_nat (rateSpot s) := to_byte (Z.quot 60000 delta)]> (rateArray s) in
      (true,
       {| rateArray := arr;
          rateSpot := to_byte (Z.rem (to_byte (rateSpot s + 1)) RATE_ARRAY_SIZE);
          lastBeat := to_long (millis now);
          beatsPerMinute := Z.quot (foldr Z.add 0 arr) RATE_ARRAY_SIZE;
          lastSample := lastSample s;
          threshold := threshold s;
          beatDetected := true;
          lastBeatTime := millis now |})
    else
      (true,
       {| rateArray := rateArray s;
          rateSpot := rateSpot s;
          lastBeat := to_long (millis now);
          beatsPerMinute := beatsPerMinute s;
          lastSample := lastSample s;
          threshold := threshold s;
          beatDetected := true;
          lastBeatTime := millis now |})
  else
    let latch := if sample <? to_long (threshold s - 50)
                 then false else beatDetected s in
    (false,
     {| rateArray := rateArray s;
        rateSpot := rateSpot s;
        lastBeat := lastBeat s;
        beatsPerMinute := beatsPerMinute s;
        lastSample := sample;
        threshold := Z.quot (to_long (threshold s * 15 + sample)) 16;
        beatDetected := latch;
        lastBeatTime := lastBeatTime s |}).

(** The heart-rate part of [readSensors], the only caller of
    [checkForBeat] (part_005, lines 189 to 211).  [lastReading] is its
    static; [heartRate] stands for [currentVitals.heartRate], a float
    that only ever receives the [int] [beatsPerMinute], the one value the
    screens print.  The finger flag, the SpO2, ECG and battery readings,
    the plot buffers and the timestamp the function also updates are left
    out: they touch none of the fields below. *)
Record Reader := mkReader {
  detector : State;
  lastReading : Z;
  heartRate : Z
}.

Definition reader_init : Reader :=
  {| detector := init; lastReading := 0; heartRate := 0 |}.

Definition set_beatsPerMinute (bpm : Z) (s : State) : State :=
  {| rateArray := rateArray s; rateSpot := rateSpot s; lastBeat := lastBeat s;
     beatsPerMinute := bpm; lastSample := lastSample s; threshold := threshold s;
     beatDetected := beatDetected s; lastBeatTime := lastBeatTime s |}.

Section Float.

(** [60 / (delta / 1000.0)], computed on [double] and converted to
    [int]. *)
Variable rate_of : Z -> Z.

(** One call: [sample] is the infrared value when the sensor has a
    sample available. *)
Definition readSensors (now : Z) (sample : option Z) (r : Reader) : Reader :=
  if elapsed (millis now) (lastReading r) <? 100 then r else
  match sample with
  | Some irValue =>
      let result := checkForBeat now (to_long irValue) (detector r) in
      if fst result then
        let delta := to_long (millis now - lastReading r) in
        let bpm := rate_of delta in
        {| detector := set_beatsPerMinute bpm (snd result);
           lastReading := millis now;
           heartRate := if (bpm <? 255) && (20 <? bpm) then bpm else heartRate r |}
      else
        {| detector := snd result; lastReading := lastReading r;
           heartRate := heartRate r |}
  | None => r
  end.

(** The calls of the main loop since start-up. *)
Definition read_all (calls : list (Z * option Z)) : Reader :=
  fold_left (fun r c => readSensors (fst c) (snd c) r) calls reader_init.

End Float.

End SketchRing.

(** [checkForBeat] of cardiac_impo.ino: no ring; the four function
    statics are the whole state. *)
Module SketchImpo.

Record State := mkState {
  lastSample : Z;
  threshold : Z;
  beatDetected : bool;
  lastBeatTime : Z
}.

Definition init : State :=
  {| lastSample := 0; threshold := 512; beatDetected := false; lastBeatTime := 0 |}.

Definition beat_guard (now sample : Z) (s : State) : bool :=
  (threshold s <? sample) && negb (beatDetected s)
    && (300 <? elapsed (millis now) (lastBeatTime s)).

(** [lastBeatTime = millis(); long delta = millis() - lastBeatTime;]:
    the difference is taken after the store. *)
Definition beat_delta (now : Z) : Z := to_long (millis now - millis now).

(** The statements after the [if]/[else if]. *)
Definition smooth (sample : Z) (s : State) : State :=
  {| lastSample := sample;
     threshold := Z.quot (to_long (threshold s * 15 + sample)) 16;
     beatDetected := beatDetected s;
     lastBeatTime := lastBeatTime s |}.

Definition checkForBeat (now sample : Z) (s : State) : bool * State :=
  if beat_guard now sample s then
    let s1 := {| lastSample := lastSample s;
                 threshold := threshold s;
                 beatDetected := true;
                 lastBeatTime := millis now |} in
    let delta := beat_delta now in
    if (300 <? delta) && (delta <? 3000) then (true, s1)
    else (false, smooth sample s1)
  else
    let s1 := if sample <? to_long (threshold s - 50)
              then {| lastSample := lastSample s;
                      threshold := threshold s;
                      beatDetected := false;
                      lastBeatTime := lastBeatTime s |}
              else s in
    (false, smooth sample s1).

End SketchImpo.

(** ** SpO2Calculator (spo2_algorithm.h, spo2_Algorithm.cpp) *)

Module SpO2.

Definition BUFFER_SIZE : Z := 100.

Record SpO2Calculator := mkSpO2 {
  irBuffer : list Z;        (* uint32_t irBuffer[BUFFER_SIZE] *)
  redBuffer : list Z;       (* uint32_t redBuffer[BUFFER_SIZE] *)
  bufferIndex : Z;
  bufferFull : bool
}.

Definition reset (s : SpO2Calculator) : SpO2Calculator :=
  {| irBuffer := replicate (Z.to_nat BUFFER_SIZE) 0;
     redBuffer := replicate (Z.to_nat BUFFER_SIZE) 0;
     bufferIndex := 0;
     bufferFull := false |}.

(** The constructor sets the index and the flag and calls [reset]. *)
Definition init : SpO2Calculator :=
  reset {| irBuffer := []; redBuffer := []; bufferIndex := 0; bufferFull := false |}.

Definition addSample (irValue redValue : Z) (s : SpO2Calculator) : SpO2Calculator :=
  let ir := <[Z.to_nat (bufferIndex s) := wrap32 irValue]> (irBuffer s) in
  let red := <[Z.to_nat (bufferIndex s) := wrap32 redValue]> (redBuffer s) in
  let idx := bufferIndex s + 1 in
  if BUFFER_SIZE <=? idx
  then {| irBuffer := ir; redBuffer := red; bufferIndex := 0; bufferFull := true |}
  else {| irBuffer := ir; redBuffer := red; bufferIndex := idx;
          bufferFull := bufferFull s |}.

(** One pass of the scanning loop for one channel: [(max, min)]. *)
Definition scan_step (acc : Z * Z) (x : Z) : Z * Z :=
  (if fst acc <? x then x else fst acc, if x <? snd acc then x else snd acc).

Definition scan (buf : list Z) : Z * Z := fold_left scan_step buf (0, 2 ^ 32 - 1).

Section Float.

(** [rnd] rounds an exact result to the nearest [float]. *)
Variable rnd : Q -> Q.

(** [float ac = max - min]: the difference is taken on [uint32_t]. *)
Definition ac (mx mn : Z) : Q := rnd (inject_Z (wrap32 (mx - mn))).

(** [float dc = (max + min) / 2.0]: the sum is taken on [uint32_t]. *)
Definition dc (mx mn : Z) : Q := rnd (inject_Z (wrap32 (mx + mn)) / 2).

(** A quotient of two floats; [None] is a division by zero. *)
Definition fdiv (a b : Q) : option Q :=
  if Qeq_bool b 0 then None else Some (rnd (a / b)).

Definition calculateRatio (s : SpO2Calculator) : option Q :=
  if negb (bufferFull s) then Some 0%Q else
  let '(irMax, irMin) := scan (irBuffer s) in
  let '(redMax, redMin) := scan (redBuffer s) in
  let irAC := ac irMax irMin in
  let irDC := dc irMax irMin in
  let redAC := ac redMax redMin in
  let redDC := dc redMax redMin in
  if Qeq_bool irDC 0 || Qeq_bool redDC 0 then Some 0%Q else
  irRatio ← fdiv irAC irDC;
  redRatio ← fdiv redAC redDC;
  if Qeq_bool irRatio 0 then Some 0%Q else
  fdiv redRatio irRatio.

Definition calculateSpO2 (s : SpO2Calculator) : option Q :=
  if negb (bufferFull s) then Some 0%Q else
  ratio ← calculateRatio s;
  if Qeq_bool ratio 0 then Some 0%Q else
  let spO2 := rnd (110 - 25 * ratio) in
  let spO2 := if Qle_bool spO2 100 then spO2 else 100%Q in
  let spO2 := if Qle_bool 70 spO2 then spO2 else 70%Q in
  Some spO2.

End Float.

(** The quantities the specification names, computed exactly. *)
Definition DC (mx mn : Z) : Q := inject_Z (mx + mn) / 2.

Definition modulation (mx mn : Z) : Q := inject_Z (mx - mn) / DC mx mn.

(** The slot the loop of [isFingerPresent] reads on its [i]-th pass. *)
Definition recent_index (bufferIndex i : Z) : Z :=
  Z.rem (bufferIndex - 1 - i + BUFFER_SIZE) BUFFER_SIZE.

(** [recentSum += irBuffer[index]] on [uint32_t]. *)
Definition recent_step (s : SpO2Calculator) (recentSum : Z) (i : nat) : Z :=
  wrap32 (recentSum
          + nth (Z.to_nat (recent_index (bufferIndex s) (Z.of_nat i))) (irBuffer s) 0).

Definition isFingerPresent (s : SpO2Calculator) : bool :=
  if negb (bufferFull s) then false else
  let recentSamples := Z.min 10 BUFFER_SIZE in
  let recentSum := fold_left (recent_step s) (seq 0 (Z.to_nat recentSamples)) 0 in
  50000 <? Z.quot recentSum recentSamples.

Definition isValidReading (s : SpO2Calculator) : bool :=
  bufferFull s && isFingerPresent s.

(** A sequence of [addSample] calls, oldest sample first, each sample an
    (infrared, red) pair. *)
Definition addSamples (samples : list (Z * Z)) (s : SpO2Calculator) : SpO2Calculator :=
  fold_left (fun s p => addSample (fst p) (snd p) s) samples s.

End SpO2.

(** ** Vital signs and thresholds (shared by the sketches) *)

Module Vitals.

Record VitalSigns := mkVitals {
  heartRate : Q;
  spO2 : Q;
  batteryLevel : Q;
  isFingerDetected : bool;
  timestamp : Z
}.

Record AlertThresholds := mkThresholds {
  heartRateMin : Q;
  heartRateMax : Q;
  spO2Min : Q;
  batteryMin : Q;
  enabled : bool
}.

(** [(int) x] for a float [x]: truncation towards zero. *)
Definition to_int (x : Q) : Z := Z.quot (Qnum x) (Z.pos (Qden x)).

Definition Qltb (a b : Q) : bool := negb (Qle_bool b a).

End Vitals.
Import Vitals.

(** ** updateSensors (the Uno and ESP32 sketches share its text) *)

Module Sensors.

Record State := mkState {
  currentVitals : VitalSigns;
  irBuffer : list Z;
  redBuffer : list Z;
  bufferIndex : Z;
  fingerDetected : bool;
  spo2 : Z;
  validSPO2 : Z;
  heartRate : Z;
  validHeartRate : Z
}.

(** The globals as the program starts. *)
Definition init (BUFFER_SIZE : Z) : State :=
  {| currentVitals := {| Vitals.heartRate := 0; Vitals.spO2 := 0;
                         batteryLevel := 0; isFingerDetected := false;
                         timestamp := 0 |};
     irBuffer := replicate (Z.to_nat BUFFER_SIZE) 0;
     redBuffer := replicate (Z.to_nat BUFFER_SIZE) 0;
     bufferIndex := 0; fingerDetected := false;
     spo2 := 0; validSPO2 := 0; heartRate := 0; validHeartRate := 0 |}.

Section Sketch.

(** The constants differ between the sketches. *)
Variable BUFFER_SIZE : Z.
Variable FINGER_THRESHOLD : Z.

(** [maxim_heart_rate_and_oxygen_saturation] of the sensor library:
    from the two buffers and [bufferLength] to
    [(spo2, validSPO2, heartRate, validHeartRate)]. *)
Variable maxim : list Z -> Z -> list Z -> Z * Z * Z * Z.

(** The branch taken when the write index reaches [BUFFER_SIZE]. *)
Definition process_buffer (finger : bool) (ir red : list Z) (s : State)
  (v : VitalSigns) : State :=
  if finger then
    let '(sp, vsp, hr, vhr) := maxim ir BUFFER_SIZE red in
    let hr_new := if negb (vhr =? 0) && (0 <? hr) && (hr <? 200)
                  then inject_Z hr else Vitals.heartRate v in
    let sp_new := if negb (vsp =? 0) && (0 <? sp) && (sp <=? 100)
                  then inject_Z sp else Vitals.spO2 v in
    {| currentVitals :=
         {| Vitals.heartRate := hr_new; Vitals.spO2 := sp_new;
            batteryLevel := batteryLevel v;
            isFingerDetected := isFingerDetected v;
            timestamp := timestamp v |};
       irBuffer := ir; redBuffer := red; bufferIndex := 0;
       fingerDetected := finger;
       spo2 := sp; validSPO2 := vsp; heartRate := hr; validHeartRate := vhr |}
  else
    {| currentVitals :=
         {| Vitals.heartRate := 0; Vitals.spO2 := 0;
            batteryLevel := batteryLevel v;
            isFingerDetected := isFingerDetected v;
            timestamp := timestamp v |};
       irBuffer := ir; redBuffer := red; bufferIndex := 0;
       fingerDetected := finger;
       spo2 := spo2 s; validSPO2 := validSPO2 s;
       heartRate := heartRate s; validHeartRate := validHeartRate s |}.

(** One call: [battery] is what [readBatteryLevel()] returns, [sample]
    is [Some (red, ir)] when the sensor has a sample available. *)
Definition updateSensors (battery : Q) (now : Z) (sample : option (Z * Z))
  (s : State) : State :=
  let v0 := {| Vitals.heartRate := Vitals.heartRate (currentVitals s);
               Vitals.spO2 := Vitals.spO2 (currentVitals s);
               batteryLevel := battery;
               isFingerDetected := isFingerDetected (currentVitals s);
               timestamp := millis now |} in
  match sample with
  | None =>
      {| currentVitals := v0;
         irBuffer := irBuffer s; redBuffer := redBuffer s;
         bufferIndex := bufferIndex s; fingerDetected := fingerDetected s;
         spo2 := spo2 s; validSPO2 := validSPO2 s;
         heartRate := heartRate s; validHeartRate := validHeartRate s |}
  | Some (redValue, irValue) =>
      let red := <[Z.to_nat (bufferIndex s) := wrap32 redValue]> (redBuffer s) in
      let ir := <[Z.to_nat (bufferIndex s) := wrap32 irValue]> (irBuffer s) in
      let finger := FINGER_THRESHOLD <? wrap32 irValue in
      let v1 := {| Vitals.heartRate := Vitals.heartRate v0;
                   Vitals.spO2 := Vitals.spO2 v0;
                   batteryLevel := batteryLevel v0;
                   isFingerDetected := finger;
                   timestamp := timestamp v0 |} in
      let idx := bufferIndex s + 1 in
      if BUFFER_SIZE <=? idx then process_buffer finger ir red s v1
      else
        {| currentVitals := v1;
           irBuffer := ir; redBuffer := red; bufferIndex := idx;
           fingerDetected := finger;
           spo2 := spo2 s; validSPO2 := validSPO2 s;
           heartRate := heartRate s; validHeartRate := validHeartRate s |}
  end.

End Sketch.

(** The main loop calls [updateSensors] over and over: each call with
    the battery reading, the time and the sample the sensor offers. *)
Definition run (BUFFER_SIZE FINGER_THRESHOLD : Z)
  (maxim : list Z -> Z -> list Z -> Z * Z * Z * Z)
  (calls : list (Q * Z * option (Z * Z))) : State :=
  fold_left (fun s c => updateSensors BUFFER_SIZE FINGER_THRESHOLD maxim
                          (fst (fst c)) (snd (fst c)) (snd c) s)
            calls (init BUFFER_SIZE).

(** The samples among the calls. *)
Definition samples (calls : list (Q * Z * option (Z * Z))) : list (Z * Z) :=
  omap snd calls.

End Sensors.

(** ** What the firmware does to the outside world *)

Module IO.

(** An alert text: the format and the integer printed into it. *)
Record Message := mkMessage { format : String.string; value : Z }.

Inductive Effect :=
| BuzzerPin (high : bool)                     (* digitalWrite(BUZZER_PIN, _) *)
| Tone (frequency duration : Z)               (* tone(BUZZER_PIN, _, _) *)
| Banner (message : Message) (level : Z)      (* showAlert *)
| SerialAlert (level : Z) (message : Message) (* the "ALERT [..]: .." line *)
| SerialText (message : String.string).

(** The alert banners shown so far, oldest first: one per triggered
    alert. *)
Definition banners (out : list Effect) : list (Message * Z) :=
  omap (fun e => match e with Banner m l => Some (m, l) | _ => None end) out.

End IO.
Import IO.

(** ** The alert engine of the Uno sketch (C arrays with counts) *)

Module Uno.

Definition MAX_ALERTS : Z := 5.
Definition MAX_HISTORY : Z := 20.
Definition ALERT_COOLDOWN : Z := 5000.

Definition ALERT_LEVEL_INFO : Z := 0.
Definition ALERT_LEVEL_WARNING : Z := 1.
Definition ALERT_LEVEL_CRITICAL : Z := 2.

Record Alert := mkAlert {
  level : Z;
  message : Message;
  timestamp : Z;
  acknowledged : bool
}.

Definition blank : Alert :=
  {| level := 0; message := mkMessage String.EmptyString 0;
     timestamp := 0; acknowledged := false |}.

Record World := mkWorld {
  clock : Z;
  activeAlerts : list Alert;
  activeAlertsCount : Z;
  alertHistory : list Alert;
  alertHistoryCount : Z;
  lastAlertTime : Z;
  output : list Effect
}.

(** The globals as the program starts, [boot] milliseconds on the counter. *)
Definition init (boot : Z) : World :=
  {| clock := boot;
     activeAlerts := replicate (Z.to_nat MAX_ALERTS) blank;
     activeAlertsCount := 0;
     alertHistory := replicate (Z.to_nat MAX_HISTORY) blank;
     alertHistoryCount := 0;
     lastAlertTime := 0;
     output := [] |}.

(** The entries in use. *)
Definition active (w : World) : list Alert :=
  take (Z.to_nat (activeAlertsCount w)) (activeAlerts w).

Definition history (w : World) : list Alert :=
  take (Z.to_nat (alertHistoryCount w)) (alertHistory w).

Definition emit (e : Effect) (w : World) : World :=
  {| clock := clock w;
     activeAlerts := activeAlerts w; activeAlertsCount := activeAlertsCount w;
     alertHistory := alertHistory w; alertHistoryCount := alertHistoryCount w;
     lastAlertTime := lastAlertTime w;
     output := output w ++ [e] |}.

Definition delay (ms : Z) (w : World) : World :=
  {| clock := clock w + ms;
     activeAlerts := activeAlerts w; activeAlertsCount := activeAlertsCount w;
     alertHistory := alertHistory w; alertHistoryCount := alertHistoryCount w;
     lastAlertTime := lastAlertTime w;
     output := output w |}.

(** The [for] loop of [playAlertSound], [remaining] beeps to go. *)
Fixpoint beeps (remaining : nat) (beepDuration : Z) (w : World) : World :=
  match remaining with
  | O => w
  | S k =>
      let w1 := emit (BuzzerPin false) (delay beepDuration (emit (BuzzerPin true) w)) in
      beeps k beepDuration (match k with O => w1 | S _ => delay 200 w1 end)
  end.

Definition playAlertSound (level : Z) (w : World) : World :=
  if level =? ALERT_LEVEL_CRITICAL then beeps 3 500 w
  else if level =? ALERT_LEVEL_WARNING then beeps 2 300 w
  else beeps 1 200 w.

(** [showAlert] draws the banner; its auto-hide timer is a static of its
    own and touches no alert state. *)
Definition showAlert (message : Message) (level : Z) (w : World) : World :=
  emit (Banner message level) w.

(** [memmove(a, a + 1, (n - 1) * sizeof(Alert))] on an array of [n]. *)
Definition memmove1 (a : list Alert) : list Alert :=
  drop 1 a ++ drop (length a - 1) a.

(** The [Alert] the function fills in before each store. *)
Definition make_alert (level : Z) (message : Message) (now : Z) : Alert :=
  {| level := level; message := message; timestamp := now; acknowledged := false |}.

Definition triggerAlert (level : Z) (message : Message) (w : World) : World :=
  if elapsed (millis (clock w)) (lastAlertTime w) <? ALERT_COOLDOWN then w else
  let alert := make_alert level message (millis (clock w)) in
  let '(act, actCount) :=
    if activeAlertsCount w <? MAX_ALERTS
    then (<[Z.to_nat (activeAlertsCount w) := alert]> (activeAlerts w),
          activeAlertsCount w + 1)
    else (activeAlerts w, activeAlertsCount w) in
  let '(hist, histCount) :=
    if alertHistoryCount w <? MAX_HISTORY
    then (<[Z.to_nat (alertHistoryCount w) := alert]> (alertHistory w),
          alertHistoryCount w + 1)
    else (<[Z.to_nat (MAX_HISTORY - 1) := alert]> (memmove1 (alertHistory w)),
          alertHistoryCount w) in
  let w1 := {| clock := clock w;
               activeAlerts := act; activeAlertsCount := actCount;
               alertHistory := hist; alertHistoryCount := histCount;
               lastAlertTime := millis (clock w);
               output := output w |} in
  let w2 := showAlert message level (playAlertSound level w1) in
  emit (SerialAlert level message) w2.

(** The test of [removeOldAlerts] for keeping an entry. *)
Definition fresh (currentTime : Z) (x : Alert) : bool :=
  negb (acknowledged x) && (elapsed currentTime (timestamp x) <=? 30000).

(** The compacting loop of [removeOldAlerts]: [i] is the read index,
    [todo] the iterations left, [newCount] the write index. *)
Fixpoint compact (currentTime : Z) (todo i newCount : nat) (a : list Alert)
  : list Alert * nat :=
  match todo with
  | O => (a, newCount)
  | S k =>
      match a !! i with
      | Some x =>
          if fresh currentTime x
          then compact currentTime k (S i) (S newCount) (<[newCount := x]> a)
          else compact currentTime k (S i) newCount a
      | None => compact currentTime k (S i) newCount a
      end
  end.

Definition removeOldAlerts (w : World) : World :=
  let currentTime := millis (clock w) in
  let '(a, newCount) :=
    compact currentTime (Z.to_nat (activeAlertsCount w)) 0 0 (activeAlerts w) in
  {| clock := clock w;
     activeAlerts := a; activeAlertsCount := Z.of_nat newCount;
     alertHistory := alertHistory w; alertHistoryCount := alertHistoryCount w;
     lastAlertTime := lastAlertTime w;
     output := output w |}.

Definition check_heart_rate (v : VitalSigns) (t : AlertThresholds) (w : World) : World :=
  if isFingerDetected v && Qltb 0 (heartRate v) then
    if Qltb (heartRate v) (heartRateMin t) || Qltb (heartRateMax t) (heartRate v) then
      let level := if Qltb (heartRate v) 50 || Qltb 120 (heartRate v)
                   then ALERT_LEVEL_CRITICAL else ALERT_LEVEL_WARNING in
      triggerAlert level (mkMessage "HR: %d BPM"%string (to_int (heartRate v))) w
    else w
  else w.

Definition check_spo2 (v : VitalSigns) (t : AlertThresholds) (w : World) : World :=
  if isFingerDetected v && Qltb 0 (spO2 v) then
    if Qltb (spO2 v) (spO2Min t) then
      let level := if Qltb (spO2 v) 90
                   then ALERT_LEVEL_CRITICAL else ALERT_LEVEL_WARNING in
      triggerAlert level (mkMessage "Low SpO2: %d%%"%string (to_int (spO2 v))) w
    else w
  else w.

Definition check_battery (v : VitalSigns) (t : AlertThresholds) (w : World) : World :=
  if Qltb (batteryLevel v) (batteryMin t) then
    let level := if Qltb (batteryLevel v) 10
                 then ALERT_LEVEL_CRITICAL else ALERT_LEVEL_WARNING in
    triggerAlert level (mkMessage "Low battery: %d%%"%string (to_int (batteryLevel v))) w
  else w.

(** One evaluation cycle on the globals [currentVitals] and
    [alertThresholds]. *)
(** The three threshold checks of a cycle, in the order of the source. *)
Definition checks (v : VitalSigns) (t : AlertThresholds) (w : World) : World :=
  check_battery v t (check_spo2 v t (check_heart_rate v t w)).

Definition checkAlerts (v : VitalSigns) (t : AlertThresholds) (w : World) : World :=
  if negb (enabled t) then w else removeOldAlerts (checks v t w).

(** The threshold breaches of a snapshot, as the level and text the
    cycle hands to [triggerAlert], in the order of the checks. *)
Definition breaches (v : VitalSigns) (t : AlertThresholds) : list (Z * Message) :=
  (if isFingerDetected v && Qltb 0 (heartRate v)
      && (Qltb (heartRate v) (heartRateMin t) || Qltb (heartRateMax t) (heartRate v))
   then [(if Qltb (heartRate v) 50 || Qltb 120 (heartRate v)
          then ALERT_LEVEL_CRITICAL else ALERT_LEVEL_WARNING,
          mkMessage "HR: %d BPM"%string (to_int (heartRate v)))]
   else [])
  ++ (if isFingerDetected v && Qltb 0 (spO2 v) && Qltb (spO2 v) (spO2Min t)
      then [(if Qltb (spO2 v) 90 then ALERT_LEVEL_CRITICAL else ALERT_LEVEL_WARNING,
             mkMessage "Low SpO2: %d%%"%string (to_int (spO2 v)))]
      else [])
  ++ (if Qltb (batteryLevel v) (batteryMin t)
      then [(if Qltb (batteryLevel v) 10 then ALERT_LEVEL_CRITICAL else ALERT_LEVEL_WARNING,
             mkMessage "Low battery: %d%%"%string (to_int (batteryLevel v)))]
      else []).

(** One call of [triggerAlert] per breach. *)
Definition try_all (attempts : list (Z * Message)) (w : World) : World :=
  fold_left (fun w a => triggerAlert (fst a) (snd a) w) attempts w.

(** What the main loop does to the alert state. *)
Inductive Event :=
| Elapse (ms : Z)                                   (* time passes, [0 <= ms] *)
| CheckAlerts (v : VitalSigns) (t : AlertThresholds)
| TriggerAlert (level : Z) (message : Message).

Definition step (w : World) (e : Event) : World :=
  match e with
  | Elapse ms => delay (Z.max 0 ms) w
  | CheckAlerts v t => checkAlerts v t w
  | TriggerAlert level message => triggerAlert level message w
  end.

Definition run (boot : Z) (es : list Event) : World := fold_left step es (init boot).

(** The three checks of a cycle when the clock moves on between them:
    [g1] ms pass between the heart-rate check and the SpO2 check, [g2] ms
    between the SpO2 check and the battery check.  Each call of
    [triggerAlert] reads [millis()] for itself. *)
Definition checks_timed (g1 g2 : Z) (v : VitalSigns) (t : AlertThresholds)
  (w : World) : World :=
  check_battery v t (delay g2 (check_spo2 v t (delay g1 (check_heart_rate v t w)))).

End Uno.

(** ** The alert engine of the ESP32 sketch (std::vector) *)

Module Esp32.

Inductive AlertLevel := INFO | WARNING | CRITICAL.

Definition level_code (l : AlertLevel) : Z :=
  match l with INFO => 0 | WARNING => 1 | CRITICAL => 2 end.

Record Alert := mkAlert {
  level : AlertLevel;
  message : Message;
  timestamp : Z;
  acknowledged : bool
}.

Record World := mkWorld {
  clock : Z;
  activeAlerts : list Alert;
  alertHistory : list Alert;
  lastAlertTime : Z;
  output : list Effect
}.

Definition init (boot : Z) : World :=
  {| clock := boot; activeAlerts := []; alertHistory := [];
     lastAlertTime := 0; output := [] |}.

Definition emit (e : Effect) (w : World) : World :=
  {| clock := clock w; activeAlerts := activeAlerts w;
     alertHistory := alertHistory w; lastAlertTime := lastAlertTime w;
     output := output w ++ [e] |}.

Definition delay (ms : Z) (w : World) : World :=
  {| clock := clock w + ms; activeAlerts := activeAlerts w;
     alertHistory := alertHistory w; lastAlertTime := lastAlertTime w;
     output := output w |}.

Fixpoint beeps (remaining : nat) (beepDuration : Z) (w : World) : World :=
  match remaining with
  | O => w
  | S k =>
      let w1 := emit (BuzzerPin false) (delay beepDuration (emit (BuzzerPin true) w)) in
      beeps k beepDuration (match k with O => w1 | S _ => delay 200 w1 end)
  end.

Definition playAlertSound (l : AlertLevel) (w : World) : World :=
  match l with
  | CRITICAL => beeps 3 500 w
  | WARNING => beeps 2 300 w
  | INFO => beeps 1 200 w
  end.

Definition showAlert (message : Message) (l : AlertLevel) (w : World) : World :=
  emit (Banner message (level_code l)) w.

(** [push_back], then [erase(begin())] once the size exceeds 50. *)
Definition push_history (alert : Alert) (h : list Alert) : list Alert :=
  let h1 := h ++ [alert] in
  if (50 <? Z.of_nat (length h1)) then drop 1 h1 else h1.

Definition make_alert (l : AlertLevel) (message : Message) (now : Z) : Alert :=
  {| level := l; message := message; timestamp := now; acknowledged := false |}.

Definition triggerAlert (l : AlertLevel) (message : Message) (w : World) : World :=
  if elapsed (millis (clock w)) (lastAlertTime w) <? 5000 then w else
  let alert := make_alert l message (millis (clock w)) in
  let w1 := {| clock := clock w;
               activeAlerts := activeAlerts w ++ [alert];
               alertHistory := push_history alert (alertHistory w);
               lastAlertTime := millis (clock w);
               output := output w |} in
  emit (SerialAlert (level_code l) message) (showAlert message l (playAlertSound l w1)).

(** The predicate handed to [std::remove_if]. *)
Definition expired (currentTime : Z) (alert : Alert) : bool :=
  acknowledged alert || (30000 <? elapsed currentTime (timestamp alert)).

Definition removeOldAlerts (w : World) : World :=
  let currentTime := millis (clock w) in
  {| clock := clock w;
     activeAlerts := filter (fun a => expired currentTime a = false) (activeAlerts w);
     alertHistory := alertHistory w;
     lastAlertTime := lastAlertTime w;
     output := output w |}.

Definition check_heart_rate (v : VitalSigns) (t : AlertThresholds) (w : World) : World :=
  if isFingerDetected v && Qltb 0 (heartRate v) then
    if Qltb (heartRate v) (heartRateMin t) || Qltb (heartRateMax t) (heartRate v) then
      let l := if Qltb (heartRate v) 50 || Qltb 120 (heartRate v)
               then CRITICAL else WARNING in
      triggerAlert l (mkMessage "Heart rate: %d BPM"%string (to_int (heartRate v))) w
    else w
  else w.

Definition check_spo2 (v : VitalSigns) (t : AlertThresholds) (w : World) : World :=
  if isFingerDetected v && Qltb 0 (spO2 v) then
    if Qltb (spO2 v) (spO2Min t) then
      let l := if Qltb (spO2 v) 90 then CRITICAL else WARNING in
      triggerAlert l (mkMessage "Low SpO2: %d%%"%string (to_int (spO2 v))) w
    else w
  else w.

Definition check_battery (v : VitalSigns) (t : AlertThresholds) (w : World) : World :=
  if Qltb (batteryLevel v) (batteryMin t) then
    let l := if Qltb (batteryLevel v) 10 then CRITICAL else WARNING in
    triggerAlert l (mkMessage "Low battery: %d%%"%string (to_int (batteryLevel v))) w
  else w.

(** The three threshold checks of a cycle, in the order of the source. *)
Definition checks (v : VitalSigns) (t : AlertThresholds) (w : World) : World :=
  check_battery v t (check_spo2 v t (check_heart_rate v t w)).

Definition checkAlerts (v : VitalSigns) (t : AlertThresholds) (w : World) : World :=
  if negb (enabled t) then w else removeOldAlerts (checks v t w).

Definition breaches (v : VitalSigns) (t : AlertThresholds)
  : list (AlertLevel * Message) :=
  (if isFingerDetected v && Qltb 0 (heartRate v)
      && (Qltb (heartRate v) (heartRateMin t) || Qltb (heartRateMax t) (heartRate v))
   then [(if Qltb (heartRate v) 50 || Qltb 120 (heartRate v) then CRITICAL else WARNING,
          mkMessage "Heart rate: %d BPM"%string (to_int (heartRate v)))]
   else [])
  ++ (if isFingerDetected v && Qltb 0 (spO2 v) && Qltb (spO2 v) (spO2Min t)
      then [(if Qltb (spO2 v) 90 then CRITICAL else WARNING,
             mkMessage "Low SpO2: %d%%"%string (to_int (spO2 v)))]
      else [])
  ++ (if Qltb (batteryLevel v) (batteryMin t)
      then [(if Qltb (batteryLevel v) 10 then CRITICAL else WARNING,
             mkMessage "Low battery: %d%%"%string (to_int (batteryLevel v)))]
      else []).

Definition try_all (attempts : list (AlertLevel * Message)) (w : World) : World :=
  fold_left (fun w a => triggerAlert (fst a) (snd a) w) attempts w.

Inductive Event :=
| Elapse (ms : Z)
| CheckAlerts (v : VitalSigns) (t : AlertThresholds)
| TriggerAlert (l : AlertLevel) (message : Message).

Definition step (w : World) (e : Event) : World :=
  match e with
  | Elapse ms => delay (Z.max 0 ms) w
  | CheckAlerts v t => checkAlerts v t w
  | TriggerAlert l message => triggerAlert l message w
  end.

Definition run (boot : Z) (es : list Event) : World := fold_left step es (init boot).

(** The three checks of a cycle when the clock moves on between them:
    [g1] ms pass between the heart-rate check and the SpO2 check, [g2] ms
    between the SpO2 check and the battery check.  Each call of
    [triggerAlert] reads [millis()] for itself. *)
Definition checks_timed (g1 g2 : Z) (v : VitalSigns) (t : AlertThresholds)
  (w : World) : World :=
  check_battery v t (delay g2 (check_spo2 v t (delay g1 (check_heart_rate v t w)))).

End Esp32.

(** ** AlertManager (alert.h, alerts.cpp) *)

Module AlertMgr.

Definition MAX_ALERTS : Z := 10.

Inductive AlertType :=
| ALERT_NONE
| ALERT_HIGH_HEART_RATE
| ALERT_LOW_HEART_RATE
| ALERT_LOW_SPO2
| ALERT_LOW_BATTERY
| ALERT_SENSOR_ERROR
| ALERT_NO_FINGER.

Definition type_eqb (a b : AlertType) : bool :=
  match a, b with
  | ALERT_NONE, ALERT_NONE
  | ALERT_HIGH_HEART_RATE, ALERT_HIGH_HEART_RATE
  | ALERT_LOW_HEART_RATE, ALERT_LOW_HEART_RATE
  | ALERT_LOW_SPO2, ALERT_LOW_SPO2
  | ALERT_LOW_BATTERY, ALERT_LOW_BATTERY
  | ALERT_SENSOR_ERROR, ALERT_SENSOR_ERROR
  | ALERT_NO_FINGER, ALERT_NO_FINGER => true
  | _, _ => false
  end.

Record Alert := mkAlert {
  type : AlertType;
  message : String.string;
  timestamp : Z;
  acknowledged : bool
}.

Definition blank : Alert :=
  {| type := ALERT_NONE; message := String.EmptyString;
     timestamp := 0; acknowledged := false |}.

(** The object, with the millisecond counter and the output it drives. *)
Record AlertManager := mkManager {
  alerts : list Alert;      (* Alert alerts[MAX_ALERTS] *)
  alertCount : Z;
  lastBuzzerTime : Z;
  buzzerEnabled : bool;
  clock : Z;
  output : list Effect
}.

Definition init (boot : Z) : AlertManager :=
  {| alerts := replicate (Z.to_nat MAX_ALERTS) blank;
     alertCount := 0; lastBuzzerTime := 0; buzzerEnabled := true;
     clock := boot; output := [] |}.

Definition emit (e : Effect) (m : AlertManager) : AlertManager :=
  {| alerts := alerts m; alertCount := alertCount m;
     lastBuzzerTime := lastBuzzerTime m; buzzerEnabled := buzzerEnabled m;
     clock := clock m; output := output m ++ [e] |}.

Definition delay (ms : Z) (m : AlertManager) : AlertManager :=
  {| alerts := alerts m; alertCount := alertCount m;
     lastBuzzerTime := lastBuzzerTime m; buzzerEnabled := buzzerEnabled m;
     clock := clock m + ms; output := output m |}.

Fixpoint pulse (pulses : nat) (frequency duration : Z) (m : AlertManager)
  : AlertManager :=
  match pulses with
  | O => m
  | S k => pulse k frequency duration
             (delay (duration + 50) (emit (Tone frequency duration) m))
  end.

Definition playAlertTone (ty : AlertType) (m : AlertManager) : AlertManager :=
  match ty with
  | ALERT_HIGH_HEART_RATE | ALERT_LOW_SPO2 => pulse 3 1000 200 m
  | ALERT_LOW_HEART_RATE => pulse 2 800 300 m
  | ALERT_LOW_BATTERY => pulse 1 600 100 m
  | ALERT_SENSOR_ERROR => pulse 4 1200 150 m
  | _ => m
  end.

(** The body of the first loop of [addAlert] at one entry. *)
Definition recent_same_type (now : Z) (ty : AlertType) (a : Alert) : bool :=
  type_eqb (type a) ty && (elapsed now (timestamp a) <? 30000).

(** [for (i = 0; i < alertCount; i++) if (..) return;] *)
Definition has_recent (now : Z) (ty : AlertType) (m : AlertManager) : bool :=
  existsb (recent_same_type now ty) (take (Z.to_nat (alertCount m)) (alerts m)).

Definition set_type (ty : AlertType) (a : Alert) : Alert :=
  {| type := ty; message := message a; timestamp := timestamp a;
     acknowledged := acknowledged a |}.

(** [shiftAlerts]: every entry moves down one slot, the last slot keeps
    its content with its type set to [ALERT_NONE]. *)
Definition shiftAlerts (a : list Alert) : list Alert :=
  drop 1 a ++ map (set_type ALERT_NONE) (drop (length a - 1) a).

Definition addAlert (ty : AlertType) (msg : String.string) (m : AlertManager)
  : AlertManager :=
  if has_recent (millis (clock m)) ty m then m else
  let '(a, n) := if MAX_ALERTS <=? alertCount m
                 then (shiftAlerts (alerts m), MAX_ALERTS - 1)
                 else (alerts m, alertCount m) in
  let alert := {| type := ty; message := msg;
                  timestamp := millis (clock m); acknowledged := false |} in
  let m1 := {| alerts := <[Z.to_nat n := alert]> a; alertCount := n + 1;
               lastBuzzerTime := lastBuzzerTime m;
               buzzerEnabled := buzzerEnabled m;
               clock := clock m; output := output m |} in
  let m2 := if buzzerEnabled m then playAlertTone ty m1 else m1 in
  emit (SerialText msg) m2.

Definition acknowledgeAlert (index : Z) (m : AlertManager) : AlertManager :=
  if (0 <=? index) && (index <? alertCount m) then
    match alerts m !! Z.to_nat index with
    | Some a =>
        {| alerts := <[Z.to_nat index :=
                        {| type := type a; message := message a;
                           timestamp := timestamp a; acknowledged := true |}]>
                       (alerts m);
           alertCount := alertCount m;
           lastBuzzerTime := lastBuzzerTime m;
           buzzerEnabled := buzzerEnabled m;
           clock := clock m; output := output m |}
    | None => m
    end
  else m.

(** The entries in use. *)
Definition active (m : AlertManager) : list Alert :=
  take (Z.to_nat (alertCount m)) (alerts m).

Definition clearAllAlerts (m : AlertManager) : AlertManager :=
  {| alerts := map (fun a => {| type := ALERT_NONE; message := message a;
                                timestamp := timestamp a; acknowledged := false |})
                   (alerts m);
     alertCount := 0;
     lastBuzzerTime := lastBuzzerTime m; buzzerEnabled := buzzerEnabled m;
     clock := clock m; output := output m |}.

Definition hasActiveAlerts (m : AlertManager) : bool :=
  existsb (fun a => negb (acknowledged a)) (active m).

Definition setBuzzerEnabled (enabled : bool) (m : AlertManager) : AlertManager :=
  {| alerts := alerts m; alertCount := alertCount m;
     lastBuzzerTime := lastBuzzerTime m; buzzerEnabled := enabled;
     clock := clock m; output := output m |}.

(** The enumerators of [AlertType] as the integers C gives them. *)
Definition type_code (ty : AlertType) : Z :=
  match ty with
  | ALERT_NONE => 0
  | ALERT_HIGH_HEART_RATE => 1
  | ALERT_LOW_HEART_RATE => 2
  | ALERT_LOW_SPO2 => 3
  | ALERT_LOW_BATTERY => 4
  | ALERT_SENSOR_ERROR => 5
  | ALERT_NO_FINGER => 6
  end.

(** One pass of the loop of [handleBuzzer] that looks for the highest
    priority among the alerts not acknowledged. *)
Definition highest (highestPriority : AlertType) (a : Alert) : AlertType :=
  if negb (acknowledged a) && (type_code highestPriority <? type_code (type a))
  then type a else highestPriority.

Definition handleBuzzer (m : AlertManager) : AlertManager :=
  if negb (buzzerEnabled m) || negb (hasActiveAlerts m) then m else
  if 2000 <? elapsed (millis (clock m)) (lastBuzzerTime m) then
    let highestPriority := fold_left highest (active m) ALERT_NONE in
    if type_eqb highestPriority ALERT_NONE then m else
    let m1 := playAlertTone highestPriority m in
    {| alerts := alerts m1; alertCount := alertCount m1;
       lastBuzzerTime := millis (clock m1); buzzerEnabled := buzzerEnabled m1;
       clock := clock m1; output := output m1 |}
  else m.

(** The calls and the passing of time the manager sees. *)
Inductive Op :=
| AddAlert (ty : AlertType) (msg : String.string)
| AcknowledgeAlert (index : Z)
| ClearAllAlerts
| SetBuzzerEnabled (enabled : bool)
| HandleBuzzer
| Elapse (ms : Z).

Definition step (m : AlertManager) (o : Op) : AlertManager :=
  match o with
  | AddAlert ty msg => addAlert ty msg m
  | AcknowledgeAlert index => acknowledgeAlert index m
  | ClearAllAlerts => clearAllAlerts m
  | SetBuzzerEnabled enabled => setBuzzerEnabled enabled m
  | HandleBuzzer => handleBuzzer m
  | Elapse ms => delay (Z.max 0 ms) m
  end.

Definition run (boot : Z) (ops : list Op) : AlertManager :=
  fold_left step ops (init boot).

(** [acknowledgeAlert(i)] for every index in use. *)
Definition acknowledge_all (m : AlertManager) : AlertManager :=
  fold_left (fun m i => acknowledgeAlert (Z.of_nat i) m)
            (seq 0 (Z.to_nat (alertCount m))) m.

End AlertMgr.

(** ** Data logging: [logData] of the three sketches
    (part_002, part_007, cardiac_monitor_arduino_uno.ino) *)

Module UnoLog.

Import Vitals.

Definition DATA_BUFFER_SIZE : Z := 50.

(** The globals [dataBuffer] and [dataBufferCount]. *)
Record Log := mkLog {
  dataBuffer : list VitalSigns;
  dataBufferCount : Z
}.

Definition zero : VitalSigns :=
  {| heartRate := 0; spO2 := 0; batteryLevel := 0;
     isFingerDetected := false; timestamp := 0 |}.

Definition init : Log :=
  {| dataBuffer := replicate (Z.to_nat DATA_BUFFER_SIZE) zero; dataBufferCount := 0 |}.

(** [memmove(a, a + 1, (n - 1) * sizeof(VitalSigns))] on an array of [n]. *)
Definition memmove1 (a : list VitalSigns) : list VitalSigns :=
  drop 1 a ++ drop (length a - 1) a.

Definition logData (currentVitals : VitalSigns) (d : Log) : Log :=
  if isFingerDetected currentVitals && Qltb 0 (heartRate currentVitals) then
    if dataBufferCount d <? DATA_BUFFER_SIZE then
      {| dataBuffer := <[Z.to_nat (dataBufferCount d) := currentVitals]> (dataBuffer d);
         dataBufferCount := dataBufferCount d + 1 |}
    else
      {| dataBuffer := <[Z.to_nat (DATA_BUFFER_SIZE - 1) := currentVitals]>
                         (memmove1 (dataBuffer d));
         dataBufferCount := dataBufferCount d |}
  else d.

(** The entries in use. *)
Definition entries (d : Log) : list VitalSigns :=
  take (Z.to_nat (dataBufferCount d)) (dataBuffer d).

(** The calls of the main loop since start-up, each with the snapshot
    [currentVitals] held at the time. *)
Definition run (snapshots : list VitalSigns) : Log :=
  fold_left (fun d v => logData v d) snapshots init.

End UnoLog.

Module Esp32Log.

Import Vitals.

Definition DATA_BUFFER_SIZE : Z := 100.

(** The vector [dataBuffer], the static [saveCounter] of [logData], and
    the buffer as it stood at each call of [saveDataToFile], which
    rewrites the file from it. *)
Record Log := mkLog {
  dataBuffer : list VitalSigns;
  saveCounter : Z;
  saves : list (list VitalSigns)
}.

Definition init : Log := {| dataBuffer := []; saveCounter := 0; saves := [] |}.

Definition saveDataToFile (d : Log) : Log :=
  {| dataBuffer := dataBuffer d; saveCounter := saveCounter d;
     saves := saves d ++ [dataBuffer d] |}.

Definition logData (currentVitals : VitalSigns) (d : Log) : Log :=
  if isFingerDetected currentVitals && Qltb 0 (heartRate currentVitals) then
    let pushed := dataBuffer d ++ [currentVitals] in
    let kept := if DATA_BUFFER_SIZE <? Z.of_nat (length pushed)
                then drop 1 pushed else pushed in
    let counter := saveCounter d + 1 in
    if 10 <=? counter then
      saveDataToFile {| dataBuffer := kept; saveCounter := 0; saves := saves d |}
    else {| dataBuffer := kept; saveCounter := counter; saves := saves d |}
  else d.

Definition run (snapshots : list VitalSigns) : Log :=
  fold_left (fun d v => logData v d) snapshots init.

End Esp32Log.

(** ** The plain monitor of cardiac_monitor_arduino_uno.ino: [loop],
    [checkAlerts], [showAlert], [playAlertSound], [logData] *)

Module Monitor.

Import Machine Vitals IO.

Definition ALERT_COOLDOWN : Z := 5000.
Definition DATA_BUFFER_SIZE : Z := 10.

(** [AlertLevel] as its enumerator value. *)
Definition INFO : Z := 0.
Definition WARNING : Z := 1.
Definition CRITICAL : Z := 2.

Record Alert := mkAlert {
  level : Z;
  message : Message;
  timestamp : Z
}.

Record World := mkWorld {
  lastAlertCheck : Z;
  activeAlert : Alert;
  alertActive : bool;
  dataBuffer : list VitalSigns;
  dataBufferIndex : Z;
  eeprom : list (list VitalSigns);     (* what each [saveDataToEEPROM] wrote *)
  clock : Z;
  output : list Effect
}.

Definition emit (e : Effect) (w : World) : World :=
  {| lastAlertCheck := lastAlertCheck w; activeAlert := activeAlert w;
     alertActive := alertActive w; dataBuffer := dataBuffer w;
     dataBufferIndex := dataBufferIndex w; eeprom := eeprom w;
     clock := clock w; output := output w ++ [e] |}.

Definition delay (ms : Z) (w : World) : World :=
  {| lastAlertCheck := lastAlertCheck w; activeAlert := activeAlert w;
     alertActive := alertActive w; dataBuffer := dataBuffer w;
     dataBufferIndex := dataBufferIndex w; eeprom := eeprom w;
     clock := clock w + ms; output := output w |}.

Definition set_lastAlertCheck (t : Z) (w : World) : World :=
  {| lastAlertCheck := t; activeAlert := activeAlert w;
     alertActive := alertActive w; dataBuffer := dataBuffer w;
     dataBufferIndex := dataBufferIndex w; eeprom := eeprom w;
     clock := clock w; output := output w |}.

Definition set_alert (a : Alert) (active : bool) (w : World) : World :=
  {| lastAlertCheck := lastAlertCheck w; activeAlert := a;
     alertActive := active; dataBuffer := dataBuffer w;
     dataBufferIndex := dataBufferIndex w; eeprom := eeprom w;
     clock := clock w; output := output w |}.

(** The banner is drawn; an alert older than 5 s is then switched off. *)
Definition showAlert (w : World) : World :=
  let w1 := emit (Banner (message (activeAlert w)) (level (activeAlert w))) w in
  if 5000 <? elapsed (millis (clock w1)) (timestamp (activeAlert w1))
  then set_alert (activeAlert w1) false w1 else w1.

Definition beep (w : World) : World :=
  delay 200 (emit (BuzzerPin false) (delay 200 (emit (BuzzerPin true) w))).

Definition playAlertSound (w : World) : World := beep (beep w).

(** The body shared by the three checks. *)
Definition raise (m : Message) (w : World) : World :=
  playAlertSound
    (showAlert
       (set_alert {| level := WARNING; message := m; timestamp := millis (clock w) |}
                  true w)).

Definition checkAlerts (v : VitalSigns) (t : AlertThresholds) (w : World) : World :=
  if elapsed (millis (clock w)) (lastAlertCheck w) <? ALERT_COOLDOWN then w else
  let w1 :=
    if isFingerDetected v && Qltb 0 (heartRate v) then
      if Qltb (heartRate v) (heartRateMin t) || Qltb (heartRateMax t) (heartRate v)
      then raise (mkMessage "HR: %d BPM"%string (to_int (heartRate v))) w else w
    else w in
  let w2 :=
    if isFingerDetected v && Qltb 0 (spO2 v) then
      if Qltb (spO2 v) (spO2Min t)
      then raise (mkMessage "SpO2: %d%%"%string (to_int (spO2 v))) w1 else w1
    else w1 in
  if Qltb (batteryLevel v) (batteryMin t)
  then raise (mkMessage "Bat: %d%%"%string (to_int (batteryLevel v))) w2 else w2.

(** The alert step of [loop]: [currentTime] is the clock as [loop] read
    it on entry. *)
Definition loop_alerts (currentTime : Z) (v : VitalSigns) (t : AlertThresholds)
  (w : World) : World :=
  if 1000 <=? elapsed currentTime (lastAlertCheck w)
  then checkAlerts v t (set_lastAlertCheck currentTime w)
  else w.

Definition saveDataToEEPROM (w : World) : World :=
  {| lastAlertCheck := lastAlertCheck w; activeAlert := activeAlert w;
     alertActive := alertActive w; dataBuffer := dataBuffer w;
     dataBufferIndex := dataBufferIndex w;
     eeprom := eeprom w ++ [take (Z.to_nat (dataBufferIndex w)) (dataBuffer w)];
     clock := clock w; output := output w |}.

Definition logData (currentVitals : VitalSigns) (w : World) : World :=
  if isFingerDetected currentVitals && Qltb 0 (heartRate currentVitals) then
    if dataBufferIndex w <? DATA_BUFFER_SIZE then
      saveDataToEEPROM
        {| lastAlertCheck := lastAlertCheck w; activeAlert := activeAlert w;
           alertActive := alertActive w;
           dataBuffer := <[Z.to_nat (dataBufferIndex w) := currentVitals]> (dataBuffer w);
           dataBufferIndex := dataBufferIndex w + 1; eeprom := eeprom w;
           clock := clock w; output := output w |}
    else w
  else w.

(** The entries in use. *)
Definition entries (w : World) : list VitalSigns :=
  take (Z.to_nat (dataBufferIndex w)) (dataBuffer w).

Definition zero : VitalSigns :=
  {| heartRate := 0; spO2 := 0; batteryLevel := 0;
     isFingerDetected := false; Vitals.timestamp := 0 |}.

(** The globals as [loop] first finds them, with an empty data log. *)
Definition init (boot : Z) : World :=
  {| lastAlertCheck := 0;
     activeAlert := {| level := INFO; message := mkMessage String.EmptyString 0;
                       timestamp := 0 |};
     alertActive := false;
     dataBuffer := replicate (Z.to_nat DATA_BUFFER_SIZE) zero;
     dataBufferIndex := 0; eeprom := [];
     clock := boot; output := [] |}.

(** One pass of [loop] as far as the alert state goes: the clock is read
    on entry, [updateDisplay] redraws the banner of an active alert when
    it runs ([display]), the alert step sees the snapshot [v], and the
    pass ends in [delay(10)].  Nothing before the alert step waits. *)
Definition loop (display : bool) (v : VitalSigns) (t : AlertThresholds)
  (w : World) : World :=
  let currentTime := millis (clock w) in
  let w1 := if display && alertActive w then showAlert w else w in
  delay 10 (loop_alerts currentTime v t w1).

Definition run (boot : Z) (passes : list (bool * VitalSigns * AlertThresholds)) : World :=
  fold_left (fun w p => loop (fst (fst p)) (snd (fst p)) (snd p) w) passes (init boot).

End Monitor.

(** ** The alert latch of cardiac_impo.ino: [checkAlerts], [triggerAlert] *)

Module ImpoAlerts.

Import Machine Vitals IO.

Inductive UIState := MAIN_SCREEN | SETTINGS_SCREEN | HISTORY_SCREEN | ALERT_SCREEN.

(** The statics [alertActive] and [lastAlertCheck] of [checkAlerts], the
    screen state, the texts handed to [drawAlertScreen] and the buzzer
    pin.  The sketch keeps its thresholds in a [VitalSigns]; the field
    [ecgValue], which the alert code does not read, is left out. *)
Record World := mkWorld {
  alertActive : bool;
  lastAlertCheck : Z;
  currentState : UIState;
  alertScreens : list String.string;
  clock : Z;
  output : list Effect
}.

Definition init (boot : Z) : World :=
  {| alertActive := false; lastAlertCheck := 0; currentState := MAIN_SCREEN;
     alertScreens := []; clock := boot; output := [] |}.

Definition emit (e : Effect) (w : World) : World :=
  {| alertActive := alertActive w; lastAlertCheck := lastAlertCheck w;
     currentState := currentState w; alertScreens := alertScreens w;
     clock := clock w; output := output w ++ [e] |}.

Definition delay (ms : Z) (w : World) : World :=
  {| alertActive := alertActive w; lastAlertCheck := lastAlertCheck w;
     currentState := currentState w; alertScreens := alertScreens w;
     clock := clock w + ms; output := output w |}.

Definition beep (w : World) : World :=
  delay 200 (emit (BuzzerPin false) (delay 200 (emit (BuzzerPin true) w))).

Definition triggerAlert (message : String.string) (w : World) : World :=
  let w1 := beep (beep (beep w)) in
  {| alertActive := alertActive w1; lastAlertCheck := lastAlertCheck w1;
     currentState := ALERT_SCREEN; alertScreens := alertScreens w1 ++ [message];
     clock := clock w1; output := output w1 |}.

Definition set_alertActive (b : bool) (w : World) : World :=
  {| alertActive := b; lastAlertCheck := lastAlertCheck w;
     currentState := currentState w; alertScreens := alertScreens w;
     clock := clock w; output := output w |}.

Definition set_lastAlertCheck (t : Z) (w : World) : World :=
  {| alertActive := alertActive w; lastAlertCheck := t;
     currentState := currentState w; alertScreens := alertScreens w;
     clock := clock w; output := output w |}.

Section Float.

(** Rounding of a real to the nearest [float]. *)
Variable rnd : Q -> Q.

(** [shouldAlert] and [alertMessage] as the three tests leave them. *)
Definition verdict (v th : VitalSigns) : bool * String.string :=
  let s0 := (false, String.EmptyString) in
  let s1 :=
    if isFingerDetected v then
      let s := if Qltb (rnd (heartRate th + 20)) (heartRate v)
                  || Qltb (heartRate v) (rnd (heartRate th - 20))
               then (true, "Heart Rate Alert"%string) else s0 in
      if Qltb (spO2 v) (spO2 th) then (true, "Low SpO2 Alert"%string) else s
    else s0 in
  if Qltb (batteryLevel v) (batteryLevel th) then (true, "Low Battery"%string) else s1.

Definition checkAlerts (v th : VitalSigns) (w : World) : World :=
  if elapsed (millis (clock w)) (lastAlertCheck w) <? 2000 then w else
  let shouldAlert := fst (verdict v th) in
  let alertMessage := snd (verdict v th) in
  let w1 := if shouldAlert && negb (alertActive w)
            then set_alertActive true (triggerAlert alertMessage w)
            else if negb shouldAlert then set_alertActive false w
            else w in
  set_lastAlertCheck (millis (clock w1)) w1.

(** What the main loop does to the latch. *)
Inductive Event :=
| Elapse (ms : Z)                                   (* time passes, [0 <= ms] *)
| CheckAlerts (currentVitals alertThresholds : VitalSigns).

Definition step (w : World) (e : Event) : World :=
  match e with
  | Elapse ms => delay ms w
  | CheckAlerts v th => checkAlerts v th w
  end.


End Float.

End ImpoAlerts.

(** ** Invariants and specification-level notions *)

Module Inv.

(** A ring entry: empty, or a rate a valid beat interval can give. *)
Definition plausible (r : Z) : Prop := r = 0 \/ 20 <= r <= 199.

(** The BPM ring is a four-slot array with its write index inside. *)
Definition ring_ok (arr : list Z) (spot : Z) : Prop :=
  length arr = 4%nat /\ 0 <= spot < 4 /\ Forall plausible arr.

(** Pushing [v] on a ring: the slot at the write index is overwritten
    and the index advances modulo the size. *)
Definition ring_push (v : Z) (ring : list Z * Z) : list Z * Z :=
  (<[Z.to_nat (snd ring) := v]> (fst ring), (snd ring + 1) mod 4).

(** The update of the adaptive threshold with smoothing weight [W], as
    the specification writes it. *)
Definition smoothed (W threshold sample : Z) : Z :=
  Z.quot (threshold * W + sample) (W + 1).

(** The values of a [long]. *)
Definition in_long (z : Z) : Prop := - 2 ^ 31 <= z < 2 ^ 31.

(** The same update as the code computes it, on a [long]. *)
Definition smoothed_long (W threshold sample : Z) : Z :=
  Z.quot (to_long (threshold * W + sample)) (W + 1).

(** The arrays of the Uno sketch have their declared sizes and the counts
    stay inside them. *)
Definition uno_ok (w : Uno.World) : Prop :=
  length (Uno.activeAlerts w) = Z.to_nat Uno.MAX_ALERTS
  /\ 0 <= Uno.activeAlertsCount w <= Uno.MAX_ALERTS
  /\ length (Uno.alertHistory w) = Z.to_nat Uno.MAX_HISTORY
  /\ 0 <= Uno.alertHistoryCount w <= Uno.MAX_HISTORY.

(** The History of the ESP32 sketch holds at most 50 alerts. *)
Definition esp_ok (w : Esp32.World) : Prop :=
  (length (Esp32.alertHistory w) <= 50)%nat.

(** Each time of the list is more than [gap] ms after the one before it,
    the first more than [gap] ms after [last]. *)
Fixpoint spaced (gap last : Z) (times : list Z) : Prop :=
  match times with
  | [] => True
  | t :: ts => gap < elapsed t last /\ spaced gap t ts
  end.

(** A call whose argument is an 18-bit value, as the sensor delivers. *)
Definition sensor_range (c : HeartRate.Call) : Prop :=
  match c with
  | HeartRate.CheckForBeat _ sample => 0 <= sample < 2 ^ 18
  | HeartRate.SetThreshold t => 0 <= t < 2 ^ 18
  | _ => True
  end.

(** The sketch with the BPM ring keeps its ring in shape and its running
    average equal to the sum of the four slots divided by 4. *)
Definition sketch_ok (s : SketchRing.State) : Prop :=
  ring_ok (SketchRing.rateArray s) (SketchRing.rateSpot s)
  /\ SketchRing.beatsPerMinute s
     = Z.quot (foldr Z.add 0 (SketchRing.rateArray s)) 4.

(** The array of the manager has its ten slots and the count stays inside
    it. *)
Definition mgr_ok (m : AlertMgr.AlertManager) : Prop :=
  length (AlertMgr.alerts m) = Z.to_nat AlertMgr.MAX_ALERTS
  /\ 0 <= AlertMgr.alertCount m <= AlertMgr.MAX_ALERTS.

(** The last [n] elements of a list (the whole list when it is shorter). *)
Definition last_n {A : Type} (n : nat) (l : list A) : list A :=
  drop (length l - n) l.

(** An alert as the banner showed it when it was raised. *)
Definition uno_raised (a : Uno.Alert) : Message * Z := (Uno.message a, Uno.level a).

Definition esp_raised (a : Esp32.Alert) : Message * Z :=
  (Esp32.message a, Esp32.level_code (Esp32.level a)).

(** The History of the Uno sketch is in shape and holds the last
    [MAX_HISTORY] alerts raised. *)
Definition uno_log_ok (w : Uno.World) : Prop :=
  uno_ok w
  /\ uno_raised <$> Uno.history w
     = last_n (Z.to_nat Uno.MAX_HISTORY) (banners (Uno.output w)).

Definition esp_log_ok (x : Esp32.World) : Prop :=
  esp_raised <$> Esp32.alertHistory x = last_n 50 (banners (Esp32.output x)).

(** A snapshot whose readings are whole numbers a body can show: a heart
    rate in [0, 200) and an SpO2 in [0, 100]. *)
Definition vitals_plausible (v : VitalSigns) : Prop :=
  (exists n : Z, Vitals.heartRate v = inject_Z n /\ 0 <= n < 200)
  /\ (exists n : Z, Vitals.spO2 v = inject_Z n /\ 0 <= n <= 100).

Definition sensors_ok (BUFFER_SIZE : Z) (n : nat) (s : Sensors.State) : Prop :=
  vitals_plausible (Sensors.currentVitals s)
  /\ Sensors.bufferIndex s = Z.of_nat n mod BUFFER_SIZE
  /\ length (Sensors.irBuffer s) = Z.to_nat BUFFER_SIZE
  /\ length (Sensors.redBuffer s) = Z.to_nat BUFFER_SIZE.

(** The test every [logData] makes before it stores a snapshot. *)
Definition loggable (v : VitalSigns) : bool :=
  isFingerDetected v && Qltb 0 (Vitals.heartRate v).

(** The snapshots a sequence of [logData] calls accepts. *)
Definition logged (snapshots : list VitalSigns) : list VitalSigns :=
  List.filter loggable snapshots.

(** The log of the Uno sketch is in shape and holds the latest accepted
    snapshots. *)
Definition unolog_ok (snapshots : list VitalSigns) (d : UnoLog.Log) : Prop :=
  length (UnoLog.dataBuffer d) = Z.to_nat UnoLog.DATA_BUFFER_SIZE
  /\ 0 <= UnoLog.dataBufferCount d <= UnoLog.DATA_BUFFER_SIZE
  /\ UnoLog.entries d = last_n 50 (logged snapshots).

(** The log of the ESP32 sketch after [q] saves and [r] further accepted
    snapshots. *)
Definition esplog_ok (snapshots : list VitalSigns) (d : Esp32Log.Log) : Prop :=
  Esp32Log.dataBuffer d = last_n 100 (logged snapshots)
  /\ exists q : nat,
       Z.of_nat (length (logged snapshots)) = 10 * Z.of_nat q + Esp32Log.saveCounter d
       /\ 0 <= Esp32Log.saveCounter d < 10
       /\ Esp32Log.saves d
          = (fun k => last_n 100 (take (10 * k) (logged snapshots))) <$> seq 1 q.

(** The breaches of a snapshot in the order of the checks, each with the
    time, counted from the start of the cycle, at which its call of
    [triggerAlert] is made when no alert has sounded before it. *)
Definition uno_timed_breaches (g1 g2 : Z) (v : VitalSigns) (t : AlertThresholds)
  : list (Z * (Z * Message)) :=
  (if isFingerDetected v && Qltb 0 (Vitals.heartRate v)
      && (Qltb (Vitals.heartRate v) (heartRateMin t)
          || Qltb (heartRateMax t) (Vitals.heartRate v))
   then [(0, (if Qltb (Vitals.heartRate v) 50 || Qltb 120 (Vitals.heartRate v)
              then Uno.ALERT_LEVEL_CRITICAL else Uno.ALERT_LEVEL_WARNING,
              mkMessage "HR: %d BPM"%string (to_int (Vitals.heartRate v))))]
   else [])
  ++ (if isFingerDetected v && Qltb 0 (spO2 v) && Qltb (spO2 v) (spO2Min t)
      then [(g1, (if Qltb (spO2 v) 90
                  then Uno.ALERT_LEVEL_CRITICAL else Uno.ALERT_LEVEL_WARNING,
                  mkMessage "Low SpO2: %d%%"%string (to_int (spO2 v))))]
      else [])
  ++ (if Qltb (batteryLevel v) (batteryMin t)
      then [(g1 + g2, (if Qltb (batteryLevel v) 10
                       then Uno.ALERT_LEVEL_CRITICAL else Uno.ALERT_LEVEL_WARNING,
                       mkMessage "Low battery: %d%%"%string (to_int (batteryLevel v))))]
      else []).

(** The cooldown, measured from the state [w] in which the cycle starts,
    is over [g] ms later. *)
Definition uno_open_at (w : Uno.World) (g : Z) : bool :=
  Uno.ALERT_COOLDOWN <=? elapsed (millis (Uno.clock w + g)) (Uno.lastAlertTime w).

(** The banner of the first attempt that finds the cooldown over. *)
Definition uno_first_open (w : Uno.World) (attempts : list (Z * (Z * Message)))
  : list (Message * Z) :=
  match List.find (fun a => uno_open_at w (fst a)) attempts with
  | Some a => [(snd (snd a), fst (snd a))]
  | None => []
  end.

Definition esp_timed_breaches (g1 g2 : Z) (v : VitalSigns) (t : AlertThresholds)
  : list (Z * (Esp32.AlertLevel * Message)) :=
  (if isFingerDetected v && Qltb 0 (Vitals.heartRate v)
      && (Qltb (Vitals.heartRate v) (heartRateMin t)
          || Qltb (heartRateMax t) (Vitals.heartRate v))
   then [(0, (if Qltb (Vitals.heartRate v) 50 || Qltb 120 (Vitals.heartRate v)
              then Esp32.CRITICAL else Esp32.WARNING,
              mkMessage "Heart rate: %d BPM"%string (to_int (Vitals.heartRate v))))]
   else [])
  ++ (if isFingerDetected v && Qltb 0 (spO2 v) && Qltb (spO2 v) (spO2Min t)
      then [(g1, (if Qltb (spO2 v) 90 then Esp32.CRITICAL else Esp32.WARNING,
                  mkMessage "Low SpO2: %d%%"%string (to_int (spO2 v))))]
      else [])
  ++ (if Qltb (batteryLevel v) (batteryMin t)
      then [(g1 + g2, (if Qltb (batteryLevel v) 10 then Esp32.CRITICAL else Esp32.WARNING,
                       mkMessage "Low battery: %d%%"%string (to_int (batteryLevel v))))]
      else []).

Definition esp_open_at (x : Esp32.World) (g : Z) : bool :=
  5000 <=? elapsed (millis (Esp32.clock x + g)) (Esp32.lastAlertTime x).

Definition esp_first_open (x : Esp32.World)
  (attempts : list (Z * (Esp32.AlertLevel * Message))) : list (Message * Z) :=
  match List.find (fun a => esp_open_at x (fst a)) attempts with
  | Some a => [(snd (snd a), Esp32.level_code (fst (snd a)))]
  | None => []
  end.

(** A cycle as a sequence of guarded calls of [triggerAlert], a wait
    before each: [(gap, guard, alert)]. *)
Definition gaps_total {A : Type} (stages : list (Z * bool * A)) : Z :=
  foldr (fun s acc => fst (fst s) + acc) 0 stages.

(** The calls whose guard holds, each with the time at which it is made
    when the cycle starts at [g] and no alert sounds on the way. *)
Fixpoint offsets {A : Type} (g : Z) (stages : list (Z * bool * A)) : list (Z * A) :=
  match stages with
  | [] => []
  | s :: rest =>
      (if snd (fst s) then [(g + fst (fst s), snd s)] else [])
      ++ offsets (g + fst (fst s)) rest
  end.

Definition uno_attempt (b : bool) (a : Z * Message) (w : Uno.World) : Uno.World :=
  if b then Uno.triggerAlert (fst a) (snd a) w else w.

Fixpoint uno_stages (stages : list (Z * bool * (Z * Message))) (w : Uno.World)
  : Uno.World :=
  match stages with
  | [] => w
  | s :: rest =>
      uno_stages rest (uno_attempt (snd (fst s)) (snd s) (Uno.delay (fst (fst s)) w))
  end.

Definition esp_attempt (b : bool) (a : Esp32.AlertLevel * Message) (x : Esp32.World)
  : Esp32.World :=
  if b then Esp32.triggerAlert (fst a) (snd a) x else x.

Fixpoint esp_stages (stages : list (Z * bool * (Esp32.AlertLevel * Message)))
  (x : Esp32.World) : Esp32.World :=
  match stages with
  | [] => x
  | s :: rest =>
      esp_stages rest (esp_attempt (snd (fst s)) (snd s) (Esp32.delay (fst (fst s)) x))
  end.

End Inv.
Import Inv.

Module Scenario.

(** A pulse wave sampled three times: a peak at 1000 ms, a trough at
    1400 ms, the next peak at 1800 ms (75 beats per minute). *)
Definition two_peaks : list (Z * Z) := [(1000, 600); (1400, 100); (1800, 600)].

(** Feeding samples to a detector: the results and the final state. *)
Definition feed {S : Type} (check : Z -> Z -> S -> bool * S)
  (samples : list (Z * Z)) (s : S) : list bool * S :=
  fold_left (fun acc p => let r := check (fst p) (snd p) (snd acc) in
                          (fst acc ++ [fst r], snd r))
            samples ([], s).

(** A sample buffer that has wrapped once with a dark sensor. *)
Definition dark_buffer : SpO2.SpO2Calculator :=
  fold_left (fun s _ => SpO2.addSample 0 0 s) (replicate 100 tt) SpO2.init.

(** A sample buffer filled with a pulsing signal: infrared between 90000
    and 110000, red between 95000 and 105000. *)
Definition pulsing_buffer : SpO2.SpO2Calculator :=
  fold_left (fun s k => if Nat.even k
                        then SpO2.addSample 90000 95000 s
                        else SpO2.addSample 110000 105000 s)
            (seq 0 100) SpO2.init.

(** A sensor library that always reports 72 beats per minute and 98 %. *)
Definition steady_maxim (ir : list Z) (len : Z) (red : list Z) : Z * Z * Z * Z :=
  (98, 1, 72, 1).

(** The Uno sketch ([BUFFER_SIZE] 100, [FINGER_THRESHOLD] 50000) after
    one full buffer of samples taken with a finger on the sensor. *)
Definition finger_on : Sensors.State :=
  fold_left (fun s k => Sensors.updateSensors 100 50000 steady_maxim 80
                          (100 * Z.of_nat k) (Some (60000, 60000)) s)
            (seq 1 100) (Sensors.init 100).

(** The same sketch 99 samples later: the next sample fills the last
    slot of the buffer. *)
Definition last_slot : Sensors.State :=
  fold_left (fun s k => Sensors.updateSensors 100 50000 steady_maxim 80
                          (10000 + 100 * Z.of_nat k) (Some (60000, 60000)) s)
            (seq 1 99) finger_on.

(** An oximetry alert raised at 1 s, acknowledged, and the counter 10 s
    further on. *)
Definition acknowledged_alert : AlertMgr.AlertManager :=
  AlertMgr.delay 10000
    (AlertMgr.acknowledgeAlert 0
       (AlertMgr.addAlert AlertMgr.ALERT_LOW_SPO2 "Low SpO2"%string
          (AlertMgr.init 1000))).

(** A low battery with no finger on the sensor, and an oxygen
    saturation below the default minimum. *)
Definition low_battery : VitalSigns :=
  {| heartRate := 0; spO2 := 0; batteryLevel := 15;
     isFingerDetected := false; timestamp := 0 |}.

Definition low_spo2 : VitalSigns :=
  {| heartRate := 72; spO2 := 88; batteryLevel := 80;
     isFingerDetected := true; timestamp := 0 |}.

(** The default thresholds of the sketches, and the same with the alerts
    switched off. *)
Definition defaults : AlertThresholds :=
  {| heartRateMin := 60; heartRateMax := 100; spO2Min := 95; batteryMin := 20;
     enabled := true |}.

Definition switched_off : AlertThresholds :=
  {| heartRateMin := 60; heartRateMax := 100; spO2Min := 95; batteryMin := 20;
     enabled := false |}.

(** Five evaluation cycles of the Uno sketch, 5 s apart, each finding the
    battery low. *)
Definition five_cycles : list Uno.Event :=
  Uno.Elapse 5000 :: Uno.CheckAlerts low_battery defaults
  :: concat (replicate 4 [Uno.Elapse 4200; Uno.CheckAlerts low_battery defaults]).

(** 140 samples of a dark sensor followed by ten with a finger on it, and
    99 samples with a finger on the sensor. *)
Definition finger_arrives : list (Z * Z) :=
  replicate 140 (0, 0) ++ replicate 10 (60000, 58000).

Definition short_of_full : list (Z * Z) := replicate 99 (60000, 58000).

(** A manager with a heart-rate alert and a no-finger alert, neither
    acknowledged, three seconds after the second was raised; and a manager
    whose ten slots are in use. *)
Definition no_finger_pending : AlertMgr.AlertManager :=
  AlertMgr.run 1000 [AlertMgr.AddAlert AlertMgr.ALERT_HIGH_HEART_RATE "HR high"%string;
                     AlertMgr.AddAlert AlertMgr.ALERT_NO_FINGER "No finger"%string;
                     AlertMgr.Elapse 3000].

Definition ten_alerts : list AlertMgr.Op :=
  concat (replicate 10 [AlertMgr.AddAlert AlertMgr.ALERT_LOW_BATTERY "Battery"%string;
                        AlertMgr.Elapse 31000]).

(** A sensor library gone wrong: it reports 250 beats per minute and
    120 % and calls both valid. *)
Definition wild_maxim (ir : list Z) (len : Z) (red : list Z) : Z * Z * Z * Z :=
  (120, 1, 250, 1).

(** 250 calls of [updateSensors], every fifth without a sample. *)
Definition wild_calls : list (Q * Z * option (Z * Z)) :=
  (fun k => (80%Q, 10 * Z.of_nat k,
             if (k mod 5 =? 0)%nat then None else Some (60000, 60000)))
  <$> seq 1 250.

(** A reading with a finger on the sensor. *)
Definition reading (hr : Z) (t : Z) : VitalSigns :=
  {| Vitals.heartRate := inject_Z hr; Vitals.spO2 := 98; batteryLevel := 80;
     isFingerDetected := true; timestamp := t |}.

(** Twelve readings for the data log of the plain monitor. *)
Definition twelve_readings : list VitalSigns :=
  (fun k => reading (60 + Z.of_nat k) (1000 * Z.of_nat k)) <$> seq 1 12.

(** The plain monitor 7 s after start-up, the battery at 5 % against a
    minimum of 20 %. *)
Definition flat_battery : VitalSigns :=
  {| Vitals.heartRate := 0; Vitals.spO2 := 0; batteryLevel := 5;
     isFingerDetected := false; timestamp := 7000 |}.

(** The thresholds of cardiac_impo.ino as the sketch declares them. *)
Definition impo_thresholds : VitalSigns :=
  {| Vitals.heartRate := 100; Vitals.spO2 := 95; batteryLevel := 20;
     isFingerDetected := false; timestamp := 0 |}.

(** A heart rate of 130 with the battery at 80 %, then at 10 %. *)
Definition racing (battery : Q) : VitalSigns :=
  {| Vitals.heartRate := 130; Vitals.spO2 := 98; batteryLevel := battery;
     isFingerDetected := true; timestamp := 0 |}.

(** The heart rate breaches, and three seconds later the battery runs
    low as well. *)
Definition racing_then_flat : list ImpoAlerts.Event :=
  [ImpoAlerts.CheckAlerts (racing 80) impo_thresholds;
   ImpoAlerts.Elapse 3000;
   ImpoAlerts.CheckAlerts (racing 10) impo_thresholds].

(** A heart rate of 130 and an SpO2 of 88 % with a finger on the sensor:
    two breaches of the default thresholds. *)
Definition racing_low_spo2 : VitalSigns :=
  {| Vitals.heartRate := 130; Vitals.spO2 := 88; batteryLevel := 80;
     isFingerDetected := true; timestamp := 0 |}.

End Scenario.

(** * Properties *)

(** ** Machine integers *)

Lemma wrap32_range z : 0 <= wrap32 z < 2 ^ 32.
Proof. unfold wrap32. apply Z.mod_pos_bound. lia. Qed.

Lemma wrap32_small z : 0 <= z < 2 ^ 32 -> wrap32 z = z.
Proof. intros H. unfold wrap32. apply Z.mod_small. exact H. Qed.

(** The difference of two readings is the time that passed between them,
    whatever the counter did in between, as long as less than 2^32 ms
    passed. *)
Lemma elapsed_millis c0 c : 0 <= c - c0 < 2 ^ 32 -> elapsed (millis c) (millis c0) = c - c0.
Proof.
  intros H. unfold elapsed, millis, wrap32.
  rewrite <- Zminus_mod. apply Z.mod_small. exact H.
Qed.

Lemma to_byte_small z : 0 <= z < 256 -> to_byte z = z.
Proof. intros H. unfold to_byte. apply Z.mod_small. exact H. Qed.

(** A value that fits a [long] is not changed by the wrap-around. *)
Lemma to_long_small z : - 2 ^ 31 <= z < 2 ^ 31 -> to_long z = z.
Proof.
  intros H. unfold to_long, wrap32.
  change (2 ^ 32) with 4294967296. change (2 ^ 31) with 2147483648 in *.
  destruct (Z.ltb_spec (z mod 4294967296) 2147483648);
    Z.div_mod_to_equations; lia.
Qed.

Lemma to_long_range z : - 2 ^ 31 <= to_long z < 2 ^ 31.
Proof.
  unfold to_long, wrap32.
  change (2 ^ 32) with 4294967296. change (2 ^ 31) with 2147483648.
  destruct (Z.ltb_spec (z mod 4294967296) 2147483648);
    Z.div_mod_to_equations; lia.
Qed.

(** A beat interval between 300 and 3000 ms gives 20 to 199 beats per
    minute, which fits a byte. *)
Lemma rate_of_delta delta :
  300 < delta < 3000 ->
  to_byte (Z.quot 60000 delta) = 60000 / delta /\ 20 <= 60000 / delta <= 199.
Proof.
  intros H.
  assert (Hq : Z.quot 60000 delta = 60000 / delta) by (apply Z.quot_div_nonneg; lia).
  assert (Hb : 20 <= 60000 / delta <= 199).
  { split.
    - apply Z.div_le_lower_bound; lia.
    - apply Z.lt_succ_r. apply Z.div_lt_upper_bound; lia. }
  rewrite Hq, to_byte_small by lia. auto.
Qed.

(** ** HeartRateCalculator *)

Section HeartRateFacts.

Import HeartRate.

Lemma tally_fold l : forall total valid,
  fold_left tally l (total, valid)
  = (total + sum (nonzero l), valid + Z.of_nat (length (nonzero l))).
Proof.
  induction l as [|r l IH]; intros total valid; cbn [fold_left].
  - simpl. f_equal; lia.
  - unfold nonzero in *. unfold tally at 2. cbn [fst snd].
    destruct (Z.eqb_spec r 0) as [->|Hr]; rewrite IH.
    + rewrite filter_cons_False by (intros H; apply H; reflexivity). reflexivity.
    + rewrite filter_cons_True by exact Hr. simpl. f_equal; lia.
Qed.

Lemma sum_nonzero_bounds l :
  Forall plausible l ->
  20 * Z.of_nat (length (nonzero l)) <= sum (nonzero l)
    <= 199 * Z.of_nat (length (nonzero l)).
Proof.
  unfold nonzero. induction 1 as [|r l Hr _ IH]; simpl; [lia|].
  destruct (decide (r = 0)) as [->|Hnz].
  - rewrite filter_cons_False by (intros H; apply H; reflexivity). exact IH.
  - rewrite filter_cons_True by exact Hnz. simpl.
    destruct Hr as [Hr|Hr]; [contradiction|]. lia.
Qed.

(** On a ring of plausible entries the function returns the integer
    mean of the non-zero ones, and that mean is 0 or a plausible rate. *)
Lemma getBeatsPerMinute_mean h :
  Forall plausible (rateArray h) ->
  getBeatsPerMinute h = mean_of_nonzero (rateArray h)
  /\ (getBeatsPerMinute h = 0 \/ 20 <= getBeatsPerMinute h <= 199).
Proof.
  intros Hp. pose proof (sum_nonzero_bounds _ Hp) as Hb.
  unfold getBeatsPerMinute, mean_of_nonzero.
  rewrite tally_fold. simpl.
  destruct (nonzero (rateArray h)) as [|r nz] eqn:E.
  - simpl. auto.
  - set (n := Z.of_nat (length (r :: nz))) in *.
    assert (Hn : 0 < n) by (unfold n; simpl; lia).
    destruct (Z.eqb_spec n 0) as [H0|_]; [lia|].
    rewrite Z.quot_div_nonneg by lia.
    split; [reflexivity|right]. split.
    + apply Z.div_le_lower_bound; lia.
    + apply Z.lt_succ_r. apply Z.div_lt_upper_bound; lia.
Qed.

Lemma ring_ok_init : ring_ok (rateArray init) (rateSpot init).
Proof.
  repeat split; simpl; try lia.
  repeat constructor.
Qed.

Lemma spot_advance spot :
  0 <= spot < 4 ->
  to_byte (Z.rem (to_byte (spot + 1)) RATE_ARRAY_SIZE) = (spot + 1) mod 4.
Proof.
  intros H. unfold RATE_ARRAY_SIZE.
  rewrite (to_byte_small (spot + 1)) by lia.
  rewrite Z.rem_mod_nonneg by lia.
  apply to_byte_small.
  pose proof (Z.mod_pos_bound (spot + 1) 4). lia.
Qed.

Lemma ring_ok_store v h :
  plausible v -> ring_ok (rateArray h) (rateSpot h) ->
  ring_ok (rateArray (store_rate v h)) (rateSpot (store_rate v h)).
Proof.
  intros Hv (Hlen & Hspot & Hall). unfold store_rate; simpl.
  repeat split.
  - rewrite length_insert. exact Hlen.
  - rewrite spot_advance by exact Hspot.
    pose proof (Z.mod_pos_bound (rateSpot h + 1) 4). lia.
  - rewrite spot_advance by exact Hspot.
    pose proof (Z.mod_pos_bound (rateSpot h + 1) 4). lia.
  - apply Forall_insert; assumption.
Qed.

Lemma ring_ok_call c h :
  ring_ok (rateArray h) (rateSpot h) ->
  ring_ok (rateArray (call c h)) (rateSpot (call c h)).
Proof.
  intros Hok. destruct c as [now sample| | |t]; simpl; try exact Hok.
  - unfold checkForBeat.
    destruct (beat_guard now sample h); simpl; [|exact Hok].
    destruct (_ && _) eqn:E; [|exact Hok].
    apply andb_true_iff in E as [E1 E2].
    apply Z.ltb_lt in E1, E2.
    apply ring_ok_store; [|exact Hok].
    right. destruct (rate_of_delta (beat_delta now h)) as [-> ?]; lia.
  - apply ring_ok_init.
Qed.

Lemma ring_ok_run cs : ring_ok (rateArray (run cs)) (rateSpot (run cs)).
Proof.
  unfold run. generalize ring_ok_init. generalize init.
  induction cs as [|c cs IH]; intros h Hok; simpl; [exact Hok|].
  apply IH, ring_ok_call, Hok.
Qed.

(** C8.  After any sequence of calls on a freshly constructed detector,
    [getBeatsPerMinute()] returns the mean of the non-zero entries of the
    ring (0 when there is none), and the value is 0 or lies in
    [20, 200]. *)
Theorem getBeatsPerMinute_plausible (cs : list Call) :
  getBeatsPerMinute (run cs) = mean_of_nonzero (rateArray (run cs))
  /\ (getBeatsPerMinute (run cs) = 0 \/ 20 <= getBeatsPerMinute (run cs) <= 200).
Proof.
  destruct (ring_ok_run cs) as (_ & _ & Hall).
  destruct (getBeatsPerMinute_mean _ Hall) as [Hmean Hrange].
  split; [exact Hmean|]. destruct Hrange; [left; assumption | right; lia].
Qed.

End HeartRateFacts.

Section BeatDetectorFacts.

Import HeartRate.

(** What a registered beat does to a [HeartRateCalculator]: the interval
    is measured from the stored [lastBeat], a rate is pushed on the ring
    exactly for intervals between 300 and 3000 ms, and both timestamps
    take the current reading. *)
Lemma checkForBeat_registered now sample h :
  0 <= rateSpot h < 4 ->
  beat_guard now sample h = true ->
  let delta := beat_delta now h in
  let h' := snd (checkForBeat now sample h) in
  fst (checkForBeat now sample h) = true
  /\ (rateArray h', rateSpot h')
     = (if (300 <? delta) && (delta <? 3000)
        then ring_push (60000 / delta) (rateArray h, rateSpot h)
        else (rateArray h, rateSpot h))
  /\ lastBeat h' = to_long (millis now)
  /\ lastBeatTime h' = millis now
  /\ beatDetected h' = true
  /\ threshold h' = threshold h.
Proof.
  intros Hspot Hg. unfold checkForBeat. rewrite Hg. cbn zeta.
  destruct (_ && _) eqn:E; simpl; [|repeat split].
  apply andb_true_iff in E as [E1 E2]. apply Z.ltb_lt in E1, E2.
  destruct (rate_of_delta (beat_delta now h)) as [Hrate _]; [lia|].
  rewrite Hrate, spot_advance by exact Hspot.
  repeat split.
Qed.

(** Without a registered beat the ring and both timestamps stay. *)
Lemma checkForBeat_idle now sample h :
  beat_guard now sample h = false ->
  let h' := snd (checkForBeat now sample h) in
  fst (checkForBeat now sample h) = false
  /\ rateArray h' = rateArray h /\ rateSpot h' = rateSpot h
  /\ lastBeat h' = lastBeat h /\ lastBeatTime h' = lastBeatTime h.
Proof. intros Hg. unfold checkForBeat. rewrite Hg. simpl. repeat split. Qed.

(** The sketch with the BPM ring treats a registered beat the same way
    (and refreshes its running average). *)
Lemma sketch_checkForBeat_registered now sample s :
  0 <= SketchRing.rateSpot s < 4 ->
  SketchRing.beat_guard now sample s = true ->
  let delta := to_long (millis now - SketchRing.lastBeat s) in
  let s' := snd (SketchRing.checkForBeat now sample s) in
  fst (SketchRing.checkForBeat now sample s) = true
  /\ (SketchRing.rateArray s', SketchRing.rateSpot s')
     = (if (300 <? delta) && (delta <? 3000)
        then ring_push (60000 / delta) (SketchRing.rateArray s, SketchRing.rateSpot s)
        else (SketchRing.rateArray s, SketchRing.rateSpot s))
  /\ SketchRing.lastBeat s' = to_long (millis now)
  /\ SketchRing.lastBeatTime s' = millis now.
Proof.
  intros Hspot Hg. unfold SketchRing.checkForBeat. rewrite Hg. cbn zeta.
  destruct (_ && _) eqn:E; simpl; [|repeat split].
  apply andb_true_iff in E as [E1 E2]. apply Z.ltb_lt in E1, E2.
  destruct (rate_of_delta (to_long (millis now - SketchRing.lastBeat s)))
    as [Hrate _]; [lia|].
  rewrite Hrate. unfold SketchRing.RATE_ARRAY_SIZE.
  change 4 with RATE_ARRAY_SIZE at 1. rewrite spot_advance by exact Hspot.
  repeat split.
Qed.

(** Four pushes fill the ring, and the slot the next push overwrites
    holds the oldest of the four. *)
Lemma ring_push_oldest a b c d spot v1 v2 v3 v4 :
  0 <= spot < 4 ->
  let ring := fold_left (fun r v => ring_push v r) [v1; v2; v3; v4] ([a; b; c; d], spot) in
  snd ring = spot
  /\ fst ring !! Z.to_nat (snd ring) = Some v1
  /\ fst ring !! Z.to_nat ((snd ring + 1) mod 4) = Some v2
  /\ fst ring !! Z.to_nat ((snd ring + 2) mod 4) = Some v3
  /\ fst ring !! Z.to_nat ((snd ring + 3) mod 4) = Some v4.
Proof.
  intros H.
  assert (Hs : spot = 0 \/ spot = 1 \/ spot = 2 \/ spot = 3) by lia.
  destruct Hs as [->|[->|[->| ->]]]; repeat split.
Qed.

(** Two beats 800 ms apart after a first beat at 1000 ms: the ring holds
    60 and 75 and the detector reports their integer mean. *)
Example getBeatsPerMinute_two_peaks :
  getBeatsPerMinute (snd (Scenario.feed checkForBeat Scenario.two_peaks init)) = 67.
Proof. reflexivity. Qed.

(** In the sketch of cardiac_impo.ino the interval is measured from the
    timestamp the beat has just overwritten: it is always 0, outside the
    valid range, and the function never reports a beat. *)
Lemma impo_delta_zero now : SketchImpo.beat_delta now = 0.
Proof.
  unfold SketchImpo.beat_delta. rewrite Z.sub_diag. reflexivity.
Qed.

Lemma impo_never_reports now sample s :
  fst (SketchImpo.checkForBeat now sample s) = false.
Proof.
  unfold SketchImpo.checkForBeat. rewrite impo_delta_zero.
  destruct (SketchImpo.beat_guard now sample s); reflexivity.
Qed.

(** C4.  Two peaks 800 ms apart.  [HeartRateCalculator] registers both
    and stores 60000 / 800 = 75 for the second; the sketch of
    cardiac_impo.ino takes the guarded branch at both peaks, measures an
    interval of 0 each time, and registers neither. *)
Theorem impo_two_peaks_unregistered :
  Scenario.feed checkForBeat Scenario.two_peaks init
    = ([true; false; true],
       {| rateArray := [60; 75; 0; 0]; rateSpot := 2; lastBeat := 1800;
          threshold := 499; beatDetected := true; lastBeatTime := 1800 |})
  /\ Scenario.feed SketchImpo.checkForBeat Scenario.two_peaks SketchImpo.init
    = ([false; false; false],
       {| SketchImpo.lastSample := 600; SketchImpo.threshold := 496;
          SketchImpo.beatDetected := true; SketchImpo.lastBeatTime := 1800 |})
  /\ SketchImpo.beat_guard 1800 600
       (snd (Scenario.feed SketchImpo.checkForBeat [(1000, 600); (1400, 100)]
               SketchImpo.init)) = true
  /\ SketchImpo.beat_delta 1800 = 0.
Proof. repeat split. Qed.

(** C5 as stated fails: the sample that registers a beat
    leaves the threshold of [HeartRateCalculator] (and of the sketch) at
    512, where the smoothing rule gives 514 (resp. 517). *)
Lemma threshold_kept_on_beat :
  (fst (checkForBeat 1000 600 init) = true
   /\ threshold (snd (checkForBeat 1000 600 init)) = 512
   /\ smoothed 31 (threshold init) 600 = 514
   /\ threshold (snd (checkForBeat 1000 600 init)) <> smoothed 31 (threshold init) 600)
  /\ (fst (SketchRing.checkForBeat 1000 600 SketchRing.init) = true
      /\ SketchRing.threshold (snd (SketchRing.checkForBeat 1000 600 SketchRing.init)) = 512
      /\ smoothed 15 (SketchRing.threshold SketchRing.init) 600 = 517
      /\ SketchRing.threshold (snd (SketchRing.checkForBeat 1000 600 SketchRing.init))
         <> smoothed 15 (SketchRing.threshold SketchRing.init) 600).
Proof. repeat split; discriminate. Qed.

Lemma checkForBeat_threshold now sample h :
  threshold (snd (checkForBeat now sample h))
    = (if fst (checkForBeat now sample h) then threshold h
       else smoothed_long 31 (threshold h) sample).
Proof.
  unfold checkForBeat.
  destruct (beat_guard now sample h); simpl; [|reflexivity].
  destruct (_ && _); reflexivity.
Qed.

Lemma sketch_checkForBeat_threshold now sample s :
  SketchRing.threshold (snd (SketchRing.checkForBeat now sample s))
    = (if fst (SketchRing.checkForBeat now sample s) then SketchRing.threshold s
       else smoothed_long 15 (SketchRing.threshold s) sample).
Proof.
  unfold SketchRing.checkForBeat.
  destruct (SketchRing.beat_guard now sample s); simpl; [|reflexivity].
  destruct (_ && _); reflexivity.
Qed.

(** The sketch of cardiac_impo.ino smooths on every sample, since it
    never leaves through its [return true]. *)
Lemma impo_checkForBeat_threshold now sample s :
  SketchImpo.threshold (snd (SketchImpo.checkForBeat now sample s))
    = smoothed_long 15 (SketchImpo.threshold s) sample.
Proof.
  unfold SketchImpo.checkForBeat. rewrite impo_delta_zero.
  destruct (SketchImpo.beat_guard now sample s); simpl; [reflexivity|].
  destruct (sample <? to_long (SketchImpo.threshold s - 50)); reflexivity.
Qed.

(** Where the sum fits a [long] the code computes the rule of the
    specification. *)
Lemma smoothed_long_in_range W t sample :
  in_long (t * W + sample) -> smoothed_long W t sample = smoothed W t sample.
Proof.
  intros H. unfold smoothed_long, smoothed. rewrite to_long_small by exact H.
  reflexivity.
Qed.

(** C5, amended.  A sample that registers a beat leaves the threshold
    unchanged.  On every sample that registers no beat the threshold
    becomes [(threshold * W + sample) / (W + 1)] (W = 31 in
    [HeartRateCalculator], W = 15 in the sketch with the BPM ring),
    the sum being taken on a 32-bit [long]: the result is the value of the
    smoothing rule whenever [threshold * W + sample] fits a [long], and
    the quotient of the wrapped sum otherwise. *)
Theorem threshold_smoothing now sample h s :
  (threshold (snd (checkForBeat now sample h))
     = (if fst (checkForBeat now sample h) then threshold h
        else Z.quot (to_long (threshold h * 31 + sample)) 32)
   /\ (in_long (threshold h * 31 + sample) ->
       Z.quot (to_long (threshold h * 31 + sample)) 32
       = smoothed 31 (threshold h) sample))
  /\ (SketchRing.threshold (snd (SketchRing.checkForBeat now sample s))
        = (if fst (SketchRing.checkForBeat now sample s) then SketchRing.threshold s
           else Z.quot (to_long (SketchRing.threshold s * 15 + sample)) 16)
      /\ (in_long (SketchRing.threshold s * 15 + sample) ->
          Z.quot (to_long (SketchRing.threshold s * 15 + sample)) 16
          = smoothed 15 (SketchRing.threshold s) sample)).
Proof.
  split; split.
  - apply checkForBeat_threshold.
  - apply (smoothed_long_in_range 31).
  - apply sketch_checkForBeat_threshold.
  - apply (smoothed_long_in_range 15).
Qed.

(** A sample of 100 between two beats: no beat is registered, the sum
    512 * W + 100 fits a [long], and the threshold takes the value of the
    rule, 499 (resp. 486). *)
Lemma threshold_smoothing_idle_sample :
  (threshold (snd (checkForBeat 1400 100 init)) = smoothed 31 (threshold init) 100
   /\ smoothed 31 (threshold init) 100 = 499)
  /\ (SketchRing.threshold (snd (SketchRing.checkForBeat 1400 100 SketchRing.init))
        = smoothed 15 (SketchRing.threshold SketchRing.init) 100
      /\ smoothed 15 (SketchRing.threshold SketchRing.init) 100 = 486).
Proof.
  destruct (threshold_smoothing 1400 100 init SketchRing.init)
    as [[H1 H2] [H3 H4]].
  split; (split; [|reflexivity]).
  - etransitivity; [exact H1|]. apply H2. unfold in_long. simpl. lia.
  - etransitivity; [exact H3|]. apply H4. unfold in_long. simpl. lia.
Defined.

(** Past the range of a [long] the sum wraps: with the threshold at 512
    and the refractory period running, the largest sample drives the
    threshold to -67108368, where the rule on unbounded integers gives
    67109359. *)
Example threshold_smoothing_wraps :
  checkForBeat 0 2147483647 init
    = (false,
       {| rateArray := [0; 0; 0; 0]; rateSpot := 0; lastBeat := 0;
          threshold := -67108368; beatDetected := false; lastBeatTime := 0 |})
  /\ smoothed 31 (threshold init) 2147483647 = 67109359
  /\ ~ in_long (threshold init * 31 + 2147483647).
Proof.
  split; [reflexivity|]. split; [reflexivity|].
  unfold in_long. cbn. lia.
Qed.

(** With 18-bit samples the threshold stays an 18-bit value, so the
    products of the smoothing rule stay far inside a [long]. *)
Lemma smoothed_range W t sample :
  0 < W -> 0 <= t < 2 ^ 18 -> 0 <= sample < 2 ^ 18 ->
  0 <= smoothed W t sample < 2 ^ 18.
Proof.
  intros HW Ht Hs. unfold smoothed.
  rewrite Z.quot_div_nonneg by nia. split.
  - apply Z.div_pos; nia.
  - apply Z.div_lt_upper_bound; nia.
Qed.

(** What [reset()] does: ring, write index, latch and [lastBeat] are
    cleared; the threshold and [lastBeatTime] are kept. *)
Lemma reset_frame h :
  rateArray (reset h) = [0; 0; 0; 0]
  /\ rateSpot (reset h) = 0
  /\ beatDetected (reset h) = false
  /\ lastBeat (reset h) = 0
  /\ threshold (reset h) = threshold h
  /\ lastBeatTime (reset h) = lastBeatTime h.
Proof. repeat split. Qed.

(** No call but [setThreshold] and the smoothing of [checkForBeat]
    changes the threshold. *)
Lemma threshold_frame c h :
  threshold (call c h) = threshold h
  \/ (exists t, c = SetThreshold t /\ threshold (call c h) = t)
  \/ (exists now sample, c = CheckForBeat now sample
        /\ threshold (call c h) = smoothed_long 31 (threshold h) sample).
Proof.
  destruct c as [now sample| | |t]; simpl.
  - rewrite checkForBeat_threshold.
    destruct (fst (checkForBeat now sample h)); [left; reflexivity|].
    right; right. exists now, sample. split; reflexivity.
  - left; reflexivity.
  - left; reflexivity.
  - right; left. exists t. split; reflexivity.
Qed.

(** C9.  A beat at 1000 ms, then [reset()]: the refractory timestamp
    [lastBeatTime] still reads 1000, so a peak at 1100 ms is refused,
    where a freshly constructed detector with the same threshold
    registers it. *)
Theorem reset_keeps_lastBeatTime :
  let h := snd (checkForBeat 1000 600 init) in
  lastBeatTime h = 1000
  /\ lastBeatTime (reset h) = 1000
  /\ lastBeat (reset h) = 0
  /\ fst (checkForBeat 1100 600 (reset h)) = false
  /\ lastBeatTime init = 0
  /\ threshold (reset h) = threshold init
  /\ fst (checkForBeat 1100 600 init) = true.
Proof. repeat split. Qed.

End BeatDetectorFacts.

(** ** SpO2Calculator *)

Section SpO2Facts.

Import SpO2.

(** Any rounding that rounds zero to zero. *)
Variable rnd : Q -> Q.
Hypothesis rnd_zero : forall x, x == 0 -> rnd x == 0.

Lemma half_zero z : inject_Z z / 2 == 0 -> z = 0.
Proof.
  unfold Qeq, Qdiv, Qmult, Qinv, inject_Z. simpl. lia.
Qed.

Lemma inject_zero z : inject_Z z == 0 -> z = 0.
Proof. unfold Qeq, inject_Z. simpl. lia. Qed.

Lemma quotient_zero a b : a / b == 0 -> a == 0 \/ b == 0.
Proof.
  intros H. destruct (Qeq_dec b 0) as [Hb|Hb]; [right; exact Hb|left].
  rewrite <- (Qmult_div_r a b Hb), H. ring.
Qed.

Lemma dc_zero mx mn : DC mx mn == 0 -> Qeq_bool (dc rnd mx mn) 0 = true.
Proof.
  intros H. apply half_zero in H. apply Qeq_bool_iff.
  unfold dc. rewrite H. apply rnd_zero. reflexivity.
Qed.

Lemma ac_zero mx mn : mx = mn -> ac rnd mx mn == 0.
Proof.
  intros ->. unfold ac. rewrite Z.sub_diag. apply rnd_zero. reflexivity.
Qed.

Lemma fdiv_zero a b r : a == 0 -> fdiv rnd a b = Some r -> r == 0.
Proof.
  intros Ha. unfold fdiv. destruct (Qeq_bool b 0); [discriminate|].
  intros [= <-]. apply rnd_zero. rewrite Ha. unfold Qdiv. ring.
Qed.

Lemma fdiv_some a b : Qeq_bool b 0 = false -> fdiv rnd a b = Some (rnd (a / b)).
Proof. intros H. unfold fdiv. rewrite H. reflexivity. Qed.

(** The guards stand before every quotient: no divisor is zero. *)
Lemma calculateRatio_total s : is_Some (calculateRatio rnd s).
Proof.
  unfold calculateRatio.
  destruct (negb (bufferFull s)); [eexists; reflexivity|].
  destruct (scan (irBuffer s)) as [irMax irMin].
  destruct (scan (redBuffer s)) as [redMax redMin].
  destruct (Qeq_bool (dc rnd irMax irMin) 0) eqn:Ei; [eexists; reflexivity|].
  destruct (Qeq_bool (dc rnd redMax redMin) 0) eqn:Er; [eexists; reflexivity|].
  cbn [orb]. rewrite !fdiv_some by assumption. cbn [mbind option_bind].
  destruct (Qeq_bool (rnd (ac rnd irMax irMin / dc rnd irMax irMin)) 0) eqn:Eq;
    [eexists; reflexivity|].
  rewrite fdiv_some by exact Eq. eexists; reflexivity.
Qed.

Lemma calculateSpO2_total s : is_Some (calculateSpO2 rnd s).
Proof.
  unfold calculateSpO2.
  destruct (negb (bufferFull s)); [eexists; reflexivity|].
  destruct (calculateRatio_total s) as [ratio ->]. cbn [mbind option_bind].
  destruct (Qeq_bool ratio 0); eexists; reflexivity.
Qed.

(** The ratio is the literal zero when a DC component or the infrared
    modulation vanishes. *)
Lemma calculateRatio_degenerate s :
  bufferFull s = true ->
  DC (fst (scan (irBuffer s))) (snd (scan (irBuffer s))) == 0
  \/ DC (fst (scan (redBuffer s))) (snd (scan (redBuffer s))) == 0
  \/ modulation (fst (scan (irBuffer s))) (snd (scan (irBuffer s))) == 0 ->
  calculateRatio rnd s = Some 0%Q.
Proof.
  intros Hfull H. unfold calculateRatio. rewrite Hfull. cbn [negb].
  destruct (scan (irBuffer s)) as [irMax irMin].
  destruct (scan (redBuffer s)) as [redMax redMin]. cbn [fst snd] in H.
  destruct (Qeq_bool (dc rnd irMax irMin) 0) eqn:Ei; [reflexivity|].
  destruct (Qeq_bool (dc rnd redMax redMin) 0) eqn:Er; [reflexivity|].
  cbn [orb].
  assert (Hac : irMax = irMin).
  { destruct H as [H|[H|H]].
    - rewrite (dc_zero _ _ H) in Ei. discriminate.
    - rewrite (dc_zero _ _ H) in Er. discriminate.
    - apply quotient_zero in H as [H|H].
      + apply inject_zero in H. lia.
      + rewrite (dc_zero _ _ H) in Ei. discriminate. }
  pose proof (fdiv_some (ac rnd irMax irMin) _ Ei) as E1.
  rewrite E1, (fdiv_some _ _ Er). cbn [mbind option_bind].
  apply (fdiv_zero _ _ _ (ac_zero _ _ Hac)) in E1.
  apply Qeq_bool_iff in E1. rewrite E1. reflexivity.
Qed.

(** The test the code makes is on the DC component as computed, with
    the sum taken modulo 2^32: whenever that is zero the answer is 0. *)
Lemma calculateSpO2_dc_computed s :
  Qeq_bool (dc rnd (fst (scan (irBuffer s))) (snd (scan (irBuffer s)))) 0 = true
  \/ Qeq_bool (dc rnd (fst (scan (redBuffer s))) (snd (scan (redBuffer s)))) 0 = true ->
  calculateSpO2 rnd s = Some 0%Q.
Proof.
  intros H. unfold calculateSpO2, calculateRatio.
  destruct (negb (bufferFull s)); [reflexivity|].
  destruct (scan (irBuffer s)) as [irMax irMin].
  destruct (scan (redBuffer s)) as [redMax redMin]. cbn [fst snd] in H.
  destruct H as [-> | ->]; rewrite ?orb_true_r; reflexivity.
Qed.

(** C7.  [calculateSpO2()] always returns a value (no quotient has a
    zero divisor), and the value is the sentinel 0 whenever the buffer
    has not wrapped, or the DC component [(max + min) / 2] of a channel
    is zero, or the infrared modulation ratio is zero. *)
Theorem calculateSpO2_unknown s :
  is_Some (calculateSpO2 rnd s)
  /\ (bufferFull s = false
      \/ DC (fst (scan (irBuffer s))) (snd (scan (irBuffer s))) == 0
      \/ DC (fst (scan (redBuffer s))) (snd (scan (redBuffer s))) == 0
      \/ modulation (fst (scan (irBuffer s))) (snd (scan (irBuffer s))) == 0 ->
      calculateSpO2 rnd s = Some 0%Q).
Proof.
  split; [apply calculateSpO2_total|].
  intros H. unfold calculateSpO2.
  destruct (bufferFull s) eqn:Hfull; [|reflexivity]. cbn [negb].
  rewrite calculateRatio_degenerate; [reflexivity|exact Hfull|].
  destruct H as [H|H]; [discriminate|exact H].
Qed.

End SpO2Facts.

(** A dark sensor after one wrap of the buffer: both DC components are
    zero and the estimator answers 0. *)
Lemma calculateSpO2_unknown_dark :
  SpO2.calculateSpO2 (fun q => q) Scenario.dark_buffer = Some 0%Q.
Proof.
  apply (calculateSpO2_unknown (fun q => q) (fun x H => H) Scenario.dark_buffer).
  right; left. vm_compute. reflexivity.
Defined.

(** A pulsing signal with modulation 0.2 on infrared and 0.1 on red: the
    ratio of ratios is 1/2 and the estimate 110 - 25/2. *)
Example calculateSpO2_pulsing :
  SpO2.bufferFull Scenario.pulsing_buffer = true
  /\ SpO2.scan (SpO2.irBuffer Scenario.pulsing_buffer) = (110000, 90000)
  /\ SpO2.calculateRatio (fun q => Qred q) Scenario.pulsing_buffer = Some (1 # 2)
  /\ SpO2.calculateSpO2 (fun q => Qred q) Scenario.pulsing_buffer = Some (195 # 2).
Proof. vm_compute. repeat split. Qed.

(** Before the buffer has wrapped the estimate is 0 whatever it holds. *)
Example calculateSpO2_not_full :
  SpO2.calculateSpO2 (fun q => q) (SpO2.addSample 110000 105000 SpO2.init) = Some 0%Q.
Proof. reflexivity. Qed.

(** ** updateSensors *)

Section SensorFacts.

Import Sensors.

Variables BUFFER_SIZE FINGER_THRESHOLD : Z.
Variable maxim : list Z -> Z -> list Z -> Z * Z * Z * Z.

Local Abbreviation tick := (updateSensors BUFFER_SIZE FINGER_THRESHOLD maxim).

(** Every call stamps the snapshot with the battery level and the time. *)
Lemma updateSensors_stamp battery now sample s :
  batteryLevel (currentVitals (tick battery now sample s)) = battery
  /\ timestamp (currentVitals (tick battery now sample s)) = millis now.
Proof.
  unfold updateSensors. destruct sample as [[red ir]|]; [|split; reflexivity].
  destruct (BUFFER_SIZE <=? bufferIndex s + 1); [|split; reflexivity].
  unfold process_buffer. destruct (FINGER_THRESHOLD <? wrap32 ir).
  - destruct (maxim _ _ _) as [[[sp vsp] hr] vhr]. split; reflexivity.
  - split; reflexivity.
Qed.

(** C1, amended.  On a tick whose sample evaluates finger-presence to
    false, the snapshot carries [isFingerDetected = false]; heart rate
    and SpO2 are forced to 0 when that sample completes the buffer (the
    write index wraps), and keep the values of the prior snapshot on
    every other such tick. *)
Theorem finger_loss_zeroing battery now redValue irValue s :
  (FINGER_THRESHOLD <? wrap32 irValue) = false ->
  let v := currentVitals s in
  let v' := currentVitals (tick battery now (Some (redValue, irValue)) s) in
  isFingerDetected v' = false
  /\ (if BUFFER_SIZE <=? bufferIndex s + 1
      then Vitals.heartRate v' = 0%Q /\ Vitals.spO2 v' = 0%Q
      else Vitals.heartRate v' = Vitals.heartRate v
           /\ Vitals.spO2 v' = Vitals.spO2 v).
Proof.
  intros Hf. unfold updateSensors. rewrite Hf.
  destruct (BUFFER_SIZE <=? bufferIndex s + 1); simpl; repeat split.
Qed.

End SensorFacts.

(** C1 as stated fails: a full buffer read with a finger on
    the sensor leaves 72 bpm and 98 % in the snapshot; the next sample
    evaluates finger-presence to false, and the snapshot of that tick
    still carries 72 and 98. *)
Lemma stale_vitals_after_finger_loss :
  let s := Scenario.finger_on in
  let s' := Sensors.updateSensors 100 50000 Scenario.steady_maxim 80 10100 (Some (0, 0)) s in
  Vitals.heartRate (Sensors.currentVitals s) = 72%Q
  /\ Vitals.spO2 (Sensors.currentVitals s) = 98%Q
  /\ isFingerDetected (Sensors.currentVitals s') = false
  /\ ~ (Vitals.heartRate (Sensors.currentVitals s') == 0
        /\ Vitals.spO2 (Sensors.currentVitals s') == 0).
Proof.
  vm_compute. repeat split; try reflexivity.
  intros [H _]. discriminate H.
Qed.

(** The finger leaves on the sample that fills the last slot of the
    buffer: the snapshot of that tick carries 0 for both values. *)
Lemma finger_loss_zeroing_wrap :
  let s := Scenario.last_slot in
  let v' := Sensors.currentVitals
              (Sensors.updateSensors 100 50000 Scenario.steady_maxim 80 20000
                 (Some (0, 0)) s) in
  (Vitals.heartRate (Sensors.currentVitals s) = 72%Q
   /\ Sensors.bufferIndex s = 99)
  /\ isFingerDetected v' = false
  /\ Vitals.heartRate v' = 0%Q /\ Vitals.spO2 v' = 0%Q.
Proof.
  split; [split; vm_compute; reflexivity|].
  apply (finger_loss_zeroing 100 50000 Scenario.steady_maxim 80 20000 0 0
           Scenario.last_slot).
  reflexivity.
Defined.

(** ** AlertManager *)

Section AlertManagerFacts.

Import AlertMgr.

Lemma type_eqb_eq a b : type_eqb a b = true <-> a = b.
Proof. destruct a, b; simpl; split; intros H; try reflexivity; discriminate H. Qed.

Lemma has_recent_true now ty m :
  has_recent now ty m = true <->
  exists i a, (i < Z.to_nat (alertCount m))%nat /\ alerts m !! i = Some a
              /\ type a = ty /\ elapsed now (timestamp a) < 30000.
Proof.
  unfold has_recent. rewrite existsb_exists. split.
  - intros (a & Hin & Hr).
    apply list_elem_of_In, list_elem_of_lookup in Hin as [i Hi].
    apply lookup_take_Some in Hi as [Hi Hlt].
    apply andb_true_iff in Hr as [Ht He].
    exists i, a. repeat split; try assumption.
    + apply type_eqb_eq, Ht.
    + apply Z.ltb_lt, He.
  - intros (i & a & Hlt & Hi & Ht & He).
    exists a. split.
    + apply list_elem_of_In, list_elem_of_lookup. exists i.
      rewrite lookup_take_lt by exact Hlt. exact Hi.
    + unfold recent_same_type. apply andb_true_iff. split.
      * apply type_eqb_eq, Ht.
      * apply Z.ltb_lt, He.
Qed.

(** C10.  When the first [alertCount] entries hold an alert of the same
    type stamped less than 30000 ms ago, acknowledged or not, [addAlert]
    returns the manager as it was: same array, same count, same buzzer
    state, and nothing sent to the buzzer or the serial line. *)
Theorem addAlert_duplicate_suppressed ty msg m i a :
  (i < Z.to_nat (alertCount m))%nat ->
  alerts m !! i = Some a ->
  type a = ty ->
  elapsed (millis (clock m)) (timestamp a) < 30000 ->
  addAlert ty msg m = m.
Proof.
  intros Hlt Hi Ht He. unfold addAlert.
  replace (has_recent (millis (clock m)) ty m) with true; [reflexivity|].
  symmetry. apply has_recent_true. eauto 10.
Qed.

(** Without such an entry the alert is stored in the slot after the last
    one in use (the last slot, after [shiftAlerts], when the array is
    full). *)
Lemma addAlert_fresh ty msg m :
  has_recent (millis (clock m)) ty m = false ->
  alertCount (addAlert ty msg m)
    = (if MAX_ALERTS <=? alertCount m then MAX_ALERTS else alertCount m + 1)
  /\ last (output (addAlert ty msg m)) = Some (SerialText msg).
Proof.
  intros H. unfold addAlert. rewrite H.
  destruct (MAX_ALERTS <=? alertCount m); cbn zeta;
    (split; [destruct (buzzerEnabled m); [destruct ty|]; reflexivity|]);
    unfold emit; cbn [output]; apply last_snoc.
Qed.

End AlertManagerFacts.

(** An acknowledged oximetry alert 10 s old suppresses the next one. *)
Lemma addAlert_duplicate_acknowledged :
  AlertMgr.acknowledged <$> (AlertMgr.alerts Scenario.acknowledged_alert !! 0%nat) = Some true
  /\ AlertMgr.addAlert AlertMgr.ALERT_LOW_SPO2 "Low SpO2"%string Scenario.acknowledged_alert
     = Scenario.acknowledged_alert.
Proof.
  split; [reflexivity|].
  eapply (addAlert_duplicate_suppressed _ _ Scenario.acknowledged_alert 0%nat).
  - vm_compute. lia.
  - reflexivity.
  - reflexivity.
  - vm_compute. reflexivity.
Defined.

(** ** The alert engine of the Uno sketch *)

Section UnoFacts.

Import Uno.

Lemma banners_snoc out e :
  banners (out ++ [e])
  = banners out ++ match e with Banner m l => [(m, l)] | _ => [] end.
Proof. unfold banners. rewrite omap_app. destruct e; reflexivity. Qed.

(** The buzzer loop touches the counter and the output only, and shows no
    banner. *)
Lemma playAlertSound_frame level w :
  let w' := playAlertSound level w in
  activeAlerts w' = activeAlerts w
  /\ activeAlertsCount w' = activeAlertsCount w
  /\ alertHistory w' = alertHistory w
  /\ alertHistoryCount w' = alertHistoryCount w
  /\ lastAlertTime w' = lastAlertTime w
  /\ banners (output w') = banners (output w)
  /\ clock w <= clock w' <= clock w + 1900.
Proof.
  unfold playAlertSound.
  destruct (level =? ALERT_LEVEL_CRITICAL); [|destruct (level =? ALERT_LEVEL_WARNING)];
    simpl; rewrite !banners_snoc, !app_nil_r; repeat split; lia.
Qed.

(** A call inside the cooldown window does nothing at all. *)
Lemma triggerAlert_cooling level message w :
  elapsed (millis (clock w)) (lastAlertTime w) < ALERT_COOLDOWN ->
  triggerAlert level message w = w.
Proof.
  intros H. unfold triggerAlert.
  destruct (Z.ltb_spec (elapsed (millis (clock w)) (lastAlertTime w)) ALERT_COOLDOWN);
    [reflexivity|lia].
Qed.

(** A call outside the window: what each global becomes. *)
Lemma triggerAlert_fired level message w :
  ALERT_COOLDOWN <= elapsed (millis (clock w)) (lastAlertTime w) ->
  let w' := triggerAlert level message w in
  let alert := make_alert level message (millis (clock w)) in
  activeAlerts w'
    = (if activeAlertsCount w <? MAX_ALERTS
       then <[Z.to_nat (activeAlertsCount w) := alert]> (activeAlerts w)
       else activeAlerts w)
  /\ activeAlertsCount w'
    = (if activeAlertsCount w <? MAX_ALERTS
       then activeAlertsCount w + 1 else activeAlertsCount w)
  /\ alertHistory w'
    = (if alertHistoryCount w <? MAX_HISTORY
       then <[Z.to_nat (alertHistoryCount w) := alert]> (alertHistory w)
       else <[Z.to_nat (MAX_HISTORY - 1) := alert]> (memmove1 (alertHistory w)))
  /\ alertHistoryCount w'
    = (if alertHistoryCount w <? MAX_HISTORY
       then alertHistoryCount w + 1 else alertHistoryCount w)
  /\ lastAlertTime w' = millis (clock w)
  /\ banners (output w') = banners (output w) ++ [(message, level)]
  /\ clock w <= clock w' <= clock w + 1900.
Proof.
  intros H. unfold triggerAlert.
  destruct (Z.ltb_spec (elapsed (millis (clock w)) (lastAlertTime w)) ALERT_COOLDOWN);
    [lia|].
  destruct (activeAlertsCount w <? MAX_ALERTS);
    destruct (alertHistoryCount w <? MAX_HISTORY); cbn zeta;
    match goal with
    | |- context [playAlertSound level ?w1] =>
        destruct (playAlertSound_frame level w1) as (Ha & Hac & Hh & Hhc & Hl & Hb & Hc)
    end;
    unfold showAlert, emit; cbn [activeAlerts activeAlertsCount alertHistory
      alertHistoryCount lastAlertTime output clock] in *;
    rewrite !banners_snoc, Hb, app_nil_r; repeat split; assumption || lia.
Qed.

Lemma uno_ok_init boot : uno_ok (init boot).
Proof. repeat split; try reflexivity; unfold MAX_ALERTS, MAX_HISTORY; simpl; lia. Qed.

Lemma memmove1_store (a : list Alert) x :
  (0 < length a)%nat ->
  <[(length a - 1)%nat := x]> (memmove1 a) = drop 1 a ++ [x].
Proof.
  intros Hlen. unfold memmove1.
  rewrite insert_app_r_alt by (rewrite length_drop; lia).
  rewrite length_drop, Nat.sub_diag.
  destruct (drop (length a - 1) a) as [|y l] eqn:E.
  - apply (f_equal length) in E. rewrite length_drop in E. simpl in E. lia.
  - apply (f_equal length) in E. rewrite length_drop in E. simpl in E.
    destruct l; [reflexivity|simpl in E; lia].
Qed.

Lemma take_store (a : list Alert) n x :
  (n < length a)%nat -> take (S n) (<[n := x]> a) = take n a ++ [x].
Proof.
  intros Hn. rewrite (take_S_r _ _ x) by (apply list_lookup_insert_eq; exact Hn).
  rewrite take_insert_ge by lia. reflexivity.
Qed.

(** The two collections after a call outside the cooldown window: the
    alert goes to the end of Active Alerts when a slot is free and is not
    stored there otherwise; it always goes to the end of the History,
    whose oldest entry leaves when the array is full. *)
Lemma triggerAlert_views level message w :
  uno_ok w ->
  ALERT_COOLDOWN <= elapsed (millis (clock w)) (lastAlertTime w) ->
  let w' := triggerAlert level message w in
  let alert := make_alert level message (millis (clock w)) in
  active w' = (if activeAlertsCount w <? MAX_ALERTS
               then active w ++ [alert] else active w)
  /\ history w' = (if alertHistoryCount w <? MAX_HISTORY
                  then history w else drop 1 (history w)) ++ [alert]
  /\ uno_ok w'.
Proof.
  intros (Hla & Hca & Hlh & Hch) Hfire.
  destruct (triggerAlert_fired level message w Hfire)
    as (Ea & Eac & Eh & Ehc & _).
  unfold active, history, uno_ok. cbn zeta. rewrite Ea, Eac, Eh, Ehc.
  unfold MAX_ALERTS, MAX_HISTORY in *.
  split; [|split].
  - destruct (Z.ltb_spec (activeAlertsCount w) 5); [|reflexivity].
    replace (Z.to_nat (activeAlertsCount w + 1))
      with (S (Z.to_nat (activeAlertsCount w))) by lia.
    apply take_store. lia.
  - destruct (Z.ltb_spec (alertHistoryCount w) 20).
    + replace (Z.to_nat (alertHistoryCount w + 1))
        with (S (Z.to_nat (alertHistoryCount w))) by lia.
      apply take_store. lia.
    + replace (Z.to_nat (20 - 1)) with (length (alertHistory w) - 1)%nat by lia.
      rewrite memmove1_store by lia.
      rewrite (take_ge (alertHistory w)) by lia.
      apply take_ge. rewrite length_app, length_drop. simpl. lia.
  - destruct (Z.ltb_spec (activeAlertsCount w) 5);
      destruct (Z.ltb_spec (alertHistoryCount w) 20);
      rewrite ?length_insert; repeat split; try lia.
    all: unfold memmove1; rewrite length_app, !length_drop; lia.
Qed.

(** The compacting loop keeps, in order, the entries that pass the test. *)
Lemma compact_spec t todo : forall i n (a : list Alert),
  (n <= i)%nat ->
  take (snd (compact t todo i n a)) (fst (compact t todo i n a))
    = take n a ++ filter (fun x => fresh t x = true) (take todo (drop i a))
  /\ length (fst (compact t todo i n a)) = length a
  /\ (n <= snd (compact t todo i n a) <= n + todo)%nat.
Proof.
  induction todo as [|k IH]; intros i n a Hni; cbn [compact].
  - rewrite take_0, filter_nil, app_nil_r. repeat split; simpl; lia.
  - destruct (a !! i) as [x|] eqn:Hi.
    + assert (Hlen : (i < length a)%nat) by (apply lookup_lt_is_Some; eauto).
      rewrite (drop_S _ _ _ Hi). cbn [take].
      destruct (fresh t x) eqn:Hx.
      * destruct (IH (S i) (S n) (<[n := x]> a)) as (E & El & Eb); [lia|].
        rewrite E, El, length_insert, take_store, drop_insert_lt by lia.
        rewrite filter_cons_True by exact Hx.
        rewrite <- app_assoc. repeat split; simpl; lia.
      * destruct (IH (S i) n a) as (E & El & Eb); [lia|].
        rewrite E, El.
        rewrite filter_cons_False by (rewrite Hx; discriminate).
        repeat split; lia.
    + apply lookup_ge_None in Hi.
      destruct (IH (S i) n a) as (E & El & Eb); [lia|].
      rewrite E, El, !drop_ge, !take_nil by lia.
      repeat split; lia.
Qed.

Lemma removeOldAlerts_spec w :
  let w' := removeOldAlerts w in
  active w' = filter (fun x => fresh (millis (clock w)) x = true) (active w)
  /\ (activeAlerts w', activeAlertsCount w') =
       (fst (compact (millis (clock w)) (Z.to_nat (activeAlertsCount w)) 0 0 (activeAlerts w)),
        Z.of_nat (snd (compact (millis (clock w)) (Z.to_nat (activeAlertsCount w)) 0 0
                         (activeAlerts w))))
  /\ alertHistory w' = alertHistory w
  /\ alertHistoryCount w' = alertHistoryCount w
  /\ lastAlertTime w' = lastAlertTime w
  /\ clock w' = clock w
  /\ output w' = output w.
Proof.
  unfold removeOldAlerts, active.
  destruct (compact_spec (millis (clock w)) (Z.to_nat (activeAlertsCount w)) 0 0
              (activeAlerts w)) as (E & _ & _); [lia|].
  destruct (compact _ _ _ _ _) as [a n]. simpl in *.
  rewrite Nat2Z.id, E. repeat split.
Qed.

Lemma uno_ok_removeOldAlerts w : uno_ok w -> uno_ok (removeOldAlerts w).
Proof.
  intros (Hla & Hca & Hlh & Hch).
  destruct (removeOldAlerts_spec w) as (_ & E & Eh & Ehc & _).
  injection E as Ea Ec.
  destruct (compact_spec (millis (clock w)) (Z.to_nat (activeAlertsCount w)) 0 0
              (activeAlerts w)) as (_ & El & Eb); [lia|].
  unfold uno_ok. rewrite Ea, Ec, Eh, Ehc, El. repeat split; lia.
Qed.

(** The checks of a cycle call [triggerAlert] once per breach. *)
Lemma checks_breaches v t w : checks v t w = try_all (breaches v t) w.
Proof.
  unfold checks, check_battery, check_spo2, check_heart_rate, breaches, try_all.
  rewrite !fold_left_app.
  destruct (isFingerDetected v && Qltb 0 (heartRate v));
    destruct (_ || _); cbn [andb fold_left fst snd];
    destruct (isFingerDetected v && Qltb 0 (spO2 v));
    destruct (Qltb (spO2 v) (spO2Min t)); cbn [andb fold_left fst snd];
    destruct (Qltb (batteryLevel v) (batteryMin t)); reflexivity.
Qed.

(** While the cooldown runs, no attempt gets through. *)
Lemma try_all_blocked attempts w c0 :
  lastAlertTime w = millis c0 -> c0 <= clock w < c0 + 5000 ->
  try_all attempts w = w.
Proof.
  intros Hl Hc. unfold try_all.
  induction attempts as [|[l m] attempts IH]; [reflexivity|]. cbn [fold_left fst snd].
  rewrite triggerAlert_cooling; [exact IH|].
  rewrite Hl, elapsed_millis; unfold ALERT_COOLDOWN; lia.
Qed.

(** Of the attempts of one cycle at most one gets through: the first one
    outside the cooldown window starts a window that covers the rest. *)
Lemma try_all_once attempts w :
  try_all attempts w = w
  \/ exists l m, ALERT_COOLDOWN <= elapsed (millis (clock w)) (lastAlertTime w)
                 /\ try_all attempts w = triggerAlert l m w.
Proof.
  induction attempts as [|[l m] attempts IH]; [left; reflexivity|].
  unfold try_all in *. cbn [fold_left fst snd].
  destruct (Z.lt_ge_cases (elapsed (millis (clock w)) (lastAlertTime w)) ALERT_COOLDOWN)
    as [Hcool|Hfire].
  - rewrite triggerAlert_cooling by exact Hcool. exact IH.
  - right. exists l, m. split; [exact Hfire|].
    destruct (triggerAlert_fired l m w Hfire) as (_ & _ & _ & _ & Hl & _ & Hc).
    apply (try_all_blocked _ _ (clock w)); [exact Hl|lia].
Qed.

Lemma uno_ok_triggerAlert l m w : uno_ok w -> uno_ok (triggerAlert l m w).
Proof.
  intros Hok.
  destruct (Z.lt_ge_cases (elapsed (millis (clock w)) (lastAlertTime w)) ALERT_COOLDOWN)
    as [Hcool|Hfire].
  - rewrite triggerAlert_cooling by exact Hcool. exact Hok.
  - apply (triggerAlert_views l m w Hok Hfire).
Qed.

Lemma uno_ok_checkAlerts v t w : uno_ok w -> uno_ok (checkAlerts v t w).
Proof.
  intros Hok. unfold checkAlerts. destruct (negb (enabled t)); [exact Hok|].
  apply uno_ok_removeOldAlerts. rewrite checks_breaches.
  destruct (try_all_once (breaches v t) w) as [->|(l & m & _ & ->)];
    [exact Hok|apply uno_ok_triggerAlert, Hok].
Qed.

Lemma uno_ok_step w e : uno_ok w -> uno_ok (step w e).
Proof.
  destruct e; simpl; intros Hok.
  - exact Hok.
  - apply uno_ok_checkAlerts, Hok.
  - apply uno_ok_triggerAlert, Hok.
Qed.

Lemma uno_ok_run boot es : uno_ok (run boot es).
Proof.
  unfold run. generalize (uno_ok_init boot). generalize (init boot).
  induction es as [|e es IH]; intros w Hok; simpl; [exact Hok|].
  apply IH, uno_ok_step, Hok.
Qed.

Lemma step_clock w e : clock w <= clock (step w e).
Proof.
  destruct e as [ms|v t|l m]; simpl.
  - lia.
  - unfold checkAlerts. destruct (negb (enabled t)); [lia|].
    destruct (removeOldAlerts_spec (checks v t w)) as (_ & _ & _ & _ & _ & -> & _).
    rewrite checks_breaches.
    destruct (try_all_once (breaches v t) w) as [->|(l & m & Hfire & ->)]; [lia|].
    apply (triggerAlert_fired l m w Hfire).
  - destruct (Z.lt_ge_cases (elapsed (millis (clock w)) (lastAlertTime w)) ALERT_COOLDOWN)
      as [Hcool|Hfire].
    + rewrite triggerAlert_cooling by exact Hcool. lia.
    + apply (triggerAlert_fired l m w Hfire).
Qed.

Lemma steps_clock es : forall w, clock w <= clock (fold_left step es w).
Proof.
  induction es as [|e es IH]; intros w; simpl; [lia|].
  pose proof (step_clock w e). pose proof (IH (step w e)). lia.
Qed.

(** A cycle that runs inside the cooldown window raises nothing; it only
    purges. *)
Lemma checkAlerts_blocked v t w c0 :
  lastAlertTime w = millis c0 -> c0 <= clock w < c0 + 5000 ->
  let w' := checkAlerts v t w in
  output w' = output w /\ history w' = history w
  /\ lastAlertTime w' = lastAlertTime w /\ clock w' = clock w
  /\ (length (active w') <= length (active w))%nat.
Proof.
  intros Hl Hc. unfold checkAlerts. destruct (negb (enabled t)).
  - repeat split. lia.
  - rewrite checks_breaches, (try_all_blocked _ _ c0 Hl Hc).
    destruct (removeOldAlerts_spec w) as (Ea & _ & Eh & Ehc & El & Ec & Eo).
    cbn zeta. rewrite Ea. unfold history. rewrite Eh, Ehc, El, Ec, Eo.
    repeat split. apply length_filter.
Qed.

Lemma step_blocked w e c0 :
  lastAlertTime w = millis c0 -> c0 <= clock w < c0 + 5000 ->
  banners (output (step w e)) = banners (output w)
  /\ history (step w e) = history w
  /\ lastAlertTime (step w e) = lastAlertTime w
  /\ (length (active (step w e)) <= length (active w))%nat.
Proof.
  intros Hl Hc. destruct e as [ms|v t|l m]; simpl.
  - repeat split. change (active (delay (Z.max 0 ms) w)) with (active w). lia.
  - destruct (checkAlerts_blocked v t w c0 Hl Hc) as (-> & -> & -> & _ & Ha).
    repeat split. exact Ha.
  - rewrite triggerAlert_cooling; [repeat split; lia|].
    rewrite Hl, elapsed_millis; unfold ALERT_COOLDOWN; lia.
Qed.

(** Whatever the main loop does while the counter stays inside the window
    opened at [c0], no alert is raised. *)
Lemma steps_blocked es : forall w c0,
  lastAlertTime w = millis c0 -> c0 <= clock w ->
  clock (fold_left step es w) < c0 + 5000 ->
  banners (output (fold_left step es w)) = banners (output w)
  /\ history (fold_left step es w) = history w
  /\ lastAlertTime (fold_left step es w) = lastAlertTime w
  /\ (length (active (fold_left step es w)) <= length (active w))%nat.
Proof.
  induction es as [|e es IH]; intros w c0 Hl Hc Hend; simpl in *;
    [repeat split; lia|].
  pose proof (step_clock w e) as Hs.
  pose proof (steps_clock es (step w e)) as Hss.
  destruct (step_blocked w e c0 Hl) as (Eb & Eh & El & Ea); [lia|].
  destruct (IH (step w e) c0) as (Eb' & Eh' & El' & Ea'); [congruence|lia|exact Hend|].
  rewrite Eb', Eh', El'. repeat split; try assumption. lia.
Qed.

(** One evaluation cycle raises no alert, or exactly one, at the reading
    of the counter with which the cycle began. *)
Lemma checkAlerts_once v t w :
  uno_ok w ->
  let w' := checkAlerts v t w in
  (banners (output w') = banners (output w)
   /\ clock w' = clock w /\ lastAlertTime w' = lastAlertTime w
   /\ (length (active w') <= length (active w))%nat)
  \/ (exists b, banners (output w') = banners (output w) ++ [b])
     /\ clock w <= clock w' <= clock w + 1900
     /\ lastAlertTime w' = millis (clock w)
     /\ (length (active w') <= length (active w) + 1)%nat.
Proof.
  intros Hok. unfold checkAlerts. destruct (negb (enabled t)).
  - left. repeat split. lia.
  - rewrite checks_breaches. cbn zeta.
    destruct (try_all_once (breaches v t) w) as [->|(l & m & Hfire & ->)].
    + left. destruct (removeOldAlerts_spec w) as (-> & _ & _ & _ & -> & -> & ->).
      repeat split. apply length_filter.
    + right.
      destruct (removeOldAlerts_spec (triggerAlert l m w))
        as (-> & _ & _ & _ & -> & -> & ->).
      destruct (triggerAlert_fired l m w Hfire) as (_ & _ & _ & _ & El & Eb & Ec).
      destruct (triggerAlert_views l m w Hok Hfire) as (Ea & _).
      repeat split; eauto; try lia.
      etransitivity; [apply length_filter|]. rewrite Ea.
      destruct (activeAlertsCount w <? MAX_ALERTS);
        rewrite ?length_app; simpl; lia.
Qed.

(** Two evaluation cycles, the second beginning less than 5 s after the
    first: together they raise at most one alert and add at most one entry
    to Active Alerts. *)
Lemma checkAlerts_twice w v1 t1 d v2 t2 :
  uno_ok w -> 0 <= d ->
  let w1 := checkAlerts v1 t1 w in
  let w2 := checkAlerts v2 t2 (delay d w1) in
  clock (delay d w1) < clock w + 5000 ->
  (length (banners (output w2)) <= length (banners (output w)) + 1)%nat
  /\ (length (active w2) <= length (active w) + 1)%nat.
Proof.
  intros Hok Hd w1 w2 Hwin. subst w1 w2. simpl in Hwin.
  pose proof (uno_ok_checkAlerts v1 t1 w Hok) as Hok1.
  destruct (checkAlerts_once v1 t1 w Hok)
    as [(Eb & Ec & El & Ea)|((b & Eb) & Ec & El & Ea)].
  - destruct (checkAlerts_once v2 t2 (delay d (checkAlerts v1 t1 w)) Hok1)
      as [(Eb2 & _ & _ & Ea2)|((b2 & Eb2) & _ & _ & Ea2)];
      cbn [output delay] in Eb2; rewrite Eb2, Eb, ?length_app;
      change (active (delay d (checkAlerts v1 t1 w))) with (active (checkAlerts v1 t1 w)) in Ea2;
      simpl; lia.
  - destruct (checkAlerts_blocked v2 t2 (delay d (checkAlerts v1 t1 w)) (clock w))
      as (Eo & _ & _ & _ & Ea2); [exact El|simpl; lia|].
    cbn [output delay] in Eo. rewrite Eo, Eb, length_app.
    change (active (delay d (checkAlerts v1 t1 w))) with (active (checkAlerts v1 t1 w)) in Ea2.
    simpl; lia.
Qed.

End UnoFacts.

(** ** The alert engine of the ESP32 sketch *)

Section Esp32Facts.

Import Esp32.

Lemma esp_playAlertSound_frame l w :
  let w' := playAlertSound l w in
  activeAlerts w' = activeAlerts w
  /\ alertHistory w' = alertHistory w
  /\ lastAlertTime w' = lastAlertTime w
  /\ banners (output w') = banners (output w)
  /\ clock w <= clock w' <= clock w + 1900.
Proof.
  destruct l; simpl; rewrite !banners_snoc, !app_nil_r; repeat split; lia.
Qed.

Lemma esp_triggerAlert_cooling l m w :
  elapsed (millis (clock w)) (lastAlertTime w) < 5000 -> triggerAlert l m w = w.
Proof.
  intros H. unfold triggerAlert.
  destruct (Z.ltb_spec (elapsed (millis (clock w)) (lastAlertTime w)) 5000);
    [reflexivity|lia].
Qed.

Lemma esp_triggerAlert_fired l m w :
  5000 <= elapsed (millis (clock w)) (lastAlertTime w) ->
  let w' := triggerAlert l m w in
  let alert := make_alert l m (millis (clock w)) in
  activeAlerts w' = activeAlerts w ++ [alert]
  /\ alertHistory w' = push_history alert (alertHistory w)
  /\ lastAlertTime w' = millis (clock w)
  /\ banners (output w') = banners (output w) ++ [(m, level_code l)]
  /\ clock w <= clock w' <= clock w + 1900.
Proof.
  intros H. unfold triggerAlert.
  destruct (Z.ltb_spec (elapsed (millis (clock w)) (lastAlertTime w)) 5000); [lia|].
  cbn zeta.
  match goal with
  | |- context [playAlertSound l ?w1] =>
      destruct (esp_playAlertSound_frame l w1) as (Ha & Hh & Hl & Hb & Hc)
  end.
  unfold showAlert, emit;
    cbn [activeAlerts alertHistory lastAlertTime output clock] in *.
  rewrite !banners_snoc, Hb, app_nil_r. repeat split; assumption || lia.
Qed.

(** The History keeps the last 50 alerts, oldest first. *)
Lemma push_history_spec alert (h : list Alert) :
  (length h <= 50)%nat ->
  push_history alert h
    = (if (length h <? 50)%nat then h else drop 1 h) ++ [alert]
  /\ (length (push_history alert h) <= 50)%nat.
Proof.
  intros Hlen. unfold push_history. rewrite length_app. simpl.
  destruct (Z.ltb_spec 50 (Z.of_nat (length h + 1)));
    destruct (Nat.ltb_spec (length h) 50); try lia.
  - destruct h as [|x h]; [simpl in *; lia|]. cbn [app drop].
    rewrite !drop_0, length_app. split; [reflexivity|]. simpl in *. lia.
  - split; [reflexivity|]. rewrite length_app. simpl. lia.
Qed.

Lemma esp_checks_breaches v t w : checks v t w = try_all (breaches v t) w.
Proof.
  unfold checks, check_battery, check_spo2, check_heart_rate, breaches, try_all.
  rewrite !fold_left_app.
  destruct (isFingerDetected v && Qltb 0 (heartRate v));
    destruct (_ || _); cbn [andb fold_left fst snd];
    destruct (isFingerDetected v && Qltb 0 (spO2 v));
    destruct (Qltb (spO2 v) (spO2Min t)); cbn [andb fold_left fst snd];
    destruct (Qltb (batteryLevel v) (batteryMin t)); reflexivity.
Qed.

Lemma esp_try_all_blocked attempts w c0 :
  lastAlertTime w = millis c0 -> c0 <= clock w < c0 + 5000 ->
  try_all attempts w = w.
Proof.
  intros Hl Hc. unfold try_all.
  induction attempts as [|[l m] attempts IH]; [reflexivity|]. cbn [fold_left fst snd].
  rewrite esp_triggerAlert_cooling; [exact IH|].
  rewrite Hl, elapsed_millis; lia.
Qed.

Lemma esp_try_all_once attempts w :
  try_all attempts w = w
  \/ exists l m, 5000 <= elapsed (millis (clock w)) (lastAlertTime w)
                 /\ try_all attempts w = triggerAlert l m w.
Proof.
  induction attempts as [|[l m] attempts IH]; [left; reflexivity|].
  unfold try_all in *. cbn [fold_left fst snd].
  destruct (Z.lt_ge_cases (elapsed (millis (clock w)) (lastAlertTime w)) 5000)
    as [Hcool|Hfire].
  - rewrite esp_triggerAlert_cooling by exact Hcool. exact IH.
  - right. exists l, m. split; [exact Hfire|].
    destruct (esp_triggerAlert_fired l m w Hfire) as (_ & _ & Hl & _ & Hc).
    apply (esp_try_all_blocked _ _ (clock w)); [exact Hl|lia].
Qed.

Lemma esp_ok_triggerAlert l m w : esp_ok w -> esp_ok (triggerAlert l m w).
Proof.
  intros Hok.
  destruct (Z.lt_ge_cases (elapsed (millis (clock w)) (lastAlertTime w)) 5000)
    as [Hcool|Hfire].
  - rewrite esp_triggerAlert_cooling by exact Hcool. exact Hok.
  - destruct (esp_triggerAlert_fired l m w Hfire) as (_ & Eh & _).
    unfold esp_ok. rewrite Eh. apply push_history_spec, Hok.
Qed.

Lemma esp_ok_checkAlerts v t w : esp_ok w -> esp_ok (checkAlerts v t w).
Proof.
  intros Hok. unfold checkAlerts. destruct (negb (enabled t)); [exact Hok|].
  unfold esp_ok. cbn [removeOldAlerts alertHistory]. rewrite esp_checks_breaches.
  destruct (esp_try_all_once (breaches v t) w) as [->|(l & m & _ & ->)];
    [exact Hok|apply esp_ok_triggerAlert, Hok].
Qed.

Lemma esp_ok_run boot es : esp_ok (run boot es).
Proof.
  unfold run. assert (Hinit : esp_ok (init boot)) by (unfold esp_ok; simpl; lia).
  revert Hinit. generalize (init boot).
  induction es as [|e es IH]; intros w Hok; simpl; [exact Hok|].
  apply IH. destruct e; simpl.
  - exact Hok.
  - apply esp_ok_checkAlerts, Hok.
  - apply esp_ok_triggerAlert, Hok.
Qed.

Lemma esp_step_clock w e : clock w <= clock (step w e).
Proof.
  destruct e as [ms|v t|l m]; simpl.
  - lia.
  - unfold checkAlerts. destruct (negb (enabled t)); [lia|].
    cbn [removeOldAlerts clock]. rewrite esp_checks_breaches.
    destruct (esp_try_all_once (breaches v t) w) as [->|(l & m & Hfire & ->)]; [lia|].
    apply (esp_triggerAlert_fired l m w Hfire).
  - destruct (Z.lt_ge_cases (elapsed (millis (clock w)) (lastAlertTime w)) 5000)
      as [Hcool|Hfire].
    + rewrite esp_triggerAlert_cooling by exact Hcool. lia.
    + apply (esp_triggerAlert_fired l m w Hfire).
Qed.

Lemma esp_steps_clock es : forall w, clock w <= clock (fold_left step es w).
Proof.
  induction es as [|e es IH]; intros w; simpl; [lia|].
  pose proof (esp_step_clock w e). pose proof (IH (step w e)). lia.
Qed.

Lemma esp_checkAlerts_blocked v t w c0 :
  lastAlertTime w = millis c0 -> c0 <= clock w < c0 + 5000 ->
  let w' := checkAlerts v t w in
  output w' = output w /\ alertHistory w' = alertHistory w
  /\ lastAlertTime w' = lastAlertTime w /\ clock w' = clock w
  /\ (length (activeAlerts w') <= length (activeAlerts w))%nat.
Proof.
  intros Hl Hc. unfold checkAlerts. destruct (negb (enabled t)).
  - repeat split. lia.
  - rewrite esp_checks_breaches, (esp_try_all_blocked _ _ c0 Hl Hc).
    repeat split. apply length_filter.
Qed.

Lemma esp_step_blocked w e c0 :
  lastAlertTime w = millis c0 -> c0 <= clock w < c0 + 5000 ->
  banners (output (step w e)) = banners (output w)
  /\ alertHistory (step w e) = alertHistory w
  /\ lastAlertTime (step w e) = lastAlertTime w
  /\ (length (activeAlerts (step w e)) <= length (activeAlerts w))%nat.
Proof.
  intros Hl Hc. destruct e as [ms|v t|l m]; simpl.
  - repeat split. lia.
  - destruct (esp_checkAlerts_blocked v t w c0 Hl Hc) as (-> & -> & -> & _ & Ha).
    repeat split. exact Ha.
  - rewrite esp_triggerAlert_cooling; [repeat split; lia|].
    rewrite Hl, elapsed_millis; lia.
Qed.

Lemma esp_steps_blocked es : forall w c0,
  lastAlertTime w = millis c0 -> c0 <= clock w ->
  clock (fold_left step es w) < c0 + 5000 ->
  banners (output (fold_left step es w)) = banners (output w)
  /\ alertHistory (fold_left step es w) = alertHistory w
  /\ lastAlertTime (fold_left step es w) = lastAlertTime w
  /\ (length (activeAlerts (fold_left step es w)) <= length (activeAlerts w))%nat.
Proof.
  induction es as [|e es IH]; intros w c0 Hl Hc Hend; simpl in *;
    [repeat split; lia|].
  pose proof (esp_step_clock w e) as Hs.
  pose proof (esp_steps_clock es (step w e)) as Hss.
  destruct (esp_step_blocked w e c0 Hl) as (Eb & Eh & El & Ea); [lia|].
  destruct (IH (step w e) c0) as (Eb' & Eh' & El' & Ea'); [congruence|lia|exact Hend|].
  rewrite Eb', Eh', El'. repeat split; try assumption. lia.
Qed.

Lemma esp_checkAlerts_once v t w :
  let w' := checkAlerts v t w in
  (banners (output w') = banners (output w)
   /\ clock w' = clock w /\ lastAlertTime w' = lastAlertTime w
   /\ (length (activeAlerts w') <= length (activeAlerts w))%nat)
  \/ (exists b, banners (output w') = banners (output w) ++ [b])
     /\ clock w <= clock w' <= clock w + 1900
     /\ lastAlertTime w' = millis (clock w)
     /\ (length (activeAlerts w') <= length (activeAlerts w) + 1)%nat.
Proof.
  unfold checkAlerts. destruct (negb (enabled t)).
  - left. repeat split. lia.
  - rewrite esp_checks_breaches. cbn zeta.
    destruct (esp_try_all_once (breaches v t) w) as [->|(l & m & Hfire & ->)].
    + left. repeat split. apply length_filter.
    + right.
      destruct (esp_triggerAlert_fired l m w Hfire) as (Ea & _ & El & Eb & Ec).
      cbn [removeOldAlerts output clock lastAlertTime activeAlerts].
      repeat split; eauto; try lia.
      etransitivity; [apply length_filter|]. rewrite Ea, length_app. simpl; lia.
Qed.

Lemma esp_checkAlerts_twice w v1 t1 d v2 t2 :
  0 <= d ->
  let w1 := checkAlerts v1 t1 w in
  let w2 := checkAlerts v2 t2 (delay d w1) in
  clock (delay d w1) < clock w + 5000 ->
  (length (banners (output w2)) <= length (banners (output w)) + 1)%nat
  /\ (length (activeAlerts w2) <= length (activeAlerts w) + 1)%nat.
Proof.
  intros Hd w1 w2 Hwin. subst w1 w2. simpl in Hwin.
  destruct (esp_checkAlerts_once v1 t1 w)
    as [(Eb & Ec & El & Ea)|((b & Eb) & Ec & El & Ea)].
  - destruct (esp_checkAlerts_once v2 t2 (delay d (checkAlerts v1 t1 w)))
      as [(Eb2 & _ & _ & Ea2)|((b2 & Eb2) & _ & _ & Ea2)];
      cbn [output activeAlerts delay] in Eb2, Ea2; rewrite Eb2, Eb, ?length_app;
      simpl; lia.
  - destruct (esp_checkAlerts_blocked v2 t2 (delay d (checkAlerts v1 t1 w)) (clock w))
      as (Eo & _ & _ & _ & Ea2); [exact El|simpl; lia|].
    cbn [output activeAlerts delay] in Eo, Ea2. rewrite Eo, Eb, length_app.
    simpl; lia.
Qed.

End Esp32Facts.

(** ** Collections, cooldown and purge *)

(** C2 as stated fails.  Six cycles 5 s apart each raise a
    low-battery alert.  The sixth, stamped 30000, enters the History but
    not Active Alerts, which is full and keeps its five entries, the
    oldest included. *)
Lemma active_full_drops_new_alert :
  let w := Uno.run 0 Scenario.five_cycles in
  let w' := Uno.checkAlerts Scenario.low_battery Scenario.defaults (Uno.delay 4200 w) in
  let alert := Uno.make_alert Uno.ALERT_LEVEL_WARNING
                 (mkMessage "Low battery: %d%%"%string 15) 30000 in
  Uno.timestamp <$> Uno.active w = [5000; 10000; 15000; 20000; 25000]
  /\ Uno.timestamp <$> Uno.history w' = [5000; 10000; 15000; 20000; 25000; 30000]
  /\ Uno.timestamp <$> Uno.active w' = [5000; 10000; 15000; 20000; 25000]
  /\ last (Uno.history w') = Some alert
  /\ ~ In alert (Uno.active w').
Proof.
  vm_compute. repeat split.
  intros H. repeat (destruct H as [H|H]; [discriminate H|]). exact H.
Qed.

(** C2, amended.  In every reachable state both collections are within
    their capacity: in the Uno sketch the counts [activeAlertsCount] and
    [alertHistoryCount] lie in [0, MAX_ALERTS] and [0, MAX_HISTORY], the
    two arrays have [MAX_ALERTS] and [MAX_HISTORY] slots, and the entries
    in use are as many as the counts say; the History of the ESP32 sketch
    holds at most 50.  A triggered alert always becomes the newest History
    entry, the oldest entry leaving when the History is full.  It becomes
    the newest Active entry in the ESP32 sketch, and in the Uno sketch
    when Active Alerts has a free slot; a full Active Alerts is left as it
    is, count included. *)
Theorem alert_collections boot es level message boot' es' l message' :
  let w := Uno.run boot es in
  let alert := Uno.make_alert level message (millis (Uno.clock w)) in
  let x := Esp32.run boot' es' in
  let alert' := Esp32.make_alert l message' (millis (Esp32.clock x)) in
  (0 <= Uno.activeAlertsCount w <= Uno.MAX_ALERTS
   /\ 0 <= Uno.alertHistoryCount w <= Uno.MAX_HISTORY
   /\ Z.of_nat (length (Uno.activeAlerts w)) = Uno.MAX_ALERTS
   /\ Z.of_nat (length (Uno.alertHistory w)) = Uno.MAX_HISTORY
   /\ Z.of_nat (length (Uno.active w)) = Uno.activeAlertsCount w
   /\ Z.of_nat (length (Uno.history w)) = Uno.alertHistoryCount w
   /\ (length (Esp32.alertHistory x) <= 50)%nat)
  /\ (if elapsed (millis (Uno.clock w)) (Uno.lastAlertTime w) <? Uno.ALERT_COOLDOWN
      then Uno.triggerAlert level message w = w
      else Uno.history (Uno.triggerAlert level message w)
             = (if Uno.alertHistoryCount w <? Uno.MAX_HISTORY
                then Uno.history w else drop 1 (Uno.history w)) ++ [alert]
           /\ Uno.active (Uno.triggerAlert level message w)
             = (if Uno.activeAlertsCount w <? Uno.MAX_ALERTS
                then Uno.active w ++ [alert] else Uno.active w)
           /\ Uno.alertHistoryCount (Uno.triggerAlert level message w)
             = (if Uno.alertHistoryCount w <? Uno.MAX_HISTORY
                then Uno.alertHistoryCount w + 1 else Uno.alertHistoryCount w)
           /\ Uno.activeAlertsCount (Uno.triggerAlert level message w)
             = (if Uno.activeAlertsCount w <? Uno.MAX_ALERTS
                then Uno.activeAlertsCount w + 1 else Uno.activeAlertsCount w))
  /\ (if elapsed (millis (Esp32.clock x)) (Esp32.lastAlertTime x) <? 5000
      then Esp32.triggerAlert l message' x = x
      else Esp32.alertHistory (Esp32.triggerAlert l message' x)
             = (if (length (Esp32.alertHistory x) <? 50)%nat
                then Esp32.alertHistory x else drop 1 (Esp32.alertHistory x)) ++ [alert']
           /\ Esp32.activeAlerts (Esp32.triggerAlert l message' x)
             = Esp32.activeAlerts x ++ [alert']).
Proof.
  intros w alert x alert'.
  pose proof (uno_ok_run boot es) as Hok. fold w in Hok.
  pose proof (esp_ok_run boot' es') as Hok'. fold x in Hok'.
  split; [|split].
  - destruct Hok as (Hla & Hca & Hlh & Hch). unfold Uno.active, Uno.history.
    rewrite !length_take. repeat split; try lia. exact Hok'.
  - destruct (Z.ltb_spec (elapsed (millis (Uno.clock w)) (Uno.lastAlertTime w))
                Uno.ALERT_COOLDOWN) as [Hcool|Hfire].
    + apply triggerAlert_cooling, Hcool.
    + destruct (triggerAlert_views level message w Hok Hfire) as (Ea & Eh & _).
      destruct (triggerAlert_fired level message w Hfire) as (_ & Eac & _ & Ehc & _).
      repeat split; assumption.
  - destruct (Z.ltb_spec (elapsed (millis (Esp32.clock x)) (Esp32.lastAlertTime x)) 5000)
      as [Hcool|Hfire].
    + apply esp_triggerAlert_cooling, Hcool.
    + destruct (esp_triggerAlert_fired l message' x Hfire) as (Ea & Eh & _).
      split; [|exact Ea]. rewrite Eh. apply push_history_spec, Hok'.
Qed.

(** C3.  One cooldown gate serves every alert.  In both sketches, once an
    alert is triggered, whatever the main loop does while the counter is
    less than 5000 ms past the trigger raises no further alert: nothing
    is shown, nothing enters the History, nothing is added to Active
    Alerts.  And two evaluation cycles, the second beginning less than
    5 s after the first, raise at most one alert and add at most one
    entry to Active Alerts, whatever thresholds the two snapshots
    breach. *)
Theorem shared_cooldown (w : Uno.World) (x : Esp32.World) :
  uno_ok w ->
  (forall level message es,
     let w1 := Uno.triggerAlert level message w in
     let w2 := fold_left Uno.step es w1 in
     Uno.ALERT_COOLDOWN <= elapsed (millis (Uno.clock w)) (Uno.lastAlertTime w) ->
     Uno.clock w2 < Uno.clock w + 5000 ->
     banners (Uno.output w2) = banners (Uno.output w1)
     /\ Uno.history w2 = Uno.history w1
     /\ (length (Uno.active w2) <= length (Uno.active w1))%nat)
  /\ (forall v1 t1 d v2 t2,
     let w1 := Uno.checkAlerts v1 t1 w in
     let w2 := Uno.checkAlerts v2 t2 (Uno.delay d w1) in
     0 <= d -> Uno.clock (Uno.delay d w1) < Uno.clock w + 5000 ->
     (length (banners (Uno.output w2)) <= length (banners (Uno.output w)) + 1)%nat
     /\ (length (Uno.active w2) <= length (Uno.active w) + 1)%nat)
  /\ (forall l message es,
     let x1 := Esp32.triggerAlert l message x in
     let x2 := fold_left Esp32.step es x1 in
     5000 <= elapsed (millis (Esp32.clock x)) (Esp32.lastAlertTime x) ->
     Esp32.clock x2 < Esp32.clock x + 5000 ->
     banners (Esp32.output x2) = banners (Esp32.output x1)
     /\ Esp32.alertHistory x2 = Esp32.alertHistory x1
     /\ (length (Esp32.activeAlerts x2) <= length (Esp32.activeAlerts x1))%nat)
  /\ (forall v1 t1 d v2 t2,
     let x1 := Esp32.checkAlerts v1 t1 x in
     let x2 := Esp32.checkAlerts v2 t2 (Esp32.delay d x1) in
     0 <= d -> Esp32.clock (Esp32.delay d x1) < Esp32.clock x + 5000 ->
     (length (banners (Esp32.output x2)) <= length (banners (Esp32.output x)) + 1)%nat
     /\ (length (Esp32.activeAlerts x2) <= length (Esp32.activeAlerts x) + 1)%nat).
Proof.
  intros Hok. repeat apply conj.
  - intros level message es w1 w2 Hfire Hwin. subst w1 w2.
    destruct (triggerAlert_fired level message w Hfire) as (_ & _ & _ & _ & El & _ & Hc).
    destruct (steps_blocked es (Uno.triggerAlert level message w) (Uno.clock w))
      as (Eb & Eh & _ & Ea); [exact El|lia|exact Hwin|]. repeat split; assumption.
  - intros v1 t1 d v2 t2 w1 w2 Hd Hwin.
    apply checkAlerts_twice; assumption.
  - intros l message es x1 x2 Hfire Hwin. subst x1 x2.
    destruct (esp_triggerAlert_fired l message x Hfire) as (_ & _ & El & _ & Hc).
    destruct (esp_steps_blocked es (Esp32.triggerAlert l message x) (Esp32.clock x))
      as (Eb & Eh & _ & Ea); [exact El|lia|exact Hwin|]. repeat split; assumption.
  - intros v1 t1 d v2 t2 x1 x2 Hd Hwin.
    apply esp_checkAlerts_twice; assumption.
Qed.

(** A low battery found at 5 s raises an alert.  A low oxygen saturation
    found 1 s after the buzzer stops is a breach of its own and raises
    none; nor does anything else the loop tries before 10 s. *)
Lemma shared_cooldown_battery_then_spo2 :
  let w := Uno.run 0 [Uno.Elapse 5000] in
  let w1 := Uno.checkAlerts Scenario.low_battery Scenario.defaults w in
  let w2 := Uno.checkAlerts Scenario.low_spo2 Scenario.defaults (Uno.delay 1000 w1) in
  let later := [Uno.Elapse 1000; Uno.CheckAlerts Scenario.low_spo2 Scenario.defaults;
                Uno.Elapse 2000; Uno.TriggerAlert 2 (mkMessage "HR: %d BPM"%string 130)] in
  let w3 := fold_left Uno.step later (Uno.triggerAlert 1 (mkMessage "test"%string 0) w) in
  (length (banners (Uno.output w1)) = 1%nat
   /\ Uno.breaches Scenario.low_spo2 Scenario.defaults <> [])
  /\ ((length (banners (Uno.output w2)) <= length (banners (Uno.output w)) + 1)%nat
      /\ (length (Uno.active w2) <= length (Uno.active w) + 1)%nat)
  /\ (banners (Uno.output w3)
        = banners (Uno.output (Uno.triggerAlert 1 (mkMessage "test"%string 0) w))
      /\ Uno.history w3 = Uno.history (Uno.triggerAlert 1 (mkMessage "test"%string 0) w)
      /\ (length (Uno.active w3)
          <= length (Uno.active (Uno.triggerAlert 1 (mkMessage "test"%string 0) w)))%nat).
Proof.
  assert (Hok : uno_ok (Uno.run 0 [Uno.Elapse 5000]))
    by (repeat split; try reflexivity; vm_compute; discriminate).
  pose proof (shared_cooldown (Uno.run 0 [Uno.Elapse 5000]) (Esp32.run 0 []) Hok)
    as (Hwindow & Htwice & _).
  split; [split; [reflexivity|discriminate]|]. split.
  - apply Htwice; [lia|vm_compute; reflexivity].
  - apply Hwindow; [vm_compute; discriminate|vm_compute; reflexivity].
Defined.

(** C6 as stated fails: an alert raised at 5 s is still in
    Active Alerts after a cycle run 60 s later with the thresholds
    switched off, in both sketches. *)
Lemma no_purge_when_switched_off :
  let w := Uno.delay 60000 (Uno.run 0 [Uno.Elapse 5000;
             Uno.CheckAlerts Scenario.low_battery Scenario.defaults]) in
  let w' := Uno.checkAlerts Scenario.low_battery Scenario.switched_off w in
  let x := Esp32.delay 60000 (Esp32.run 0 [Esp32.Elapse 5000;
             Esp32.CheckAlerts Scenario.low_battery Scenario.defaults]) in
  let x' := Esp32.checkAlerts Scenario.low_battery Scenario.switched_off x in
  (Uno.timestamp <$> Uno.active w' = [5000]
   /\ Forall (fun a => 30000 < elapsed (millis (Uno.clock w')) (Uno.timestamp a))
             (Uno.active w'))
  /\ (Esp32.timestamp <$> Esp32.activeAlerts x' = [5000]
      /\ Forall (fun a => 30000 < elapsed (millis (Esp32.clock x')) (Esp32.timestamp a))
                (Esp32.activeAlerts x')).
Proof.
  split; (split; [reflexivity|]); repeat constructor.
Qed.

(** C6, amended.  A cycle run with the thresholds enabled ends with the
    purge: of the entries Active Alerts holds after the checks, those
    acknowledged or older than 30 s are removed and the others stay, in
    order.  A cycle run with the thresholds disabled returns at once and
    changes nothing. *)
Theorem purge_when_enabled v t (w : Uno.World) (x : Esp32.World) :
  if enabled t then
    Uno.active (Uno.checkAlerts v t w)
      = filter (fun a => Uno.acknowledged a = false
                         /\ elapsed (millis (Uno.clock (Uno.checks v t w))) (Uno.timestamp a)
                            <= 30000)
               (Uno.active (Uno.checks v t w))
    /\ Esp32.activeAlerts (Esp32.checkAlerts v t x)
      = filter (fun a => Esp32.acknowledged a = false
                         /\ elapsed (millis (Esp32.clock (Esp32.checks v t x)))
                                    (Esp32.timestamp a) <= 30000)
               (Esp32.activeAlerts (Esp32.checks v t x))
  else Uno.checkAlerts v t w = w /\ Esp32.checkAlerts v t x = x.
Proof.
  unfold Uno.checkAlerts, Esp32.checkAlerts.
  destruct (enabled t); cbn [negb]; [|split; reflexivity]. split.
  - destruct (removeOldAlerts_spec (Uno.checks v t w)) as (-> & _).
    apply list_filter_iff. intros a. unfold Uno.fresh.
    rewrite andb_true_iff, negb_true_iff, Z.leb_le. reflexivity.
  - cbn [Esp32.removeOldAlerts Esp32.activeAlerts].
    apply list_filter_iff. intros a. unfold Esp32.expired.
    rewrite orb_false_iff, Z.ltb_ge. reflexivity.
Qed.

(** * Further properties of the code *)

(** ** The sample buffer of SpO2Calculator *)

Section SampleBufferFacts.

Import SpO2.

Lemma addSamples_snoc l p s :
  addSamples (l ++ [p]) s = addSample (fst p) (snd p) (addSamples l s).
Proof. unfold addSamples. rewrite fold_left_app. reflexivity. Qed.

Lemma addSamples_state (l : list (Z * Z)) :
  let s := addSamples l init in
  let n := Z.of_nat (length l) in
  bufferIndex s = n mod 100
  /\ bufferFull s = (100 <=? n)
  /\ length (irBuffer s) = 100%nat
  /\ length (redBuffer s) = 100%nat
  /\ forall j p, l !! j = Some p -> n <= Z.of_nat j + 100 ->
       irBuffer s !! Z.to_nat (Z.of_nat j mod 100) = Some (wrap32 (fst p))
       /\ redBuffer s !! Z.to_nat (Z.of_nat j mod 100) = Some (wrap32 (snd p)).
Proof.
  induction l as [|p l IH] using rev_ind.
  - cbn zeta. repeat split; try reflexivity; done.
  - cbn zeta in *. rewrite addSamples_snoc, length_app. cbn [length].
    destruct IH as (Hi & Hf & Hli & Hlr & Hc).
    set (s := addSamples l init) in *. set (n := Z.of_nat (length l)) in *.
    replace (Z.of_nat (length l + 1)) with (n + 1) by lia.
    assert (Hn : 0 <= n) by lia.
    pose proof (Z.mod_pos_bound n 100 ltac:(lia)) as Hm.
    unfold addSample, BUFFER_SIZE. rewrite Hi.
    assert (Hidx : (if 100 <=? n mod 100 + 1 then 0 else n mod 100 + 1) = (n + 1) mod 100).
    { destruct (Z.leb_spec 100 (n mod 100 + 1)).
      - assert (n mod 100 = 99) by lia.
        rewrite Z.add_mod, H0 by lia. reflexivity.
      - rewrite Z.add_mod by lia. rewrite (Z.mod_small 1 100) by lia.
        apply eq_sym, Z.mod_small. lia. }
    assert (Hfull : (if 100 <=? n mod 100 + 1 then true else bufferFull s)
                    = (100 <=? n + 1)).
    { rewrite Hf. destruct (Z.leb_spec 100 (n mod 100 + 1));
        destruct (Z.leb_spec 100 (n + 1)); destruct (Z.leb_spec 100 n);
        try reflexivity; try lia.
      - rewrite Z.mod_small in H by lia. lia.
      - rewrite Z.mod_small in H by lia. lia. }
    assert (Hcontent : forall j q, (l ++ [p]) !! j = Some q -> n + 1 <= Z.of_nat j + 100 ->
              <[Z.to_nat (n mod 100) := wrap32 (fst p)]> (irBuffer s)
                !! Z.to_nat (Z.of_nat j mod 100) = Some (wrap32 (fst q))
              /\ <[Z.to_nat (n mod 100) := wrap32 (snd p)]> (redBuffer s)
                !! Z.to_nat (Z.of_nat j mod 100) = Some (wrap32 (snd q))).
    { intros j q Hj Hwin. destruct (decide (j = length l)) as [->|Hne].
      - rewrite lookup_app_r, Nat.sub_diag in Hj by lia. injection Hj as <-.
        fold n. rewrite !list_lookup_insert_eq by lia. split; reflexivity.
      - assert (Hjl : (j < length l)%nat).
        { apply lookup_lt_Some in Hj. rewrite length_app in Hj. simpl in Hj. lia. }
        rewrite lookup_app_l in Hj by exact Hjl.
        assert (Hmj : Z.of_nat j mod 100 <> n mod 100).
        { intros Heq. assert (H0 : (n - Z.of_nat j) mod 100 = 0)
            by (rewrite Zminus_mod, Heq, Z.sub_diag; reflexivity).
          rewrite Z.mod_small in H0 by lia. lia. }
        pose proof (Z.mod_pos_bound (Z.of_nat j) 100 ltac:(lia)).
        rewrite !list_lookup_insert_ne by lia. apply Hc; [exact Hj|lia]. }
    destruct (100 <=? n mod 100 + 1) eqn:E;
      cbn [bufferIndex bufferFull irBuffer redBuffer];
      rewrite !length_insert; repeat split; try assumption; apply Hcontent; assumption.
Qed.

(** X1.  After a reset (or the constructor) and any number [n] of
    [addSample] calls, the write index is [n mod 100], the buffer counts
    as full exactly from the 100th call on, both arrays keep their 100
    slots, and each of the last 100 samples sits in the slot of its
    sequence number modulo 100: older samples have been overwritten, newer
    ones never are. *)
Theorem addSample_wraparound (l : list (Z * Z)) (s0 : SpO2Calculator) :
  let s := addSamples l (reset s0) in
  let n := Z.of_nat (length l) in
  bufferIndex s = n mod BUFFER_SIZE
  /\ bufferFull s = (BUFFER_SIZE <=? n)
  /\ Z.of_nat (length (irBuffer s)) = BUFFER_SIZE
  /\ Z.of_nat (length (redBuffer s)) = BUFFER_SIZE
  /\ forall j p, l !! j = Some p -> n <= Z.of_nat j + BUFFER_SIZE ->
       irBuffer s !! Z.to_nat (Z.of_nat j mod BUFFER_SIZE) = Some (wrap32 (fst p))
       /\ redBuffer s !! Z.to_nat (Z.of_nat j mod BUFFER_SIZE) = Some (wrap32 (snd p)).
Proof.
  change (reset s0) with init. unfold BUFFER_SIZE.
  destruct (addSamples_state l) as (Hi & Hf & Hli & Hlr & Hc).
  cbn zeta. rewrite Hli, Hlr. repeat split; try assumption; apply Hc; assumption.
Qed.

(** The value the [i]-th pass of the loop of [isFingerPresent] reads is
    the infrared sample added [i] calls before the last one. *)
Lemma recent_value (l : list (Z * Z)) i q :
  reverse l !! i = Some q -> (i < 100)%nat ->
  let s := addSamples l init in
  nth (Z.to_nat (recent_index (bufferIndex s) (Z.of_nat i))) (irBuffer s) 0
    = wrap32 (fst q).
Proof.
  intros Hq Hi. destruct (addSamples_state l) as (Hidx & _ & _ & _ & Hc). cbn zeta.
  assert (Hlen : (i < length l)%nat)
    by (apply lookup_lt_Some in Hq; rewrite length_reverse in Hq; exact Hq).
  rewrite reverse_lookup in Hq by exact Hlen.
  set (n := Z.of_nat (length l)) in *.
  pose proof (Z.mod_pos_bound n 100 ltac:(lia)) as Hm.
  assert (Hri : recent_index (bufferIndex (addSamples l init)) (Z.of_nat i)
                = (n - 1 - Z.of_nat i) mod 100).
  { unfold recent_index, BUFFER_SIZE. rewrite Hidx, Z.rem_mod_nonneg by lia.
    clear Hidx Hc. Z.div_mod_to_equations. lia. }
  rewrite Hri, nth_lookup.
  replace (n - 1 - Z.of_nat i) with (Z.of_nat (length l - S i)) by lia.
  destruct (Hc (length l - S i)%nat q Hq) as [-> _]; [lia|reflexivity].
Qed.

Lemma recent_fold (l : list (Z * Z)) k : forall acc,
  (k <= 100)%nat -> (k <= length l)%nat ->
  fold_left (recent_step (addSamples l init)) (seq 0 k) acc
    = fold_left (fun a q => wrap32 (a + wrap32 (fst q))) (take k (reverse l)) acc.
Proof.
  induction k as [|k IH]; intros acc Hk Hl; [rewrite take_0; reflexivity|].
  assert (Hq : is_Some (reverse l !! k))
    by (apply lookup_lt_is_Some; rewrite length_reverse; lia).
  destruct Hq as [q Hq].
  rewrite seq_S, (take_S_r _ _ _ Hq), !fold_left_app, IH by lia. cbn [fold_left].
  unfold recent_step at 1. cbn [Nat.add]. rewrite (recent_value l k q Hq) by lia.
  reflexivity.
Qed.

Lemma wrapped_sum (qs : list (Z * Z)) : forall a,
  fold_left (fun acc q => wrap32 (acc + wrap32 (fst q))) qs (wrap32 a)
    = wrap32 (a + foldr Z.add 0 ((fun p => wrap32 (fst p)) <$> qs)).
Proof.
  induction qs as [|q qs IH]; intros a; cbn [fold_left foldr fmap list_fmap].
  - rewrite Z.add_0_r. reflexivity.
  - assert (H : wrap32 (wrap32 a + wrap32 (fst q)) = wrap32 (a + wrap32 (fst q)))
      by (unfold wrap32 at 1 2 4; apply Zplus_mod_idemp_l).
    rewrite H, IH. f_equal. lia.
Qed.

(** X2.  Once the buffer has wrapped, [isFingerPresent()] compares with
    50000 the mean of the ten infrared samples added last, wherever the
    write index stands; the sum is taken on 32 bits. *)
Theorem isFingerPresent_last_ten (l : list (Z * Z)) (s0 : SpO2Calculator) :
  (100 <= length l)%nat ->
  isFingerPresent (addSamples l (reset s0))
    = (50000 <? wrap32 (foldr Z.add 0 ((fun p => wrap32 (fst p)) <$> take 10 (reverse l))) / 10).
Proof.
  intros Hlen. change (reset s0) with init.
  destruct (addSamples_state l) as (_ & Hf & _). cbn zeta in Hf.
  unfold isFingerPresent. rewrite Hf.
  destruct (Z.leb_spec 100 (Z.of_nat (length l))); [|lia]. cbn [negb].
  change (Z.to_nat (Z.min 10 BUFFER_SIZE)) with 10%nat.
  change (Z.min 10 BUFFER_SIZE) with 10.
  rewrite recent_fold by lia.
  change 0 with (wrap32 0) at 1. rewrite wrapped_sum, Z.add_0_l.
  rewrite Z.quot_div_nonneg; [reflexivity|apply wrap32_range|lia].
Qed.

(** X3.  Whatever the buffer holds and however results are rounded,
    [calculateSpO2()] returns the sentinel 0 or a value clamped to
    [70, 100]. *)
Theorem calculateSpO2_range (rnd : Q -> Q) (s : SpO2Calculator) :
  exists r, calculateSpO2 rnd s = Some r /\ (r = 0%Q \/ (70 <= r /\ r <= 100)%Q).
Proof.
  unfold calculateSpO2.
  destruct (negb (bufferFull s)); [exists 0%Q; auto|].
  destruct (calculateRatio_total rnd s) as [ratio ->]. cbn [mbind option_bind].
  destruct (Qeq_bool ratio 0); [exists 0%Q; auto|].
  eexists. split; [reflexivity|right].
  set (x := rnd (110 - 25 * ratio)%Q).
  destruct (Qle_bool x 100) eqn:E1.
  - destruct (Qle_bool 70 x) eqn:E2.
    + split; apply Qle_bool_iff; assumption.
    + split; [apply Qle_refl|unfold Qle; simpl; lia].
  - change (Qle_bool 70 100) with true. cbn iota.
    split; [unfold Qle; simpl; lia|apply Qle_refl].
Qed.

(** X4.  After [reset()], while fewer than 100 samples have been added,
    the estimator answers 0 and reports neither a finger nor a valid
    reading, whatever the samples are. *)
Theorem reset_needs_full_buffer (rnd : Q -> Q) (l : list (Z * Z)) (s0 : SpO2Calculator) :
  (length l < 100)%nat ->
  calculateSpO2 rnd (addSamples l (reset s0)) = Some 0%Q
  /\ isFingerPresent (addSamples l (reset s0)) = false
  /\ isValidReading (addSamples l (reset s0)) = false.
Proof.
  intros Hlen. change (reset s0) with init.
  destruct (addSamples_state l) as (_ & Hf & _). cbn zeta in Hf.
  destruct (Z.leb_spec 100 (Z.of_nat (length l))); [lia|].
  unfold calculateSpO2, isValidReading, isFingerPresent. rewrite Hf. repeat split.
Qed.

End SampleBufferFacts.

(** The 150th sample lands in slot 49 and the finger is seen. *)
Lemma addSample_wraparound_150 :
  let s := SpO2.addSamples Scenario.finger_arrives (SpO2.reset SpO2.init) in
  SpO2.bufferIndex s = 50 /\ SpO2.bufferFull s = true
  /\ SpO2.irBuffer s !! 49%nat = Some 60000.
Proof.
  pose proof (addSample_wraparound Scenario.finger_arrives SpO2.init)
    as (Hi & Hf & _ & _ & Hc).
  split; [exact Hi|]. split; [exact Hf|].
  apply (Hc 149%nat (60000, 58000)); [reflexivity|vm_compute; discriminate].
Defined.

Lemma isFingerPresent_last_ten_arrives :
  SpO2.isFingerPresent (SpO2.addSamples Scenario.finger_arrives (SpO2.reset SpO2.init))
    = true.
Proof.
  rewrite (isFingerPresent_last_ten Scenario.finger_arrives SpO2.init);
    [reflexivity|vm_compute; lia].
Defined.

Lemma reset_needs_full_buffer_99 :
  SpO2.calculateSpO2 (fun q => q)
    (SpO2.addSamples Scenario.short_of_full (SpO2.reset Scenario.dark_buffer)) = Some 0%Q
  /\ SpO2.isFingerPresent
       (SpO2.addSamples Scenario.short_of_full (SpO2.reset Scenario.dark_buffer)) = false
  /\ SpO2.isValidReading
       (SpO2.addSamples Scenario.short_of_full (SpO2.reset Scenario.dark_buffer)) = false.
Proof.
  apply (reset_needs_full_buffer (fun q => q) Scenario.short_of_full Scenario.dark_buffer).
  vm_compute. lia.
Defined.

(** ** More on HeartRateCalculator *)

Section DetectorFacts.

Import HeartRate.

Lemma beat_times_spaced cs : forall h, spaced 300 (lastBeatTime h) (beat_times cs h).
Proof.
  induction cs as [|c cs IH]; intros h; cbn [beat_times]; [exact I|].
  destruct c as [now sample| | |t]; cbn zeta.
  - unfold call. pose proof (IH (snd (checkForBeat now sample h))) as IH'.
    unfold checkForBeat in *.
    destruct (beat_guard now sample h) eqn:Hg; cbn [fst snd] in *.
    + split.
      * unfold beat_guard in Hg. apply andb_true_iff in Hg as [_ Hg].
        apply Z.ltb_lt, Hg.
      * destruct (_ && _); exact IH'.
    + exact IH'.
  - apply (IH h).
  - apply (IH (reset h)).
  - apply (IH (setThreshold t h)).
Qed.

(** X5.  Refractory period: whatever calls are made on the detector, in
    whatever state it starts, two beats registered one after the other lie
    more than 300 ms apart on the millisecond counter, and the first lies
    more than 300 ms after the stored [lastBeatTime].  A [reset()] between
    two beats does not shorten the period. *)
Theorem beats_refractory (cs : list Call) (h : HeartRateCalculator) :
  spaced 300 (lastBeatTime h) (beat_times cs h).
Proof. apply beat_times_spaced. Qed.

Lemma ring_shape_store v h :
  length (rateArray h) = 4%nat -> 0 <= rateSpot h < 4 ->
  length (rateArray (store_rate v h)) = 4%nat /\ 0 <= rateSpot (store_rate v h) < 4.
Proof.
  intros Hlen Hspot. unfold store_rate; cbn [rateArray rateSpot].
  rewrite length_insert, spot_advance by exact Hspot.
  pose proof (Z.mod_pos_bound (rateSpot h + 1) 4). split; [exact Hlen|lia].
Qed.

Lemma ring_shape_store_rates vs : forall h,
  length (rateArray h) = 4%nat -> 0 <= rateSpot h < 4 ->
  length (rateArray (store_rates vs h)) = 4%nat /\ 0 <= rateSpot (store_rates vs h) < 4.
Proof.
  induction vs as [|v vs IH]; intros h Hlen Hspot; [split; assumption|].
  cbn [store_rates fold_left]. destruct (ring_shape_store v h Hlen Hspot).
  apply IH; assumption.
Qed.

Lemma getBeatsPerMinute_full a b c d h :
  rateArray h = [a; b; c; d] -> a <> 0 -> b <> 0 -> c <> 0 -> d <> 0 ->
  getBeatsPerMinute h = Z.quot (a + b + c + d) 4.
Proof.
  intros E Ha Hb Hc Hd. apply Z.eqb_neq in Ha, Hb, Hc, Hd.
  unfold getBeatsPerMinute. rewrite E. cbn [fold_left]. unfold tally.
  rewrite Ha. cbn [fst snd]. rewrite Hb. cbn [fst snd].
  rewrite Hc. cbn [fst snd]. rewrite Hd. cbn [fst snd].
  change (0 + 1 + 1 + 1 + 1 =? 0) with false. cbn iota. f_equal; lia.
Qed.

(** X6.  Once four rates or more have been stored, the ring holds exactly
    the last four, the oldest of them in the slot the next store will
    overwrite; with four non-zero rates [getBeatsPerMinute()] is their
    integer mean and earlier beats have no influence. *)
Theorem ring_keeps_last_four (cs : list Call) (vs : list Z) (v1 v2 v3 v4 : Z) :
  v1 <> 0 -> v2 <> 0 -> v3 <> 0 -> v4 <> 0 ->
  let h := store_rates (vs ++ [v1; v2; v3; v4]) (run cs) in
  rateArray h !! Z.to_nat (rateSpot h) = Some v1
  /\ rateArray h !! Z.to_nat ((rateSpot h + 1) mod 4) = Some v2
  /\ rateArray h !! Z.to_nat ((rateSpot h + 2) mod 4) = Some v3
  /\ rateArray h !! Z.to_nat ((rateSpot h + 3) mod 4) = Some v4
  /\ length (rateArray h) = 4%nat
  /\ getBeatsPerMinute h = Z.quot (v1 + v2 + v3 + v4) 4.
Proof.
  intros H1 H2 H3 H4. cbn zeta. unfold store_rates. rewrite fold_left_app.
  fold (store_rates vs (run cs)).
  destruct (ring_ok_run cs) as (Hlen & Hspot & _).
  destruct (ring_shape_store_rates vs (run cs) Hlen Hspot) as [Hl Hs].
  destruct (store_rates vs (run cs)) as [arr spot lb th bd lbt].
  cbn [rateArray rateSpot] in Hl, Hs.
  destruct arr as [|a [|b [|c [|d [|e arr]]]]]; try discriminate Hl.
  assert (Hcases : spot = 0 \/ spot = 1 \/ spot = 2 \/ spot = 3) by lia.
  destruct Hcases as [->|[->|[->| ->]]];
    (repeat split;
     [match goal with
      | |- getBeatsPerMinute ?h = _ =>
          erewrite (getBeatsPerMinute_full _ _ _ _ h) by (reflexivity || assumption);
          f_equal; lia
      end]).
Qed.

Lemma sensor_range_call c h :
  sensor_range c -> 0 <= threshold h < 2 ^ 18 -> 0 <= threshold (call c h) < 2 ^ 18.
Proof.
  intros Hc Ht. destruct c as [now sample| | |t]; cbn [call sensor_range] in *;
    try assumption.
  rewrite checkForBeat_threshold.
  destruct (fst (checkForBeat now sample h)); [exact Ht|].
  rewrite smoothed_long_in_range by (unfold in_long; lia).
  apply smoothed_range; [lia|exact Ht|exact Hc].
Qed.

(** X7.  With 18-bit samples (and 18-bit arguments of [setThreshold]) the
    adaptive threshold stays an 18-bit value through any sequence of
    calls, so the product [threshold * 31 + sample] of the smoothing never
    leaves the range of a [long]. *)
Theorem threshold_in_sensor_range (cs : list Call) :
  Forall sensor_range cs ->
  0 <= threshold (run cs) < 2 ^ 18
  /\ forall sample, 0 <= sample < 2 ^ 18 ->
       - 2 ^ 31 <= threshold (run cs) * 31 + sample < 2 ^ 31.
Proof.
  intros Hcs.
  assert (Ht : 0 <= threshold (run cs) < 2 ^ 18).
  { unfold run. assert (Hinit : 0 <= threshold init < 2 ^ 18) by (simpl; lia).
    revert Hinit. generalize init.
    induction Hcs as [|c cs Hc _ IH]; intros h Hh; cbn [fold_left]; [exact Hh|].
    apply IH, sensor_range_call; assumption. }
  split; [exact Ht|]. intros sample Hs. lia.
Qed.

End DetectorFacts.

(** Five stored rates: the first has left the ring and the mean is that of
    the other four. *)
Lemma ring_keeps_last_four_of_five :
  HeartRate.getBeatsPerMinute
    (HeartRate.store_rates ([60] ++ [70; 72; 75; 80]) (HeartRate.run [])) = 74.
Proof.
  apply (ring_keeps_last_four [] [60] 70 72 75 80); discriminate.
Defined.

Lemma threshold_in_sensor_range_two_peaks :
  0 <= HeartRate.threshold
         (HeartRate.run [HeartRate.CheckForBeat 1000 600; HeartRate.CheckForBeat 1400 100;
                         HeartRate.SetThreshold 700; HeartRate.CheckForBeat 1800 600])
    < 2 ^ 18.
Proof.
  apply (threshold_in_sensor_range
           [HeartRate.CheckForBeat 1000 600; HeartRate.CheckForBeat 1400 100;
            HeartRate.SetThreshold 700; HeartRate.CheckForBeat 1800 600]).
  repeat constructor; simpl; lia.
Defined.

(** ** The beat detector of the sketch with the BPM ring *)

Section SketchRingFacts.

Import SketchRing.

Lemma feed_snoc {S : Type} (check : Z -> Z -> S -> bool * S) l p s :
  Scenario.feed check (l ++ [p]) s
  = (fst (Scenario.feed check l s) ++ [fst (check (fst p) (snd p) (snd (Scenario.feed check l s)))],
     snd (check (fst p) (snd p) (snd (Scenario.feed check l s)))).
Proof. unfold Scenario.feed. rewrite fold_left_app. reflexivity. Qed.

Lemma ring_sum_bounds (arr : list Z) :
  length arr = 4%nat -> Forall plausible arr -> 0 <= foldr Z.add 0 arr <= 796.
Proof.
  intros Hlen Hall.
  destruct arr as [|a [|b [|c [|d [|e arr]]]]]; try discriminate Hlen.
  apply Forall_cons in Hall as [Ha Hall]. apply Forall_cons in Hall as [Hb Hall].
  apply Forall_cons in Hall as [Hc Hall]. apply Forall_cons in Hall as [Hd _].
  unfold plausible in *. simpl. lia.
Qed.

Lemma sketch_ok_checkForBeat now sample s :
  sketch_ok s -> sketch_ok (snd (checkForBeat now sample s)).
Proof.
  intros [(Hlen & Hspot & Hall) Hbpm]. unfold checkForBeat.
  destruct (beat_guard now sample s);
    [|unfold sketch_ok, ring_ok; cbn [snd rateArray rateSpot beatsPerMinute];
      repeat split; assumption || lia].
  destruct (_ && _) eqn:E;
    [|unfold sketch_ok, ring_ok; cbn [snd rateArray rateSpot beatsPerMinute];
      repeat split; assumption || lia].
  apply andb_true_iff in E as [E1 E2]. apply Z.ltb_lt in E1, E2.
  destruct (rate_of_delta (to_long (millis now - lastBeat s))) as [Hrate Hr]; [lia|].
  assert (Hadv : to_byte (Z.rem (to_byte (rateSpot s + 1)) RATE_ARRAY_SIZE)
                 = (rateSpot s + 1) mod 4) by (apply spot_advance, Hspot).
  unfold sketch_ok, ring_ok. cbn [snd rateArray rateSpot beatsPerMinute].
  rewrite Hadv, length_insert.
  pose proof (Z.mod_pos_bound (rateSpot s + 1) 4 ltac:(lia)).
  repeat split; try lia.
  apply Forall_insert; [exact Hall|]. right. rewrite Hrate. exact Hr.
Qed.

(** Called on its own, [checkForBeat] leaves in [beatsPerMinute] the sum
    of the four ring slots divided by 4, empty slots included, a value in
    [0, 199].  ([readSensors] overwrites it on every registered beat, see
    below.) *)
Lemma sketch_average_counts_empty_slots (samples : list (Z * Z)) :
  let s := snd (Scenario.feed checkForBeat samples init) in
  beatsPerMinute s = Z.quot (foldr Z.add 0 (rateArray s)) RATE_ARRAY_SIZE
  /\ 0 <= beatsPerMinute s <= 199
  /\ length (rateArray s) = 4%nat
  /\ 0 <= rateSpot s < RATE_ARRAY_SIZE.
Proof.
  cbn zeta.
  assert (Hok : sketch_ok (snd (Scenario.feed checkForBeat samples init))).
  { induction samples as [|p samples IH] using rev_ind.
    - split; [repeat split; simpl; try lia; repeat constructor|reflexivity].
    - rewrite feed_snoc. cbn [snd]. apply sketch_ok_checkForBeat, IH. }
  destruct Hok as [(Hlen & Hspot & Hall) Hbpm].
  pose proof (ring_sum_bounds _ Hlen Hall) as Hsum.
  unfold RATE_ARRAY_SIZE. rewrite Hbpm. repeat split; try assumption; try lia.
  - apply Z.quot_pos; lia.
  - rewrite Z.quot_div_nonneg by lia. apply Z.lt_succ_r.
    apply Z.div_lt_upper_bound; lia.
Qed.

(** The function reports a beat exactly when its guard holds, and writes
    [beatsPerMinute] in no other call. *)
Lemma sketch_checkForBeat_fst now sample s :
  fst (checkForBeat now sample s) = beat_guard now sample s.
Proof.
  unfold checkForBeat. destruct (beat_guard now sample s); [|reflexivity].
  destruct (_ && _); reflexivity.
Qed.

Lemma sketch_checkForBeat_idle now sample s :
  beat_guard now sample s = false ->
  beatsPerMinute (snd (checkForBeat now sample s)) = beatsPerMinute s.
Proof. intros Hg. unfold checkForBeat. rewrite Hg. reflexivity. Qed.

Lemma readSensors_shown rate_of now sample r :
  let r' := readSensors rate_of now sample r in
  let beat := negb (elapsed (millis now) (lastReading r) <? 100)
              && match sample with
                 | Some irValue => beat_guard now (to_long irValue) (detector r)
                 | None => false
                 end in
  let bpm := rate_of (to_long (millis now - lastReading r)) in
  beatsPerMinute (detector r') = (if beat then bpm else beatsPerMinute (detector r))
  /\ heartRate r' = (if beat && (bpm <? 255) && (20 <? bpm) then bpm else heartRate r).
Proof.
  cbn zeta. unfold readSensors.
  destruct (elapsed (millis now) (lastReading r) <? 100); cbn [negb andb]; [done|].
  destruct sample as [irValue|]; [|done].
  rewrite sketch_checkForBeat_fst.
  destruct (beat_guard now (to_long irValue) (detector r)) eqn:Hg;
    cbn [detector heartRate andb]; [done|].
  split; [apply sketch_checkForBeat_idle, Hg|reflexivity].
Qed.

(** X8.  The four-beat average of the sketch is never shown.
    [readSensors], the only caller of [checkForBeat], replaces
    [beatsPerMinute] by the rate of the single interval since its own last
    beat in every call that registers a beat, and no other call writes
    [beatsPerMinute]; the heart rate the screens print is that value when
    it lies strictly between 20 and 255 and is kept otherwise.  So neither
    depends on the ring, and from start-up on the printed heart rate is 0
    or a value strictly between 20 and 255, whatever the conversion of
    [60 / (delta / 1000.0)] to [int] yields. *)
Theorem ring_average_never_shown (rate_of : Z -> Z) (calls : list (Z * option Z))
    (now : Z) (sample : option Z) :
  let r := read_all rate_of calls in
  let r' := readSensors rate_of now sample r in
  let beat := negb (elapsed (millis now) (lastReading r) <? 100)
              && match sample with
                 | Some irValue => beat_guard now (to_long irValue) (detector r)
                 | None => false
                 end in
  let bpm := rate_of (to_long (millis now - lastReading r)) in
  beatsPerMinute (detector r') = (if beat then bpm else beatsPerMinute (detector r))
  /\ heartRate r' = (if beat && (bpm <? 255) && (20 <? bpm) then bpm else heartRate r)
  /\ (heartRate r = 0 \/ 20 < heartRate r < 255).
Proof.
  cbn zeta.
  destruct (readSensors_shown rate_of now sample (read_all rate_of calls)) as [Hb Hh].
  split; [exact Hb|]. split; [exact Hh|]. clear Hb Hh.
  unfold read_all.
  assert (Hinit : heartRate reader_init = 0 \/ 20 < heartRate reader_init < 255)
    by (left; reflexivity).
  revert Hinit. generalize reader_init.
  induction calls as [|c calls IH]; intros r Hr; cbn [fold_left]; [exact Hr|].
  apply IH.
  destruct (readSensors_shown rate_of (fst c) (snd c) r) as [_ ->].
  destruct (_ && _) eqn:E; [|exact Hr].
  apply andb_prop in E as [E E2]. apply andb_prop in E as [_ E1]. right. lia.
Qed.

End SketchRingFacts.

(** A first beat one second after start-up, the conversion taken as the
    exact quotient: the ring holds one rate of 60 and its average is 15,
    but [beatsPerMinute] and the printed heart rate are 60. *)
Example ring_average_overwritten :
  let r := SketchRing.read_all (fun delta => Z.quot 60000 delta) [(1000, Some 600)] in
  SketchRing.rateArray (SketchRing.detector r) = [60; 0; 0; 0]
  /\ SketchRing.beatsPerMinute (SketchRing.detector r) = 60
  /\ SketchRing.heartRate r = 60.
Proof. repeat split; reflexivity. Qed.

(** One beat of 60 in the ring: [HeartRateCalculator] reports 60,
    [checkForBeat] of the sketch leaves 15. *)
Example sketch_average_after_one_beat :
  SketchRing.beatsPerMinute
    (snd (Scenario.feed SketchRing.checkForBeat [(1000, 600)] SketchRing.init)) = 15
  /\ HeartRate.getBeatsPerMinute
       (snd (Scenario.feed HeartRate.checkForBeat [(1000, 600)] HeartRate.init)) = 60.
Proof. split; reflexivity. Qed.

(** ** More on AlertManager *)

Section ManagerFacts.

Import AlertMgr.

Lemma playAlertTone_frame ty m :
  alerts (playAlertTone ty m) = alerts m
  /\ alertCount (playAlertTone ty m) = alertCount m
  /\ lastBuzzerTime (playAlertTone ty m) = lastBuzzerTime m
  /\ buzzerEnabled (playAlertTone ty m) = buzzerEnabled m.
Proof. destruct ty; repeat split. Qed.

(** What a call that is not suppressed stores. *)
Lemma addAlert_stored ty msg m :
  has_recent (millis (clock m)) ty m = false ->
  let alert := {| type := ty; message := msg; timestamp := millis (clock m);
                  acknowledged := false |} in
  alerts (addAlert ty msg m)
    = (if MAX_ALERTS <=? alertCount m
       then <[Z.to_nat (MAX_ALERTS - 1) := alert]> (shiftAlerts (alerts m))
       else <[Z.to_nat (alertCount m) := alert]> (alerts m))
  /\ alertCount (addAlert ty msg m)
    = (if MAX_ALERTS <=? alertCount m then MAX_ALERTS else alertCount m + 1)
  /\ buzzerEnabled (addAlert ty msg m) = buzzerEnabled m
  /\ lastBuzzerTime (addAlert ty msg m) = lastBuzzerTime m.
Proof.
  intros H. unfold addAlert. rewrite H.
  destruct (MAX_ALERTS <=? alertCount m); cbn zeta;
    (destruct (buzzerEnabled m); [destruct ty|]); repeat split.
Qed.

Lemma shiftAlerts_store (a : list Alert) x :
  (0 < length a)%nat ->
  <[(length a - 1)%nat := x]> (shiftAlerts a) = drop 1 a ++ [x].
Proof.
  intros Hlen. unfold shiftAlerts.
  rewrite insert_app_r_alt by (rewrite length_drop; lia).
  rewrite length_drop, Nat.sub_diag.
  destruct (drop (length a - 1) a) as [|y l] eqn:E.
  - apply (f_equal length) in E. rewrite length_drop in E. simpl in E. lia.
  - apply (f_equal length) in E. rewrite length_drop in E. simpl in E.
    destruct l; [reflexivity|simpl in E; lia].
Qed.

Lemma mgr_ok_addAlert ty msg m : mgr_ok m -> mgr_ok (addAlert ty msg m).
Proof.
  intros [Hlen Hcount].
  destruct (has_recent (millis (clock m)) ty m) eqn:Hr.
  - unfold addAlert. rewrite Hr. split; assumption.
  - destruct (addAlert_stored ty msg m Hr) as (Ea & Ec & _).
    unfold mgr_ok. rewrite Ea, Ec. unfold MAX_ALERTS in *.
    destruct (Z.leb_spec 10 (alertCount m)); rewrite length_insert; [|split; lia].
    unfold shiftAlerts. rewrite length_app, length_map, !length_drop. split; lia.
Qed.

Lemma mgr_ok_step m o : mgr_ok m -> mgr_ok (step m o).
Proof.
  intros Hok. destruct o as [ty msg|index| |enabled| |ms]; cbn [step].
  - apply mgr_ok_addAlert, Hok.
  - unfold acknowledgeAlert. destruct (_ && _); [|exact Hok].
    destruct (alerts m !! Z.to_nat index); [|exact Hok].
    destruct Hok as [Hlen Hcount]. split; cbn [alerts alertCount];
      rewrite ?length_insert; assumption.
  - destruct Hok as [Hlen Hcount]. split; cbn [clearAllAlerts alerts alertCount].
    + rewrite length_map. exact Hlen.
    + unfold MAX_ALERTS. lia.
  - exact Hok.
  - unfold handleBuzzer. destruct (_ || _); [exact Hok|].
    destruct (2000 <? _); [|exact Hok].
    destruct (type_eqb _ _); [exact Hok|].
    destruct (playAlertTone_frame (fold_left highest (active m) ALERT_NONE) m)
      as (Ea & Ec & _).
    destruct Hok as [Hlen Hcount]. split; cbn [alerts alertCount]; rewrite ?Ea, ?Ec;
      assumption.
  - exact Hok.
Qed.

Lemma mgr_ok_run boot ops : mgr_ok (run boot ops).
Proof.
  unfold run.
  assert (Hinit : mgr_ok (init boot)) by (split; [reflexivity|unfold MAX_ALERTS; simpl; lia]).
  revert Hinit. generalize (init boot).
  induction ops as [|o ops IH]; intros m Hok; cbn [fold_left]; [exact Hok|].
  apply IH, mgr_ok_step, Hok.
Qed.

(** X9.  Whatever calls are made, the count of the manager stays between
    0 and [MAX_ALERTS], the array keeps its [MAX_ALERTS] slots, and
    [addAlert] writes inside it. *)
Theorem alertCount_bounded (boot : Z) (ops : list Op) (ty : AlertType) (msg : String.string) :
  let m := run boot ops in
  0 <= alertCount m <= MAX_ALERTS
  /\ Z.of_nat (length (alerts m)) = MAX_ALERTS
  /\ 0 < alertCount (addAlert ty msg m) <= MAX_ALERTS.
Proof.
  cbn zeta. destruct (mgr_ok_run boot ops) as [Hlen Hcount].
  destruct (mgr_ok_addAlert ty msg (run boot ops) (conj Hlen Hcount)) as [_ Hc'].
  split; [exact Hcount|]. split; [rewrite Hlen; reflexivity|].
  split; [|apply Hc'].
  destruct (has_recent (millis (clock (run boot ops))) ty (run boot ops)) eqn:Hr.
  - unfold addAlert. rewrite Hr. apply has_recent_true in Hr as (i & _ & Hi & _). lia.
  - destruct (addAlert_stored ty msg _ Hr) as (_ & -> & _).
    destruct (MAX_ALERTS <=? _); unfold MAX_ALERTS; lia.
Qed.

(** X10.  An alert that is not suppressed goes to the end of the entries
    in use; when all [MAX_ALERTS] slots are in use the oldest entry is
    dropped to make room and the others keep their order. *)
Theorem addAlert_evicts_oldest (boot : Z) (ops : list Op) (ty : AlertType)
    (msg : String.string) :
  let m := run boot ops in
  has_recent (millis (clock m)) ty m = false ->
  active (addAlert ty msg m)
    = (if MAX_ALERTS <=? alertCount m then drop 1 (active m) else active m)
      ++ [{| type := ty; message := msg; timestamp := millis (clock m);
             acknowledged := false |}].
Proof.
  cbn zeta. intros Hr. destruct (mgr_ok_run boot ops) as [Hlen Hcount].
  destruct (addAlert_stored ty msg _ Hr) as (Ea & Ec & _).
  unfold active. rewrite Ea, Ec. unfold MAX_ALERTS in *.
  destruct (Z.leb_spec 10 (alertCount (run boot ops))).
  - replace (Z.to_nat (10 - 1)) with (length (alerts (run boot ops)) - 1)%nat by lia.
    rewrite shiftAlerts_store by lia.
    rewrite (take_ge (alerts (run boot ops))) by lia.
    apply take_ge. rewrite length_app, length_drop. simpl. lia.
  - replace (Z.to_nat (alertCount (run boot ops) + 1))
      with (S (Z.to_nat (alertCount (run boot ops)))) by lia.
    erewrite take_S_r by (apply list_lookup_insert_eq; lia).
    rewrite take_insert_ge by lia. reflexivity.
Qed.

(** X11.  [clearAllAlerts()] leaves no active alert, and the duplicate
    suppression of [addAlert] forgets what was cleared: the next alert of
    any type is stored as the only entry, however recently an alert of
    that type had been raised. *)
Theorem clearAllAlerts_forgets (boot : Z) (ops : list Op) (ty : AlertType)
    (msg : String.string) :
  let m := clearAllAlerts (run boot ops) in
  alertCount m = 0
  /\ hasActiveAlerts m = false
  /\ active (addAlert ty msg m)
     = [{| type := ty; message := msg; timestamp := millis (clock m);
           acknowledged := false |}].
Proof.
  cbn zeta. split; [reflexivity|]. split; [reflexivity|].
  assert (Hr : has_recent (millis (clock (clearAllAlerts (run boot ops)))) ty
                 (clearAllAlerts (run boot ops)) = false) by reflexivity.
  destruct (addAlert_stored ty msg _ Hr) as (Ea & Ec & _).
  destruct (mgr_ok_run boot ops) as [Hlen _].
  unfold active. rewrite Ea, Ec. cbn [clearAllAlerts alertCount alerts].
  change (MAX_ALERTS <=? 0) with false. cbn iota.
  change (Z.to_nat (0 + 1)) with 1%nat. change (Z.to_nat 0) with 0%nat.
  destruct (alerts (run boot ops)) as [|a l]; [discriminate Hlen|reflexivity].
Qed.

Lemma acknowledge_prefix k : forall m,
  mgr_ok m -> (k <= Z.to_nat (alertCount m))%nat ->
  let m' := fold_left (fun m i => acknowledgeAlert (Z.of_nat i) m) (seq 0 k) m in
  mgr_ok m' /\ alertCount m' = alertCount m
  /\ forall i a, (i < k)%nat -> alerts m' !! i = Some a -> acknowledged a = true.
Proof.
  induction k as [|k IH]; intros m Hok Hk; cbn zeta.
  - split; [exact Hok|]. split; [reflexivity|]. intros i a Hi. lia.
  - rewrite seq_S, fold_left_app. cbn [fold_left Nat.add].
    destruct (IH m Hok ltac:(lia)) as ([Hlen Hcount] & Hc & Hack). cbn zeta in *.
    set (mk := fold_left (fun m i => acknowledgeAlert (Z.of_nat i) m) (seq 0 k) m) in *.
    unfold acknowledgeAlert.
    destruct (Z.leb_spec 0 (Z.of_nat k)); [|lia].
    destruct (Z.ltb_spec (Z.of_nat k) (alertCount mk)); [|lia]. cbn [andb].
    rewrite Nat2Z.id. unfold MAX_ALERTS in *.
    destruct (alerts mk !! k) as [a|] eqn:Ea;
      [|apply lookup_ge_None in Ea; lia].
    unfold mgr_ok, MAX_ALERTS. cbn [alerts alertCount]. rewrite length_insert.
    split; [split; assumption|]. split; [exact Hc|].
    intros i b Hi Hb. destruct (decide (i = k)) as [->|Hne].
    + rewrite list_lookup_insert_eq in Hb by lia. injection Hb as <-. reflexivity.
    + rewrite list_lookup_insert_ne in Hb by lia. apply (Hack i b); [lia|exact Hb].
Qed.

(** X12.  Once every entry in use has been acknowledged the manager has
    no active alert and [handleBuzzer()] does nothing: acknowledging stops
    the periodic tone, while the entries stay in the list. *)
Theorem acknowledged_alerts_silent (boot : Z) (ops : list Op) :
  let m := acknowledge_all (run boot ops) in
  alertCount m = alertCount (run boot ops)
  /\ hasActiveAlerts m = false
  /\ handleBuzzer m = m.
Proof.
  cbn zeta. unfold acknowledge_all.
  destruct (acknowledge_prefix (Z.to_nat (alertCount (run boot ops))) (run boot ops)
              (mgr_ok_run boot ops) ltac:(lia)) as (_ & Hc & Hack).
  cbn zeta in *.
  set (m := fold_left _ _ _) in *.
  assert (Hnone : hasActiveAlerts m = false).
  { unfold hasActiveAlerts, active. destruct (existsb _ _) eqn:E; [|reflexivity].
    apply existsb_exists in E as (a & Hin & Ha).
    apply list_elem_of_In, list_elem_of_lookup in Hin as [i Hi].
    apply lookup_take_Some in Hi as [Hi Hlt].
    rewrite (Hack i a) in Ha; [discriminate Ha|lia|exact Hi]. }
  split; [exact Hc|]. split; [exact Hnone|].
  unfold handleBuzzer. rewrite Hnone, orb_true_r. reflexivity.
Qed.

Lemma type_code_max ty : type_code ty <= 6.
Proof. destruct ty; simpl; lia. Qed.

Lemma highest_no_finger l : forall acc,
  acc = ALERT_NO_FINGER
  \/ (exists a, In a l /\ acknowledged a = false /\ type a = ALERT_NO_FINGER) ->
  fold_left highest l acc = ALERT_NO_FINGER.
Proof.
  induction l as [|b l IH]; intros acc H; cbn [fold_left].
  - destruct H as [H|(a & [] & _)]. exact H.
  - apply IH. destruct H as [->|(a & [<-|Hin] & Hack & Hty)].
    + left. unfold highest. pose proof (type_code_max (type b)).
      destruct (Z.ltb_spec (type_code ALERT_NO_FINGER) (type_code (type b)));
        [simpl in *; lia|]. rewrite andb_false_r. reflexivity.
    + left. unfold highest. rewrite Hack, Hty. cbn [negb andb].
      destruct (Z.ltb_spec (type_code acc) (type_code ALERT_NO_FINGER));
        [reflexivity|]. destruct acc; simpl in *; try lia. reflexivity.
    + right. eauto.
Qed.

(** X13.  While an alert of type [ALERT_NO_FINGER] that is not
    acknowledged is among the entries in use, [handleBuzzer()] sounds
    nothing and lets no time pass: that type ranks highest and has no
    tone, so it masks the tone of every other pending alert. *)
Theorem no_finger_masks_buzzer (m : AlertManager) (i : nat) (a : Alert) :
  (i < Z.to_nat (alertCount m))%nat ->
  alerts m !! i = Some a ->
  type a = ALERT_NO_FINGER ->
  acknowledged a = false ->
  output (handleBuzzer m) = output m /\ clock (handleBuzzer m) = clock m.
Proof.
  intros Hi Ha Hty Hack. unfold handleBuzzer.
  destruct (_ || _); [split; reflexivity|].
  destruct (2000 <? _); [|split; reflexivity].
  rewrite (highest_no_finger (active m) ALERT_NONE); [split; reflexivity|].
  right. exists a. repeat split; try assumption.
  apply list_elem_of_In, list_elem_of_lookup. exists i.
  unfold active. rewrite lookup_take_lt by exact Hi. exact Ha.
Qed.

End ManagerFacts.

(** The eleventh alert pushes the first out of a full list. *)
Lemma addAlert_evicts_oldest_eleventh :
  let m := AlertMgr.run 0 Scenario.ten_alerts in
  AlertMgr.alertCount m = 10
  /\ AlertMgr.timestamp <$> AlertMgr.active m
     = [0; 31150; 62300; 93450; 124600; 155750; 186900; 218050; 249200; 280350]
  /\ AlertMgr.timestamp
       <$> AlertMgr.active (AlertMgr.addAlert AlertMgr.ALERT_LOW_SPO2 "SpO2"%string m)
     = [31150; 62300; 93450; 124600; 155750; 186900; 218050; 249200; 280350; 311500].
Proof.
  split; [reflexivity|]. split; [reflexivity|].
  rewrite (addAlert_evicts_oldest 0 Scenario.ten_alerts AlertMgr.ALERT_LOW_SPO2
             "SpO2"%string); [reflexivity|reflexivity].
Defined.

(** A pending heart-rate alert and a pending no-finger alert, three
    seconds old: the heart-rate alert alone would sound, the pair does
    not. *)
Lemma no_finger_masks_heart_rate :
  AlertMgr.output (AlertMgr.handleBuzzer Scenario.no_finger_pending)
    = AlertMgr.output Scenario.no_finger_pending
  /\ AlertMgr.clock (AlertMgr.handleBuzzer Scenario.no_finger_pending)
    = AlertMgr.clock Scenario.no_finger_pending.
Proof.
  eapply (no_finger_masks_buzzer Scenario.no_finger_pending 1%nat).
  - vm_compute. lia.
  - reflexivity.
  - reflexivity.
  - reflexivity.
Defined.

(** One pending heart-rate alert does sound. *)
Example handleBuzzer_heart_rate_sounds :
  let m := AlertMgr.run 1000
             [AlertMgr.AddAlert AlertMgr.ALERT_HIGH_HEART_RATE "HR high"%string;
              AlertMgr.Elapse 3000] in
  AlertMgr.output (AlertMgr.handleBuzzer m) <> AlertMgr.output m.
Proof. vm_compute. discriminate. Qed.

(** ** History and order of the checks in the two sketches *)

Section HistoryFacts.

Lemma last_n_snoc {A : Type} (n : nat) (l : list A) (x : A) :
  last_n (S n) (l ++ [x])
  = (if (length l <? S n)%nat then l else drop 1 (last_n (S n) l)) ++ [x].
Proof.
  unfold last_n. rewrite length_app. cbn [length].
  destruct (Nat.ltb_spec (length l) (S n)).
  - replace (length l + 1 - S n)%nat with 0%nat by lia. reflexivity.
  - rewrite drop_app_le by lia. rewrite drop_drop. do 2 f_equal. lia.
Qed.

Lemma last_n_length {A : Type} (n : nat) (l : list A) :
  length (last_n n l) = Nat.min n (length l).
Proof. unfold last_n. rewrite length_drop. lia. Qed.

Lemma uno_log_triggerAlert l m w : uno_log_ok w -> uno_log_ok (Uno.triggerAlert l m w).
Proof.
  intros [Hok Hlog].
  destruct (Z.lt_ge_cases (elapsed (millis (Uno.clock w)) (Uno.lastAlertTime w))
              Uno.ALERT_COOLDOWN) as [Hcool|Hfire].
  - rewrite triggerAlert_cooling by exact Hcool. split; assumption.
  - destruct (triggerAlert_views l m w Hok Hfire) as (_ & Eh & Hok').
    destruct (triggerAlert_fired l m w Hfire) as (_ & _ & _ & _ & _ & Eb & _).
    split; [exact Hok'|]. rewrite Eh, Eb.
    change (Z.to_nat Uno.MAX_HISTORY) with 20%nat in *.
    rewrite last_n_snoc, fmap_app. cbn [fmap list_fmap]. f_equal.
    assert (Hlen : length (Uno.history w) = Nat.min 20 (length (banners (Uno.output w))))
      by (rewrite <- last_n_length, <- Hlog, length_fmap; reflexivity).
    destruct Hok as (_ & _ & Hlh & Hch).
    assert (Hcount : length (Uno.history w) = Z.to_nat (Uno.alertHistoryCount w))
      by (unfold Uno.history; rewrite length_take; lia).
    unfold Uno.MAX_HISTORY in *.
    destruct (Z.ltb_spec (Uno.alertHistoryCount w) 20);
      destruct (Nat.ltb_spec (length (banners (Uno.output w))) 20); try lia.
    + rewrite Hlog. unfold last_n.
      replace (length (banners (Uno.output w)) - 20)%nat with 0%nat by lia. reflexivity.
    + rewrite <- Hlog, fmap_drop. reflexivity.
Qed.

Lemma uno_log_removeOldAlerts w : uno_log_ok w -> uno_log_ok (Uno.removeOldAlerts w).
Proof.
  intros [Hok Hlog]. split; [apply uno_ok_removeOldAlerts, Hok|].
  destruct (removeOldAlerts_spec w) as (_ & _ & Eh & Ehc & _ & _ & Eo).
  unfold Uno.history. rewrite Eh, Ehc, Eo. exact Hlog.
Qed.

Lemma uno_log_step w e : uno_log_ok w -> uno_log_ok (Uno.step w e).
Proof.
  intros Hlog. destruct e as [ms|v t|l m]; cbn [Uno.step].
  - exact Hlog.
  - unfold Uno.checkAlerts. destruct (negb (enabled t)); [exact Hlog|].
    apply uno_log_removeOldAlerts. rewrite checks_breaches.
    destruct (try_all_once (Uno.breaches v t) w) as [->|(l & m & _ & ->)];
      [exact Hlog|apply uno_log_triggerAlert, Hlog].
  - apply uno_log_triggerAlert, Hlog.
Qed.

Lemma esp_log_triggerAlert l m x :
  esp_ok x -> esp_log_ok x -> esp_log_ok (Esp32.triggerAlert l m x).
Proof.
  intros Hok Hlog.
  destruct (Z.lt_ge_cases (elapsed (millis (Esp32.clock x)) (Esp32.lastAlertTime x)) 5000)
    as [Hcool|Hfire].
  - rewrite esp_triggerAlert_cooling by exact Hcool. exact Hlog.
  - destruct (esp_triggerAlert_fired l m x Hfire) as (_ & Eh & _ & Eb & _).
    destruct (push_history_spec (Esp32.make_alert l m (millis (Esp32.clock x)))
                (Esp32.alertHistory x) Hok) as [Ep _].
    unfold esp_log_ok in *. rewrite Eh, Ep, Eb, last_n_snoc, fmap_app.
    cbn [fmap list_fmap]. f_equal.
    assert (Hlen : length (Esp32.alertHistory x)
                   = Nat.min 50 (length (banners (Esp32.output x))))
      by (rewrite <- last_n_length, <- Hlog, length_fmap; reflexivity).
    destruct (Nat.ltb_spec (length (Esp32.alertHistory x)) 50);
      destruct (Nat.ltb_spec (length (banners (Esp32.output x))) 50); try lia.
    + rewrite Hlog. unfold last_n.
      replace (length (banners (Esp32.output x)) - 50)%nat with 0%nat by lia. reflexivity.
    + rewrite <- Hlog, fmap_drop. reflexivity.
Qed.

Lemma esp_log_step x e : esp_ok x -> esp_log_ok x -> esp_log_ok (Esp32.step x e).
Proof.
  intros Hok Hlog. destruct e as [ms|v t|l m]; cbn [Esp32.step].
  - exact Hlog.
  - unfold Esp32.checkAlerts. destruct (negb (enabled t)); [exact Hlog|].
    unfold esp_log_ok. cbn [Esp32.removeOldAlerts Esp32.alertHistory Esp32.output].
    rewrite esp_checks_breaches.
    destruct (esp_try_all_once (Esp32.breaches v t) x) as [->|(l & m & _ & ->)];
      [exact Hlog|apply esp_log_triggerAlert; assumption].
  - apply esp_log_triggerAlert; assumption.
Qed.

(** X14.  In every state the main loop can reach through [checkAlerts]
    and [triggerAlert], the Alert History holds exactly the alerts raised
    last, at most [MAX_HISTORY] of them (50 in the ESP32 sketch), oldest
    first, each with the text and level its banner showed: nothing but
    overflow removes an entry and no entry is ever reordered. *)
Theorem history_is_last_raised (boot : Z) (es : list Uno.Event) (boot' : Z)
    (es' : list Esp32.Event) :
  uno_raised <$> Uno.history (Uno.run boot es)
    = last_n (Z.to_nat Uno.MAX_HISTORY) (banners (Uno.output (Uno.run boot es)))
  /\ esp_raised <$> Esp32.alertHistory (Esp32.run boot' es')
    = last_n 50 (banners (Esp32.output (Esp32.run boot' es'))).
Proof.
  split.
  - assert (H : uno_log_ok (Uno.run boot es)); [|apply H].
    unfold Uno.run.
    assert (Hinit : uno_log_ok (Uno.init boot)) by (split; [apply uno_ok_init|reflexivity]).
    revert Hinit. generalize (Uno.init boot).
    induction es as [|e es IH]; intros w Hw; cbn [fold_left]; [exact Hw|].
    apply IH, uno_log_step, Hw.
  - unfold Esp32.run.
    assert (Hinit : esp_ok (Esp32.init boot') /\ esp_log_ok (Esp32.init boot'))
      by (split; [unfold esp_ok; simpl; lia|reflexivity]).
    revert Hinit. generalize (Esp32.init boot').
    induction es' as [|e es' IH]; intros x [Hok Hlog]; cbn [fold_left]; [exact Hlog|].
    apply IH. split; [|apply esp_log_step; assumption].
    destruct e; cbn [Esp32.step];
      [exact Hok|apply esp_ok_checkAlerts, Hok|apply esp_ok_triggerAlert, Hok].
Qed.

End HistoryFacts.

Section CheckOrderFacts.

Lemma uno_stages_blocked stages : forall wc c0,
  Uno.lastAlertTime wc = millis c0 -> c0 <= Uno.clock wc ->
  Forall (fun s => 0 <= fst (fst s)) stages ->
  Uno.clock wc + gaps_total stages < c0 + 5000 ->
  banners (Uno.output (uno_stages stages wc)) = banners (Uno.output wc).
Proof.
  induction stages as [|[[gap b] a] rest IH]; intros wc c0 Hl Hc Hgaps Hwin;
    cbn [uno_stages fst snd]; [reflexivity|].
  apply Forall_cons in Hgaps as [Hgap Hgaps]. cbn [fst gaps_total foldr] in Hgap, Hwin.
  fold (gaps_total rest) in Hwin.
  assert (Hrest : 0 <= gaps_total rest).
  { clear -Hgaps. induction Hgaps as [|s l Hs _ IHl]; cbn [gaps_total foldr]; [lia|].
    fold (gaps_total l). lia. }
  assert (Hsame : uno_attempt b a (Uno.delay gap wc) = Uno.delay gap wc).
  { unfold uno_attempt. destruct b; [|reflexivity].
    apply triggerAlert_cooling. cbn [Uno.delay Uno.clock Uno.lastAlertTime].
    rewrite Hl, elapsed_millis; unfold Uno.ALERT_COOLDOWN; lia. }
  rewrite Hsame. rewrite (IH (Uno.delay gap wc) c0); cbn [Uno.delay Uno.clock
    Uno.lastAlertTime Uno.output]; try assumption; try lia. reflexivity.
Qed.

Lemma uno_stages_quiet w stages : forall wc g,
  Uno.output wc = Uno.output w -> Uno.lastAlertTime wc = Uno.lastAlertTime w ->
  Uno.clock wc = Uno.clock w + g ->
  Forall (fun s => 0 <= fst (fst s)) stages ->
  gaps_total stages < 3100 ->
  banners (Uno.output (uno_stages stages wc))
  = banners (Uno.output w) ++ uno_first_open w (offsets g stages).
Proof.
  induction stages as [|[[gap b] a] rest IH]; intros wc g Ho Hl Hc Hgaps Htotal;
    cbn [uno_stages offsets fst snd].
  - rewrite Ho. unfold uno_first_open. cbn. symmetry. apply app_nil_r.
  - apply Forall_cons in Hgaps as [Hgap Hgaps]. cbn [fst gaps_total foldr] in Hgap, Htotal.
    fold (gaps_total rest) in Htotal.
    assert (Hrest : 0 <= gaps_total rest).
    { clear -Hgaps. induction Hgaps as [|s l Hs _ IHl]; cbn [gaps_total foldr]; [lia|].
      fold (gaps_total l). lia. }
    assert (Hclock : Uno.clock (Uno.delay gap wc) = Uno.clock w + (g + gap))
      by (cbn [Uno.delay Uno.clock]; lia).
    destruct (b && uno_open_at w (g + gap)) eqn:E.
    + apply andb_prop in E as [-> Hopen]. unfold uno_attempt.
      assert (Hfire : Uno.ALERT_COOLDOWN
                      <= elapsed (millis (Uno.clock (Uno.delay gap wc)))
                                 (Uno.lastAlertTime (Uno.delay gap wc))).
      { rewrite Hclock. cbn [Uno.delay Uno.lastAlertTime]. rewrite Hl.
        apply Z.leb_le, Hopen. }
      destruct (triggerAlert_fired (fst a) (snd a) (Uno.delay gap wc) Hfire)
        as (_ & _ & _ & _ & El & Eb & Eclock).
      rewrite (uno_stages_blocked rest _ (Uno.clock (Uno.delay gap wc)));
        try assumption; try lia.
      rewrite Eb. cbn [Uno.delay Uno.output]. rewrite Ho. f_equal.
      unfold uno_first_open. cbn [app List.find fst]. rewrite Hopen. reflexivity.
    + assert (Hsame : uno_attempt b a (Uno.delay gap wc) = Uno.delay gap wc).
      { unfold uno_attempt. destruct b; [|reflexivity]. cbn [andb] in E.
        apply triggerAlert_cooling. rewrite Hclock.
        cbn [Uno.delay Uno.lastAlertTime]. rewrite Hl.
        unfold uno_open_at in E. apply Z.leb_gt in E. exact E. }
      rewrite Hsame, (IH (Uno.delay gap wc) (g + gap)); try assumption; try lia.
      f_equal. unfold uno_first_open.
      destruct b; cbn [andb] in E; cbn [app List.find fst]; [rewrite E|]; reflexivity.
Qed.

Lemma esp_stages_blocked stages : forall xc c0,
  Esp32.lastAlertTime xc = millis c0 -> c0 <= Esp32.clock xc ->
  Forall (fun s => 0 <= fst (fst s)) stages ->
  Esp32.clock xc + gaps_total stages < c0 + 5000 ->
  banners (Esp32.output (esp_stages stages xc)) = banners (Esp32.output xc).
Proof.
  induction stages as [|[[gap b] a] rest IH]; intros xc c0 Hl Hc Hgaps Hwin;
    cbn [esp_stages fst snd]; [reflexivity|].
  apply Forall_cons in Hgaps as [Hgap Hgaps]. cbn [fst gaps_total foldr] in Hgap, Hwin.
  fold (gaps_total rest) in Hwin.
  assert (Hrest : 0 <= gaps_total rest).
  { clear -Hgaps. induction Hgaps as [|s l Hs _ IHl]; cbn [gaps_total foldr]; [lia|].
    fold (gaps_total l). lia. }
  assert (Hsame : esp_attempt b a (Esp32.delay gap xc) = Esp32.delay gap xc).
  { unfold esp_attempt. destruct b; [|reflexivity].
    apply esp_triggerAlert_cooling. cbn [Esp32.delay Esp32.clock Esp32.lastAlertTime].
    rewrite Hl, elapsed_millis; lia. }
  rewrite Hsame. rewrite (IH (Esp32.delay gap xc) c0); cbn [Esp32.delay Esp32.clock
    Esp32.lastAlertTime Esp32.output]; try assumption; try lia. reflexivity.
Qed.

Lemma esp_stages_quiet x stages : forall xc g,
  Esp32.output xc = Esp32.output x -> Esp32.lastAlertTime xc = Esp32.lastAlertTime x ->
  Esp32.clock xc = Esp32.clock x + g ->
  Forall (fun s => 0 <= fst (fst s)) stages ->
  gaps_total stages < 3100 ->
  banners (Esp32.output (esp_stages stages xc))
  = banners (Esp32.output x) ++ esp_first_open x (offsets g stages).
Proof.
  induction stages as [|[[gap b] a] rest IH]; intros xc g Ho Hl Hc Hgaps Htotal;
    cbn [esp_stages offsets fst snd].
  - rewrite Ho. unfold esp_first_open. cbn. symmetry. apply app_nil_r.
  - apply Forall_cons in Hgaps as [Hgap Hgaps]. cbn [fst gaps_total foldr] in Hgap, Htotal.
    fold (gaps_total rest) in Htotal.
    assert (Hrest : 0 <= gaps_total rest).
    { clear -Hgaps. induction Hgaps as [|s l Hs _ IHl]; cbn [gaps_total foldr]; [lia|].
      fold (gaps_total l). lia. }
    assert (Hclock : Esp32.clock (Esp32.delay gap xc) = Esp32.clock x + (g + gap))
      by (cbn [Esp32.delay Esp32.clock]; lia).
    destruct (b && esp_open_at x (g + gap)) eqn:E.
    + apply andb_prop in E as [-> Hopen]. unfold esp_attempt.
      assert (Hfire : 5000 <= elapsed (millis (Esp32.clock (Esp32.delay gap xc)))
                                      (Esp32.lastAlertTime (Esp32.delay gap xc))).
      { rewrite Hclock. cbn [Esp32.delay Esp32.lastAlertTime]. rewrite Hl.
        apply Z.leb_le, Hopen. }
      destruct (esp_triggerAlert_fired (fst a) (snd a) (Esp32.delay gap xc) Hfire)
        as (_ & _ & El & Eb & Eclock).
      rewrite (esp_stages_blocked rest _ (Esp32.clock (Esp32.delay gap xc)));
        try assumption; try lia.
      rewrite Eb. cbn [Esp32.delay Esp32.output]. rewrite Ho. f_equal.
      unfold esp_first_open. cbn [app List.find fst]. rewrite Hopen. reflexivity.
    + assert (Hsame : esp_attempt b a (Esp32.delay gap xc) = Esp32.delay gap xc).
      { unfold esp_attempt. destruct b; [|reflexivity]. cbn [andb] in E.
        apply esp_triggerAlert_cooling. rewrite Hclock.
        cbn [Esp32.delay Esp32.lastAlertTime]. rewrite Hl.
        unfold esp_open_at in E. apply Z.leb_gt in E. exact E. }
      rewrite Hsame, (IH (Esp32.delay gap xc) (g + gap)); try assumption; try lia.
      f_equal. unfold esp_first_open.
      destruct b; cbn [andb] in E; cbn [app List.find fst]; [rewrite E|]; reflexivity.
Qed.

(** A cycle of three guarded calls, no wait before the first. *)
Lemma uno_three_attempts b1 b2 b3 a1 a2 a3 g1 g2 w :
  0 <= g1 -> 0 <= g2 -> g1 + g2 < 3100 ->
  banners (Uno.output
             (uno_attempt b3 a3 (Uno.delay g2 (uno_attempt b2 a2
                (Uno.delay g1 (uno_attempt b1 a1 w))))))
  = banners (Uno.output w)
    ++ uno_first_open w ((if b1 then [(0, a1)] else [])
                         ++ (if b2 then [(g1, a2)] else [])
                         ++ (if b3 then [(g1 + g2, a3)] else [])).
Proof.
  intros H1 H2 H12.
  change (uno_attempt b3 a3 (Uno.delay g2 (uno_attempt b2 a2
            (Uno.delay g1 (uno_attempt b1 a1 w)))))
    with (uno_stages [(g1, b2, a2); (g2, b3, a3)] (uno_attempt b1 a1 w)).
  assert (Hgaps : Forall (fun s : Z * bool * (Z * Message) => 0 <= fst (fst s))
                    [(g1, b2, a2); (g2, b3, a3)]) by (repeat constructor; assumption).
  assert (Htail : offsets 0 [(g1, b2, a2); (g2, b3, a3)]
                  = (if b2 then [(g1, a2)] else []) ++ (if b3 then [(g1 + g2, a3)] else []))
    by (cbn; rewrite app_nil_r; reflexivity).
  destruct (b1 && uno_open_at w 0) eqn:E.
  - apply andb_prop in E as [-> Hopen]. unfold uno_attempt at 1.
    assert (Hfire : Uno.ALERT_COOLDOWN
                    <= elapsed (millis (Uno.clock w)) (Uno.lastAlertTime w)).
    { unfold uno_open_at in Hopen. rewrite Z.add_0_r in Hopen. apply Z.leb_le, Hopen. }
    destruct (triggerAlert_fired (fst a1) (snd a1) w Hfire)
      as (_ & _ & _ & _ & El & Eb & Eclock).
    rewrite (uno_stages_blocked _ _ (Uno.clock w)); try assumption;
      [|lia|cbn [gaps_total foldr fst]; lia].
    rewrite Eb. f_equal. unfold uno_first_open. cbn [app List.find fst].
    rewrite Hopen. reflexivity.
  - assert (Hsame : uno_attempt b1 a1 w = w).
    { unfold uno_attempt. destruct b1; [|reflexivity]. cbn [andb] in E.
      apply triggerAlert_cooling. unfold uno_open_at in E. rewrite Z.add_0_r in E.
      apply Z.leb_gt in E. exact E. }
    rewrite Hsame, (uno_stages_quiet w _ w 0); try reflexivity; try assumption;
      [|lia|cbn [gaps_total foldr fst]; lia].
    rewrite Htail. f_equal. unfold uno_first_open.
    destruct b1; cbn [andb] in E; cbn [app List.find fst]; [rewrite E|]; reflexivity.
Qed.

Lemma esp_three_attempts b1 b2 b3 a1 a2 a3 g1 g2 x :
  0 <= g1 -> 0 <= g2 -> g1 + g2 < 3100 ->
  banners (Esp32.output
             (esp_attempt b3 a3 (Esp32.delay g2 (esp_attempt b2 a2
                (Esp32.delay g1 (esp_attempt b1 a1 x))))))
  = banners (Esp32.output x)
    ++ esp_first_open x ((if b1 then [(0, a1)] else [])
                         ++ (if b2 then [(g1, a2)] else [])
                         ++ (if b3 then [(g1 + g2, a3)] else [])).
Proof.
  intros H1 H2 H12.
  change (esp_attempt b3 a3 (Esp32.delay g2 (esp_attempt b2 a2
            (Esp32.delay g1 (esp_attempt b1 a1 x)))))
    with (esp_stages [(g1, b2, a2); (g2, b3, a3)] (esp_attempt b1 a1 x)).
  assert (Hgaps : Forall (fun s : Z * bool * (Esp32.AlertLevel * Message) =>
                            0 <= fst (fst s))
                    [(g1, b2, a2); (g2, b3, a3)]) by (repeat constructor; assumption).
  assert (Htail : offsets 0 [(g1, b2, a2); (g2, b3, a3)]
                  = (if b2 then [(g1, a2)] else []) ++ (if b3 then [(g1 + g2, a3)] else []))
    by (cbn; rewrite app_nil_r; reflexivity).
  destruct (b1 && esp_open_at x 0) eqn:E.
  - apply andb_prop in E as [-> Hopen]. unfold esp_attempt at 1.
    assert (Hfire : 5000 <= elapsed (millis (Esp32.clock x)) (Esp32.lastAlertTime x)).
    { unfold esp_open_at in Hopen. rewrite Z.add_0_r in Hopen. apply Z.leb_le, Hopen. }
    destruct (esp_triggerAlert_fired (fst a1) (snd a1) x Hfire)
      as (_ & _ & El & Eb & Eclock).
    rewrite (esp_stages_blocked _ _ (Esp32.clock x)); try assumption;
      [|lia|cbn [gaps_total foldr fst]; lia].
    rewrite Eb. f_equal. unfold esp_first_open. cbn [app List.find fst].
    rewrite Hopen. reflexivity.
  - assert (Hsame : esp_attempt b1 a1 x = x).
    { unfold esp_attempt. destruct b1; [|reflexivity]. cbn [andb] in E.
      apply esp_triggerAlert_cooling. unfold esp_open_at in E. rewrite Z.add_0_r in E.
      apply Z.leb_gt in E. exact E. }
    rewrite Hsame, (esp_stages_quiet x _ x 0); try reflexivity; try assumption;
      [|lia|cbn [gaps_total foldr fst]; lia].
    rewrite Htail. f_equal. unfold esp_first_open.
    destruct b1; cbn [andb] in E; cbn [app List.find fst]; [rewrite E|]; reflexivity.
Qed.

(** Each check is one guarded call of [triggerAlert]. *)
Lemma uno_checks_timed_attempts g1 g2 v t w :
  Uno.checks_timed g1 g2 v t w
  = uno_attempt (Qltb (batteryLevel v) (batteryMin t))
      (if Qltb (batteryLevel v) 10 then Uno.ALERT_LEVEL_CRITICAL
       else Uno.ALERT_LEVEL_WARNING,
       mkMessage "Low battery: %d%%"%string (to_int (batteryLevel v)))
      (Uno.delay g2
         (uno_attempt (isFingerDetected v && Qltb 0 (spO2 v) && Qltb (spO2 v) (spO2Min t))
            (if Qltb (spO2 v) 90 then Uno.ALERT_LEVEL_CRITICAL
             else Uno.ALERT_LEVEL_WARNING,
             mkMessage "Low SpO2: %d%%"%string (to_int (spO2 v)))
            (Uno.delay g1
               (uno_attempt (isFingerDetected v && Qltb 0 (Vitals.heartRate v)
                             && (Qltb (Vitals.heartRate v) (heartRateMin t)
                                 || Qltb (heartRateMax t) (Vitals.heartRate v)))
                  (if Qltb (Vitals.heartRate v) 50 || Qltb 120 (Vitals.heartRate v)
                   then Uno.ALERT_LEVEL_CRITICAL else Uno.ALERT_LEVEL_WARNING,
                   mkMessage "HR: %d BPM"%string (to_int (Vitals.heartRate v))) w)))).
Proof.
  unfold Uno.checks_timed, Uno.check_battery, Uno.check_spo2, Uno.check_heart_rate,
    uno_attempt. cbn [fst snd].
  destruct (isFingerDetected v && Qltb 0 (Vitals.heartRate v));
    destruct (Qltb (Vitals.heartRate v) (heartRateMin t)
              || Qltb (heartRateMax t) (Vitals.heartRate v));
    destruct (isFingerDetected v && Qltb 0 (spO2 v));
    destruct (Qltb (spO2 v) (spO2Min t));
    destruct (Qltb (batteryLevel v) (batteryMin t)); reflexivity.
Qed.

Lemma esp_checks_timed_attempts g1 g2 v t x :
  Esp32.checks_timed g1 g2 v t x
  = esp_attempt (Qltb (batteryLevel v) (batteryMin t))
      (if Qltb (batteryLevel v) 10 then Esp32.CRITICAL else Esp32.WARNING,
       mkMessage "Low battery: %d%%"%string (to_int (batteryLevel v)))
      (Esp32.delay g2
         (esp_attempt (isFingerDetected v && Qltb 0 (spO2 v) && Qltb (spO2 v) (spO2Min t))
            (if Qltb (spO2 v) 90 then Esp32.CRITICAL else Esp32.WARNING,
             mkMessage "Low SpO2: %d%%"%string (to_int (spO2 v)))
            (Esp32.delay g1
               (esp_attempt (isFingerDetected v && Qltb 0 (Vitals.heartRate v)
                             && (Qltb (Vitals.heartRate v) (heartRateMin t)
                                 || Qltb (heartRateMax t) (Vitals.heartRate v)))
                  (if Qltb (Vitals.heartRate v) 50 || Qltb 120 (Vitals.heartRate v)
                   then Esp32.CRITICAL else Esp32.WARNING,
                   mkMessage "Heart rate: %d BPM"%string (to_int (Vitals.heartRate v)))
                  x)))).
Proof.
  unfold Esp32.checks_timed, Esp32.check_battery, Esp32.check_spo2,
    Esp32.check_heart_rate, esp_attempt. cbn [fst snd].
  destruct (isFingerDetected v && Qltb 0 (Vitals.heartRate v));
    destruct (Qltb (Vitals.heartRate v) (heartRateMin t)
              || Qltb (heartRateMax t) (Vitals.heartRate v));
    destruct (isFingerDetected v && Qltb 0 (spO2 v));
    destruct (Qltb (spO2 v) (spO2Min t));
    destruct (Qltb (batteryLevel v) (batteryMin t)); reflexivity.
Qed.

(** X15.  A cycle raises at most one alert, and which one is settled by
    the order of the checks and by the reading of [millis()] each call of
    [triggerAlert] takes.  With [g1] ms passing between the heart-rate and
    the SpO2 check and [g2] ms between the SpO2 and the battery check
    (together less than 3.1 s), the alert raised is the one for the first
    breach, in the order heart rate, SpO2, battery, whose call finds the
    cooldown over at its own time; every breach after it is dropped, and
    so is every breach before it.  When no call finds the cooldown over,
    or nothing is breached, no alert is raised. *)
Theorem first_open_breach_wins (g1 g2 : Z) (v : VitalSigns) (t : AlertThresholds)
    (w : Uno.World) (x : Esp32.World) :
  0 <= g1 -> 0 <= g2 -> g1 + g2 < 3100 ->
  banners (Uno.output (Uno.checks_timed g1 g2 v t w))
    = banners (Uno.output w) ++ uno_first_open w (uno_timed_breaches g1 g2 v t)
  /\ banners (Esp32.output (Esp32.checks_timed g1 g2 v t x))
    = banners (Esp32.output x) ++ esp_first_open x (esp_timed_breaches g1 g2 v t).
Proof.
  intros H1 H2 H12. split.
  - rewrite uno_checks_timed_attempts. apply uno_three_attempts; assumption.
  - rewrite esp_checks_timed_attempts. apply esp_three_attempts; assumption.
Qed.

End CheckOrderFacts.

(** The cooldown has 1 ms to run when the cycle starts: the call for the
    heart rate is refused, and the clock ticks before the call for the
    SpO2. *)
Lemma first_open_breach_wins_one_tick :
  banners (Uno.output (Uno.checks_timed 1 0 Scenario.racing_low_spo2 Scenario.defaults
                         (Uno.init 4999)))
    = banners (Uno.output (Uno.init 4999))
      ++ uno_first_open (Uno.init 4999)
           (uno_timed_breaches 1 0 Scenario.racing_low_spo2 Scenario.defaults)
  /\ banners (Esp32.output (Esp32.checks_timed 1 0 Scenario.racing_low_spo2
                              Scenario.defaults (Esp32.init 4999)))
    = banners (Esp32.output (Esp32.init 4999))
      ++ esp_first_open (Esp32.init 4999)
           (esp_timed_breaches 1 0 Scenario.racing_low_spo2 Scenario.defaults).
Proof.
  apply (first_open_breach_wins 1 0 Scenario.racing_low_spo2 Scenario.defaults
           (Uno.init 4999) (Esp32.init 4999)); lia.
Defined.

(** In that cycle the SpO2 alert is the one raised; without the tick
    nothing is; and with the cooldown over from the start it is the
    heart-rate alert. *)
Example one_tick_lets_spo2_through :
  banners (Uno.output (Uno.checks_timed 1 0 Scenario.racing_low_spo2 Scenario.defaults
                         (Uno.init 4999)))
    = [(mkMessage "Low SpO2: %d%%"%string 88, Uno.ALERT_LEVEL_CRITICAL)]
  /\ banners (Uno.output (Uno.checks_timed 0 0 Scenario.racing_low_spo2 Scenario.defaults
                            (Uno.init 4999))) = []
  /\ banners (Uno.output (Uno.checks_timed 1 0 Scenario.racing_low_spo2 Scenario.defaults
                            (Uno.init 5000)))
    = [(mkMessage "HR: %d BPM"%string 130, Uno.ALERT_LEVEL_CRITICAL)].
Proof. vm_compute. repeat split; reflexivity. Qed.

(** ** The sensor loop *)

Section SensorLoopFacts.

Variable BUFFER_SIZE FINGER_THRESHOLD : Z.
Variable maxim : list Z -> Z -> list Z -> Z * Z * Z * Z.
Hypothesis BUFFER_SIZE_pos : 0 < BUFFER_SIZE.

Lemma sensors_ok_updateSensors battery now sample n s :
  sensors_ok BUFFER_SIZE n s ->
  sensors_ok BUFFER_SIZE (n + length (option_list sample))
    (Sensors.updateSensors BUFFER_SIZE FINGER_THRESHOLD maxim battery now sample s).
Proof.
  intros ([Hhr Hsp] & Hidx & Hir & Hred).
  assert (Hrange : 0 <= Sensors.bufferIndex s < BUFFER_SIZE)
    by (rewrite Hidx; apply Z.mod_pos_bound, BUFFER_SIZE_pos).
  destruct sample as [[redValue irValue]|]; cbn [option_list length].
  - assert (Hnext : Z.of_nat (n + 1) mod BUFFER_SIZE
                    = if BUFFER_SIZE <=? Sensors.bufferIndex s + 1 then 0
                      else Sensors.bufferIndex s + 1).
    { rewrite Nat2Z.inj_add, <- Zplus_mod_idemp_l, <- Hidx. change (Z.of_nat 1) with 1.
      destruct (Z.leb_spec BUFFER_SIZE (Sensors.bufferIndex s + 1)).
      - replace (Sensors.bufferIndex s + 1) with BUFFER_SIZE by lia.
        apply Z_mod_same_full.
      - apply Z.mod_small. lia. }
    unfold Sensors.updateSensors. cbn zeta.
    destruct (BUFFER_SIZE <=? Sensors.bufferIndex s + 1).
    + unfold Sensors.process_buffer. cbn [Vitals.heartRate Vitals.spO2].
      destruct (FINGER_THRESHOLD <? wrap32 irValue).
      * destruct (maxim _ _ _) as [[[sp vsp] hr] vhr].
        unfold sensors_ok, vitals_plausible.
        cbn [Sensors.currentVitals Sensors.bufferIndex Sensors.irBuffer
             Sensors.redBuffer Vitals.heartRate Vitals.spO2].
        rewrite !length_insert. repeat split; try assumption; try (symmetry; exact Hnext).
        -- destruct (negb (vhr =? 0) && (0 <? hr) && (hr <? 200)) eqn:E; [|exact Hhr].
           exists hr. split; [reflexivity|].
           apply andb_prop in E as [E E3]. apply andb_prop in E as [_ E2]. lia.
        -- destruct (negb (vsp =? 0) && (0 <? sp) && (sp <=? 100)) eqn:E; [|exact Hsp].
           exists sp. split; [reflexivity|].
           apply andb_prop in E as [E E3]. apply andb_prop in E as [_ E2]. lia.
      * unfold sensors_ok, vitals_plausible.
        cbn [Sensors.currentVitals Sensors.bufferIndex Sensors.irBuffer
             Sensors.redBuffer Vitals.heartRate Vitals.spO2].
        rewrite !length_insert. repeat split; try assumption; try (symmetry; exact Hnext).
        -- exists 0. split; [reflexivity|lia].
        -- exists 0. split; [reflexivity|lia].
    + unfold sensors_ok, vitals_plausible.
      cbn [Sensors.currentVitals Sensors.bufferIndex Sensors.irBuffer
           Sensors.redBuffer Vitals.heartRate Vitals.spO2].
      rewrite !length_insert. repeat split; try assumption. symmetry; exact Hnext.
  - rewrite Nat.add_0_r. unfold Sensors.updateSensors, sensors_ok, vitals_plausible.
    cbn [Sensors.currentVitals Sensors.bufferIndex Sensors.irBuffer
         Sensors.redBuffer Vitals.heartRate Vitals.spO2].
    repeat split; assumption.
Qed.

Lemma sensors_ok_fold calls n s :
  sensors_ok BUFFER_SIZE n s ->
  sensors_ok BUFFER_SIZE (n + length (Sensors.samples calls))
    (fold_left (fun s c => Sensors.updateSensors BUFFER_SIZE FINGER_THRESHOLD maxim
                             (fst (fst c)) (snd (fst c)) (snd c) s) calls s).
Proof.
  revert n s. induction calls as [|[[b t] o] calls IH]; intros n s Hok; cbn [fold_left].
  - cbn. rewrite Nat.add_0_r. exact Hok.
  - apply (sensors_ok_updateSensors b t o) in Hok. apply IH in Hok.
    replace (n + length (Sensors.samples (((b, t), o) :: calls)))%nat
      with (n + length (option_list o) + length (Sensors.samples calls))%nat; [exact Hok|].
    unfold Sensors.samples. destruct o; cbn; lia.
Qed.

(** X16.  Whatever the sensor library reports, and for any sequence of
    calls since start-up, the snapshot the rest of the program reads
    holds a heart rate that is a whole number in [0, 200) and an SpO2 that
    is a whole number in [0, 100]; the write index is the number of
    samples taken so far modulo [BUFFER_SIZE], so it stays inside the two
    buffers, which keep their length. *)
Theorem updateSensors_snapshot_plausible (calls : list (Q * Z * option (Z * Z))) :
  let s := Sensors.run BUFFER_SIZE FINGER_THRESHOLD maxim calls in
  vitals_plausible (Sensors.currentVitals s)
  /\ Sensors.bufferIndex s = Z.of_nat (length (Sensors.samples calls)) mod BUFFER_SIZE
  /\ 0 <= Sensors.bufferIndex s < BUFFER_SIZE
  /\ length (Sensors.irBuffer s) = Z.to_nat BUFFER_SIZE
  /\ length (Sensors.redBuffer s) = Z.to_nat BUFFER_SIZE.
Proof.
  assert (Hinit : sensors_ok BUFFER_SIZE 0 (Sensors.init BUFFER_SIZE)).
  { unfold sensors_ok, vitals_plausible. cbn. rewrite !length_replicate.
    repeat split; try reflexivity.
    - exists 0. split; [reflexivity|lia].
    - exists 0. split; [reflexivity|lia]. }
  apply (sensors_ok_fold calls) in Hinit. cbn [Nat.add] in Hinit.
  destruct Hinit as (Hv & Hidx & Hir & Hred). cbn zeta. unfold Sensors.run.
  split; [exact Hv|]. split; [exact Hidx|]. split; [|split; assumption].
  rewrite Hidx. apply Z.mod_pos_bound, BUFFER_SIZE_pos.
Qed.

End SensorLoopFacts.

Lemma updateSensors_snapshot_plausible_wild :
  let s := Sensors.run 100 50000 Scenario.wild_maxim Scenario.wild_calls in
  vitals_plausible (Sensors.currentVitals s)
  /\ Sensors.bufferIndex s
     = Z.of_nat (length (Sensors.samples Scenario.wild_calls)) mod 100
  /\ 0 <= Sensors.bufferIndex s < 100
  /\ length (Sensors.irBuffer s) = Z.to_nat 100
  /\ length (Sensors.redBuffer s) = Z.to_nat 100.
Proof.
  apply (updateSensors_snapshot_plausible 100 50000 Scenario.wild_maxim). lia.
Defined.

(** With that library the filter keeps the snapshot at its start-up
    values although two full buffers were processed. *)
Example wild_readings_rejected :
  let s := Sensors.run 100 50000 Scenario.wild_maxim Scenario.wild_calls in
  Sensors.heartRate s = 250 /\ Sensors.spo2 s = 120
  /\ Vitals.heartRate (Sensors.currentVitals s) = 0%Q
  /\ Vitals.spO2 (Sensors.currentVitals s) = 0%Q
  /\ Sensors.bufferIndex s = 0.
Proof. vm_compute. repeat split; reflexivity. Qed.

(** ** Data logging *)

Section LogFacts.

Lemma logged_snoc vs v :
  logged (vs ++ [v]) = if loggable v then logged vs ++ [v] else logged vs.
Proof.
  unfold logged. rewrite List.filter_app. cbn [List.filter].
  destruct (loggable v); [reflexivity|apply app_nil_r].
Qed.

Lemma unolog_ok_logData vs v d :
  unolog_ok vs d -> unolog_ok (vs ++ [v]) (UnoLog.logData v d).
Proof.
  intros (Hlen & Hc & He). unfold unolog_ok. rewrite logged_snoc.
  unfold UnoLog.logData, loggable, UnoLog.DATA_BUFFER_SIZE in *.
  destruct (isFingerDetected v && Qltb 0 (Vitals.heartRate v)); [|done].
  assert (Hn : length (UnoLog.entries d) = Nat.min 50 (length (logged vs)))
    by (rewrite He; apply last_n_length).
  assert (Hcount : length (UnoLog.entries d) = Z.to_nat (UnoLog.dataBufferCount d))
    by (unfold UnoLog.entries; rewrite length_take; lia).
  rewrite (last_n_snoc 49).
  destruct (Z.ltb_spec (UnoLog.dataBufferCount d) 50);
    destruct (Nat.ltb_spec (length (logged vs)) 50); try lia;
    unfold UnoLog.entries in *; cbn [UnoLog.dataBuffer UnoLog.dataBufferCount].
  - rewrite length_insert. split; [exact Hlen|]. split; [lia|].
    replace (Z.to_nat (UnoLog.dataBufferCount d + 1))
      with (S (Z.to_nat (UnoLog.dataBufferCount d))) by lia.
    erewrite take_S_r by (apply list_lookup_insert_eq; lia).
    rewrite take_insert_ge by lia. rewrite He. unfold last_n.
    replace (length (logged vs) - 50)%nat with 0%nat by lia. reflexivity.
  - assert (Hmove : <[Z.to_nat (50 - 1) := v]> (UnoLog.memmove1 (UnoLog.dataBuffer d))
                    = drop 1 (UnoLog.dataBuffer d) ++ [v]).
    { unfold UnoLog.memmove1.
      rewrite insert_app_r_alt by (rewrite length_drop; lia).
      rewrite length_drop.
      replace (Z.to_nat (50 - 1) - (length (UnoLog.dataBuffer d) - 1))%nat
        with 0%nat by lia.
      destruct (drop (length (UnoLog.dataBuffer d) - 1) (UnoLog.dataBuffer d))
        as [|y l] eqn:E; apply (f_equal length) in E; rewrite length_drop in E;
        cbn in E; [lia|].
      destruct l; [reflexivity|cbn in E; lia]. }
    rewrite Hmove, length_app, length_drop. cbn [length].
    split; [lia|]. split; [lia|].
    rewrite take_ge by (rewrite length_app, length_drop; cbn [length]; lia).
    rewrite <- He. rewrite (take_ge (UnoLog.dataBuffer d)) by lia. reflexivity.
Qed.

Lemma esplog_ok_logData vs v d :
  esplog_ok vs d -> esplog_ok (vs ++ [v]) (Esp32Log.logData v d).
Proof.
  intros (Hb & q & Hq & Hr & Hs). unfold esplog_ok. rewrite logged_snoc.
  unfold Esp32Log.logData, loggable, Esp32Log.DATA_BUFFER_SIZE in *.
  destruct (isFingerDetected v && Qltb 0 (Vitals.heartRate v));
    [|split; [exact Hb|exists q; done]].
  assert (Hn : length (Esp32Log.dataBuffer d) = Nat.min 100 (length (logged vs)))
    by (rewrite Hb; apply last_n_length).
  assert (Hkept : (if 100 <? Z.of_nat (length (Esp32Log.dataBuffer d ++ [v]))
                   then drop 1 (Esp32Log.dataBuffer d ++ [v])
                   else Esp32Log.dataBuffer d ++ [v])
                  = last_n 100 (logged vs ++ [v])).
  { rewrite (last_n_snoc 99), length_app. cbn [length].
    destruct (Z.ltb_spec 100 (Z.of_nat (length (Esp32Log.dataBuffer d) + 1)));
      destruct (Nat.ltb_spec (length (logged vs)) 100); try lia.
    - rewrite <- Hb. destruct (Esp32Log.dataBuffer d); [cbn in *; lia|reflexivity].
    - rewrite Hb. unfold last_n.
      replace (length (logged vs) - 100)%nat with 0%nat by lia. reflexivity. }
  cbn zeta. rewrite Hkept.
  assert (Hold : forall k, In k (seq 1 q) ->
            last_n 100 (take (10 * k) (logged vs ++ [v]))
            = last_n 100 (take (10 * k) (logged vs))).
  { intros k Hk. apply in_seq in Hk. rewrite take_app_le by lia. reflexivity. }
  assert (Hmap : ((fun k => last_n 100 (take (10 * k) (logged vs ++ [v]))) <$> seq 1 q)
                 = ((fun k => last_n 100 (take (10 * k) (logged vs))) <$> seq 1 q)).
  { apply map_ext_in. exact Hold. }
  destruct (Z.leb_spec 10 (Esp32Log.saveCounter d + 1)).
  - cbn [Esp32Log.saveDataToFile Esp32Log.dataBuffer Esp32Log.saveCounter Esp32Log.saves].
    split; [reflexivity|]. exists (S q). rewrite length_app. cbn [length].
    split; [lia|]. split; [lia|].
    rewrite seq_S, fmap_app, Hmap, Hs. cbn [fmap list_fmap Nat.add]. do 2 f_equal.
    rewrite take_ge by (rewrite length_app; cbn [length]; lia). reflexivity.
  - cbn [Esp32Log.dataBuffer Esp32Log.saveCounter Esp32Log.saves].
    split; [reflexivity|]. exists q. rewrite length_app. cbn [length].
    split; [lia|]. split; [lia|]. rewrite Hmap. exact Hs.
Qed.

(** X17.  The data log is a first-in first-out window on the accepted
    readings: after any sequence of [logData] calls since start-up it
    holds, oldest first, exactly the latest snapshots that had a finger on
    the sensor and a positive heart rate, up to [DATA_BUFFER_SIZE] of them
    (50 in the Uno sketch, 100 in the ESP32 sketch); snapshots that fail
    the test leave no trace. *)
Theorem logData_keeps_latest (snapshots : list VitalSigns) :
  UnoLog.entries (UnoLog.run snapshots) = last_n 50 (logged snapshots)
  /\ Esp32Log.dataBuffer (Esp32Log.run snapshots) = last_n 100 (logged snapshots).
Proof.
  split.
  - assert (H : unolog_ok snapshots (UnoLog.run snapshots)); [|apply H].
    unfold UnoLog.run. induction snapshots as [|v vs IH] using rev_ind.
    + unfold unolog_ok, UnoLog.DATA_BUFFER_SIZE. cbn.
      repeat split; try lia; reflexivity.
    + rewrite fold_left_app. cbn [fold_left]. apply unolog_ok_logData, IH.
  - assert (H : esplog_ok snapshots (Esp32Log.run snapshots)); [|apply H].
    unfold Esp32Log.run. induction snapshots as [|v vs IH] using rev_ind.
    + split; [reflexivity|]. exists 0%nat. cbn. repeat split; lia.
    + rewrite fold_left_app. cbn [fold_left]. apply esplog_ok_logData, IH.
Qed.

(** X18.  The ESP32 sketch rewrites its file at every tenth accepted
    reading and at no other time: the [k]-th save writes the window as it
    stood after accepted reading [10 * k], so the file lags the buffer by
    up to nine readings, and [saveCounter] counts the readings accepted
    since the last save. *)
Theorem logData_saves_every_tenth (snapshots : list VitalSigns) :
  let d := Esp32Log.run snapshots in
  Esp32Log.saves d
    = (fun k => last_n 100 (take (10 * k) (logged snapshots)))
      <$> seq 1 (length (logged snapshots) / 10)
  /\ Esp32Log.saveCounter d = Z.of_nat (length (logged snapshots) mod 10).
Proof.
  assert (H : esplog_ok snapshots (Esp32Log.run snapshots)).
  { unfold Esp32Log.run. induction snapshots as [|v vs IH] using rev_ind.
    + split; [reflexivity|]. exists 0%nat. cbn. repeat split; lia.
    + rewrite fold_left_app. cbn [fold_left]. apply esplog_ok_logData, IH. }
  destruct H as (_ & q & Hq & Hr & Hs). cbn zeta.
  assert (Hdiv : (length (logged snapshots) / 10)%nat = q).
  { symmetry. apply (Nat.div_unique _ 10 q (Z.to_nat (Esp32Log.saveCounter
                                                    (Esp32Log.run snapshots)))); lia. }
  assert (Hmod : (length (logged snapshots) mod 10)%nat
                 = Z.to_nat (Esp32Log.saveCounter (Esp32Log.run snapshots))).
  { symmetry. apply (Nat.mod_unique _ 10 q); lia. }
  rewrite Hdiv, Hmod. split; [exact Hs|lia].
Qed.

End LogFacts.

(** ** The plain monitor *)

Section MonitorFacts.

Lemma take_take_app {A : Type} (n : nat) (l l' : list A) :
  take n (take n l ++ l') = take n (l ++ l').
Proof.
  destruct (Nat.le_gt_cases n (length l)).
  - rewrite !take_app_le by (rewrite ?length_take; lia). apply take_idemp.
  - rewrite (take_ge l) by lia. reflexivity.
Qed.

Lemma monitor_logData v w :
  length (Monitor.dataBuffer w) = 10%nat ->
  0 <= Monitor.dataBufferIndex w <= 10 ->
  let w' := Monitor.logData v w in
  length (Monitor.dataBuffer w') = 10%nat
  /\ 0 <= Monitor.dataBufferIndex w' <= 10
  /\ Monitor.entries w' = take 10 (Monitor.entries w ++ logged [v]).
Proof.
  intros Hlen Hidx. cbn zeta.
  assert (Hn : length (Monitor.entries w) = Z.to_nat (Monitor.dataBufferIndex w))
    by (unfold Monitor.entries; rewrite length_take; lia).
  unfold logged, loggable, Monitor.logData, Monitor.DATA_BUFFER_SIZE. cbn [List.filter].
  destruct (isFingerDetected v && Qltb 0 (Vitals.heartRate v)).
  - destruct (Z.ltb_spec (Monitor.dataBufferIndex w) 10);
      unfold Monitor.entries in *;
      cbn [Monitor.saveDataToEEPROM Monitor.dataBuffer Monitor.dataBufferIndex].
    + rewrite length_insert. split; [exact Hlen|]. split; [lia|].
      replace (Z.to_nat (Monitor.dataBufferIndex w + 1))
        with (S (Z.to_nat (Monitor.dataBufferIndex w))) by lia.
      erewrite take_S_r by (apply list_lookup_insert_eq; lia).
      rewrite take_insert_ge by lia.
      symmetry. apply take_ge. rewrite length_app. cbn [length]. lia.
    + split; [exact Hlen|]. split; [lia|].
      rewrite take_app_le by lia. symmetry. apply take_ge. lia.
  - split; [exact Hlen|]. split; [lia|].
    rewrite app_nil_r. symmetry. apply take_ge. unfold Monitor.entries in *. lia.
Qed.

(** X19.  The data log of the plain monitor never evicts: it takes the
    accepted readings until its ten slots are used and ignores every
    reading after that, so it ends up holding the oldest readings, not
    the latest. *)
Theorem monitor_log_stops_when_full (snapshots : list VitalSigns) (w : Monitor.World) :
  length (Monitor.dataBuffer w) = 10%nat ->
  0 <= Monitor.dataBufferIndex w <= 10 ->
  Monitor.entries (fold_left (fun w v => Monitor.logData v w) snapshots w)
  = take 10 (Monitor.entries w ++ logged snapshots).
Proof.
  revert w. induction snapshots as [|v vs IH]; intros w Hlen Hidx; cbn [fold_left].
  - unfold logged. cbn [List.filter]. rewrite app_nil_r. symmetry. apply take_ge.
    unfold Monitor.entries. rewrite length_take. lia.
  - destruct (monitor_logData v w Hlen Hidx) as (Hlen' & Hidx' & He).
    rewrite (IH _ Hlen' Hidx'), He, take_take_app, <- app_assoc.
    unfold logged. cbn [List.filter]. destruct (loggable v); reflexivity.
Qed.

Lemma elapsed_same t : elapsed (millis t) (millis t) = 0.
Proof. unfold elapsed. rewrite Z.sub_diag. reflexivity. Qed.

Lemma loop_alerts_blocked currentTime v t w :
  elapsed (millis (Monitor.clock w)) currentTime < Monitor.ALERT_COOLDOWN ->
  Monitor.loop_alerts currentTime v t w = w
  \/ Monitor.loop_alerts currentTime v t w = Monitor.set_lastAlertCheck currentTime w.
Proof.
  intros Hsoon. unfold Monitor.loop_alerts.
  destruct (1000 <=? elapsed currentTime (Monitor.lastAlertCheck w)); [right|left; reflexivity].
  unfold Monitor.checkAlerts. cbn [Monitor.set_lastAlertCheck Monitor.clock Monitor.lastAlertCheck].
  destruct (Z.ltb_spec (elapsed (millis (Monitor.clock w)) currentTime) Monitor.ALERT_COOLDOWN);
    [reflexivity|lia].
Qed.

(** X20.  [loop] stores the time it read on entry in [lastAlertCheck]
    just before it calls [checkAlerts], and [checkAlerts] measures its
    5 s cooldown from that same variable: unless the pass already took 5 s
    or more to reach the call, [checkAlerts] returns before its first
    test.  The alert step then changes nothing but [lastAlertCheck]: no
    banner, no sound, no alert made active, whatever the vital signs. *)
Theorem checkAlerts_gated_by_loop (currentTime : Z) (v : VitalSigns)
    (t : AlertThresholds) (w : Monitor.World) :
  elapsed (millis (Monitor.clock w)) currentTime < Monitor.ALERT_COOLDOWN ->
  let w' := Monitor.loop_alerts currentTime v t w in
  Monitor.alertActive w' = Monitor.alertActive w
  /\ Monitor.activeAlert w' = Monitor.activeAlert w
  /\ Monitor.output w' = Monitor.output w
  /\ Monitor.clock w' = Monitor.clock w.
Proof.
  intros Hsoon. cbn zeta.
  destruct (loop_alerts_blocked currentTime v t w Hsoon) as [-> | ->]; done.
Qed.

(** X21.  With the clock advancing only in [delay], [loop] reads the
    clock, reaches the alert step in the same instant and so never gets
    past the cooldown test: from start-up on, whatever the snapshots and
    thresholds of the passes, no alert is ever made active, nothing is
    drawn and the buzzer pin is never written. *)
Theorem monitor_never_alerts (boot : Z)
    (passes : list (bool * VitalSigns * AlertThresholds)) :
  let w := Monitor.run boot passes in
  Monitor.alertActive w = false /\ Monitor.output w = [].
Proof.
  cbn zeta. unfold Monitor.run.
  assert (Hinit : Monitor.alertActive (Monitor.init boot) = false
                  /\ Monitor.output (Monitor.init boot) = []) by done.
  revert Hinit. generalize (Monitor.init boot).
  induction passes as [|[[d v] t] passes IH]; intros w [Ha Ho]; cbn [fold_left fst snd];
    [done|].
  apply IH. unfold Monitor.loop. rewrite Ha, andb_false_r.
  destruct (loop_alerts_blocked (millis (Monitor.clock w)) v t w) as [-> | ->];
    [rewrite elapsed_same; unfold Monitor.ALERT_COOLDOWN; lia|done|done].
Qed.

End MonitorFacts.

Lemma monitor_log_stops_when_full_twelve :
  Monitor.entries (fold_left (fun w v => Monitor.logData v w) Scenario.twelve_readings
                     (Monitor.init 0))
  = take 10 (Monitor.entries (Monitor.init 0) ++ logged Scenario.twelve_readings).
Proof.
  apply (monitor_log_stops_when_full Scenario.twelve_readings (Monitor.init 0));
    [reflexivity|simpl; lia].
Defined.

Lemma checkAlerts_gated_by_loop_flat_battery :
  let t := {| heartRateMin := 50; heartRateMax := 120; spO2Min := 90;
              batteryMin := 20; enabled := true |} in
  let w' := Monitor.loop_alerts 7000 Scenario.flat_battery t (Monitor.init 7000) in
  Monitor.alertActive w' = Monitor.alertActive (Monitor.init 7000)
  /\ Monitor.activeAlert w' = Monitor.activeAlert (Monitor.init 7000)
  /\ Monitor.output w' = Monitor.output (Monitor.init 7000)
  /\ Monitor.clock w' = Monitor.clock (Monitor.init 7000).
Proof.
  apply (checkAlerts_gated_by_loop 7000). vm_compute. reflexivity.
Defined.

(** Called on its own at the same moment, [checkAlerts] does raise the
    battery alert. *)
Example checkAlerts_alone_raises :
  let t := {| heartRateMin := 50; heartRateMax := 120; spO2Min := 90;
              batteryMin := 20; enabled := true |} in
  let w' := Monitor.checkAlerts Scenario.flat_battery t (Monitor.init 7000) in
  Monitor.alertActive w' = true
  /\ banners (Monitor.output w') = [(mkMessage "Bat: %d%%"%string 5, Monitor.WARNING)]
  /\ Monitor.clock w' = 7800.
Proof. vm_compute. repeat split; reflexivity. Qed.

(** ** The alert latch of cardiac_impo.ino *)

Section LatchFacts.

Variable rnd : Q -> Q.





End LatchFacts.


(** In that run the heart-rate alert is shown and the low battery,
    checked with the cooldown over, is not. *)
Example low_battery_never_announced :
  let w' := fold_left (ImpoAlerts.step (fun x => x)) Scenario.racing_then_flat
              (ImpoAlerts.init 5000) in
  ImpoAlerts.alertScreens w' = ["Heart Rate Alert"%string]
  /\ ImpoAlerts.lastAlertCheck w' = 9200.
Proof. vm_compute. split; reflexivity. Qed.
